(** * The Synthesis ranking engine: normalisation, weighting and ranking

    A shallow embedding of [synthesis_calculator.py] (and of the normaliser
    of [pfo_calculator.py]) together with the properties its specification
    states about them, followed by the other calculators
    ([pfo_calculator.py], [asc_calculator.py], [tco_calculator.py]) and
    the complete evaluation of [main_calculator.py], with properties read
    off their code.

    Conventions of the embedding.
    - A Python [float] is an exact rational [Q]: the development is about
      the arithmetic the formulas denote, not about binary64 rounding, and
      has neither infinities nor NaN.  Python's [==], [<] and [>] on floats
      compare values, so they are [Qeq] and [Qlt] here, never Leibniz
      equality of fractions.
    - A Python [dict] from key names to floats is a [gmap string Q].  A
      dict is traversed here in the order of the map, not in insertion
      order; sums and the first exception raised do not depend on it in
      exact arithmetic.
    - Code that may raise returns a [result]: [Ok v] or [Raise e], where
      [e] is one of the built-in exceptions the code can really raise.
    - [input()] is replaced by the already parsed answers, or, where the
      conversions of a script are part of what is stated, by the lines
      typed, which [float] and [int] may reject with [ValueError]. *)

From Stdlib Require Import QArith Qabs Lqa Qfield.
From Stdlib Require Import Sorted Permutation.
From Stdlib Require Import PrimFloat.
From stdpp Require Import gmap strings list fin_maps.

#[local] Open Scope Q_scope.

(** ** Python run-time notions used by the scripts *)

Inductive exn : Set :=
  | ZeroDivisionError
  | ValueError
  | KeyError.

Inductive result (A : Type) : Type :=
  | Ok (a : A)
  | Raise (e : exn).

Arguments Ok {A} a.
Arguments Raise {A} e.

#[global] Instance result_ret : MRet result := @Ok.

#[global] Instance result_bind : MBind result :=
  fun A B (f : A -> result B) (m : result A) =>
    match m with
    | Ok a => f a
    | Raise e => Raise e
    end.

(** [a / b] on floats: raises on a zero divisor. *)
Definition truediv (a b : Q) : result Q :=
  if Qeq_bool b 0 then Raise ZeroDivisionError else Ok (a / b).

(** [d[k]]: raises [KeyError] on a missing key. *)
Definition getitem (d : gmap string Q) (k : string) : result Q :=
  match d !! k with
  | Some v => Ok v
  | None => Raise KeyError
  end.

(** [sum(d.values())]: starts from 0 and adds every value. *)
Definition sum_values (d : gmap string Q) : Q :=
  map_fold (fun _ v acc => acc + v) 0 d.

(** [min(xs)]: the first smallest item; [ValueError] on an empty sequence. *)
Definition py_min (xs : list Q) : result Q :=
  match xs with
  | [] => Raise ValueError
  | x :: rest =>
      Ok (fold_left (fun cur item => if Qlt_le_dec item cur then item else cur)
                    rest x)
  end.

(** [max(xs)]: the first largest item; [ValueError] on an empty sequence. *)
Definition py_max (xs : list Q) : result Q :=
  match xs with
  | [] => Raise ValueError
  | x :: rest =>
      Ok (fold_left (fun cur item => if Qlt_le_dec cur item then item else cur)
                    rest x)
  end.

(** [enumerate(xs, start)]. *)
Fixpoint enumerate {A : Type} (start : nat) (xs : list A) : list (nat * A) :=
  match xs with
  | [] => []
  | x :: rest => (start, x) :: enumerate (S start) rest
  end.

(** [xs.sort(key=key, reverse=True)].  Python's sort is stable, and with
    [reverse=True] items of equal key still keep their original order.  The
    result of such a sort is determined by the input; it is computed here
    by insertion from the right: an item goes in front of the first item
    whose key is not larger than its own. *)
Fixpoint insert_desc {A : Type} (key : A -> Q) (x : A) (xs : list A) : list A :=
  match xs with
  | [] => [x]
  | y :: rest =>
      if Qlt_le_dec (key x) (key y)
      then y :: insert_desc key x rest
      else x :: y :: rest
  end.

Definition sort_reverse {A : Type} (key : A -> Q) (xs : list A) : list A :=
  foldr (insert_desc key) [] xs.

(** A line typed at a prompt, as the conversion that reads it sees it:
    nothing at all, a text that it accepts, given by the number that it
    makes of it, or any other text.  [float] also accepts "inf" and "nan";
    they are no numbers of this embedding. *)
Inductive line (A : Type) : Type :=
  | Blank
  | Denotes (x : A)
  | Garbled.

Arguments Blank {A}.
Arguments Denotes {A} x.
Arguments Garbled {A}.

(** [float(input(...))] and [int(input(...))]: [ValueError] for a line that
    denotes no number, the empty line included. *)
Definition float_of (text : line Q) : result Q :=
  match text with
  | Denotes x => Ok x
  | Blank | Garbled => Raise ValueError
  end.

Definition int_of (text : line Z) : result Z :=
  match text with
  | Denotes z => Ok z
  | Blank | Garbled => Raise ValueError
  end.

(** ** pfo_calculator.py *)

Module Pfo.

Definition normalize_score (score min_val max_val : Q) : Q :=
  if Qeq_bool max_val min_val then 0.0
  else (score - min_val) / (max_val - min_val).

Definition calculate_detection_score (accuracy f1_score : Q) : Q :=
  (accuracy * f1_score) / 10000.

Definition calculate_efficiency_score (training_time inference_time : Q)
  : result Q :=
  a ← truediv 1 training_time;
  b ← truediv 1 inference_time;
  Ok (a * b).

Definition get_edge_compatibility (is_edge_deployable : bool)
    (model_size_mb : Q) : Q :=
  if is_edge_deployable then 1.0
  else if Qlt_le_dec model_size_mb 10 then 0.8
  else 0.2.

Definition calculate_deployment_score (model_size_mb edge_compatibility : Q)
  : result Q :=
  a ← truediv 1 model_size_mb;
  Ok (a * edge_compatibility).

Definition calculate_composite_pfo
    (detection efficiency_norm deployment_norm : Q) : Q :=
  (1 / 3) * detection + (1 / 3) * efficiency_norm + (1 / 3) * deployment_norm.

(** *** [main] *)

(** The answers to "compare with baseline models?": [None] for no, or the
    four bounds typed in. *)
Record Baseline : Type := {
  eff_min : Q;
  eff_max : Q;
  dep_min : Q;
  dep_max : Q
}.

(** What [main] prints. *)
Record Report : Type := {
  detection_score : Q;
  efficiency_score : Q;
  edge_compatibility : Q;
  deployment_score : Q;
  (** the normalised efficiency and deployment, in the comparison branch *)
  normalized : option (Q * Q);
  (** [composite_pfo], or [composite_raw] in the standalone branch *)
  composite : Q
}.

(** [min(a, b)] of two arguments: [b] only when it is smaller. *)
Definition min2 (a b : Q) : Q := if Qlt_le_dec b a then b else a.

Definition main (accuracy f1_score training_time inference_time model_size : Q)
    (is_edge_deployable : bool) (compare : option Baseline) : result Report :=
  let detection_score := calculate_detection_score accuracy f1_score in
  efficiency_score ← calculate_efficiency_score training_time inference_time;
  let edge_compatibility :=
    get_edge_compatibility is_edge_deployable model_size in
  deployment_score ← calculate_deployment_score model_size edge_compatibility;
  match compare with
  | Some b =>
      let efficiency_norm :=
        normalize_score efficiency_score (eff_min b) (eff_max b) in
      let deployment_norm :=
        normalize_score deployment_score (dep_min b) (dep_max b) in
      Ok {| detection_score := detection_score;
            efficiency_score := efficiency_score;
            edge_compatibility := edge_compatibility;
            deployment_score := deployment_score;
            normalized := Some (efficiency_norm, deployment_norm);
            composite :=
              calculate_composite_pfo detection_score efficiency_norm
                                      deployment_norm |}
  | None =>
      Ok {| detection_score := detection_score;
            efficiency_score := efficiency_score;
            edge_compatibility := edge_compatibility;
            deployment_score := deployment_score;
            normalized := None;
            composite :=
              (detection_score + min2 (efficiency_score / 1000) 1
               + min2 deployment_score 1) / 3 |}
  end.

End Pfo.

(** ** synthesis_calculator.py *)

Module Synthesis.

Definition WEIGHTS : gmap string Q :=
  <["efficiency" := 0.10]>
    (<["deployment" := 0.15]>
       (<["tco" := 0.20]>
          (<["asc" := 0.25]>
             (<["detection" := 0.30]> ∅)))).

Definition normalize_score (score min_val max_val : Q) (inverse : bool) : Q :=
  if Qeq_bool max_val min_val then
    (if inverse then 100.0 else 0.0)
  else if inverse then
    ((max_val - score) / (max_val - min_val)) * 100
  else
    ((score - min_val) / (max_val - min_val)) * 100.

(** [w = weights or WEIGHTS]: [None] and the empty dict are both falsy. *)
Definition weights_or_default (weights : option (gmap string Q)) : gmap string Q :=
  match weights with
  | None => WEIGHTS
  | Some w => if decide (w = ∅) then WEIGHTS else w
  end.

Definition calculate_final_score
    (detection_norm asc_norm tco_norm deployment_norm efficiency_norm : Q)
    (weights : option (gmap string Q)) : result Q :=
  let w := weights_or_default weights in
  wd ← getitem w "detection";
  wa ← getitem w "asc";
  wt ← getitem w "tco";
  wp ← getitem w "deployment";
  we ← getitem w "efficiency";
  Ok (wd * detection_norm +
      wa * asc_norm +
      wt * tco_norm +
      wp * deployment_norm +
      we * efficiency_norm).

(** *** [main]: the custom weights (lines 89-106) *)

(** The five answers to the weight prompts; [None] is an empty line, for
    which [float(input(...) or weights[k])] keeps the current weight. *)
Record WeightAnswers : Type := {
  ans_detection : option Q;
  ans_asc : option Q;
  ans_tco : option Q;
  ans_deployment : option Q;
  ans_efficiency : option Q
}.

Definition answer_or (ans : option Q) (current : Q) : Q :=
  match ans with
  | Some v => v
  | None => current
  end.

Definition read_weights (ans : WeightAnswers) (weights : gmap string Q)
  : result (gmap string Q) :=
  cur ← getitem weights "detection";
  let weights := <["detection" := answer_or (ans_detection ans) cur]> weights in
  cur ← getitem weights "asc";
  let weights := <["asc" := answer_or (ans_asc ans) cur]> weights in
  cur ← getitem weights "tco";
  let weights := <["tco" := answer_or (ans_tco ans) cur]> weights in
  cur ← getitem weights "deployment";
  let weights := <["deployment" := answer_or (ans_deployment ans) cur]> weights in
  cur ← getitem weights "efficiency";
  let weights := <["efficiency" := answer_or (ans_efficiency ans) cur]> weights in
  Ok weights.

(** [for key in weights: weights[key] /= total_weight].  Every key is
    overwritten, so the dict after the loop is the one built from the
    quotients; the first division that raises ends the loop. *)
Definition renormalize (total_weight : Q) (weights : gmap string Q)
  : result (gmap string Q) :=
  map_fold
    (fun key v (acc : result (gmap string Q)) =>
       done ← acc;
       q ← truediv v total_weight;
       Ok (<[key := q]> done))
    (Ok ∅) weights.

(** Lines 89-106.  [custom] says whether the answer to "Use default
    weights?" was "no" or "n".  The first component of the outcome tells
    whether the warning was printed. *)
Definition build_weights (custom : bool) (ans : WeightAnswers)
  : bool * result (gmap string Q) :=
  let weights := WEIGHTS in
  if custom then
    match read_weights ans weights with
    | Raise e => (false, Raise e)
    | Ok weights =>
        let total_weight := sum_values weights in
        if Qlt_le_dec 0.01 (Qabs (total_weight - 1.0))
        then (true, renormalize total_weight weights)
        else (false, Ok weights)
    end
  else (false, Ok weights).

(** *** [main]: comparison of several models (lines 111-202) *)

Record Model : Type := {
  name : string;
  detection : Q;
  asc : Q;
  tco : Q;
  deployment : Q;
  efficiency : Q
}.

(** The dict appended to [results]; [r_name] is its ['name'] key. *)
Record Result : Type := {
  r_name : string;
  detection_norm : Q;
  asc_norm : Q;
  tco_norm : Q;
  deployment_norm : Q;
  efficiency_norm : Q;
  final_score : Q
}.

(** The body of the loop of lines 146-163. *)
Definition score_model (weights : gmap string Q)
    (tco_min tco_max dep_min dep_max eff_min eff_max : Q) (m : Model)
  : result Result :=
  let det_norm := detection m in
  let asc_norm := asc m in
  let tco_norm := normalize_score (tco m) tco_min tco_max true in
  let dep_norm := normalize_score (deployment m) dep_min dep_max false in
  let eff_norm := normalize_score (efficiency m) eff_min eff_max false in
  final ← calculate_final_score det_norm asc_norm tco_norm dep_norm eff_norm
                                (Some weights);
  Ok {| r_name := name m;
        detection_norm := det_norm;
        asc_norm := asc_norm;
        tco_norm := tco_norm;
        deployment_norm := dep_norm;
        efficiency_norm := eff_norm;
        final_score := final |}.

(** Lines 136-163: [results] before it is sorted. *)
Definition score_models (weights : gmap string Q) (models : list Model)
  : result (list Result) :=
  tco_min ← py_min (map tco models);
  tco_max ← py_max (map tco models);
  dep_min ← py_min (map deployment models);
  dep_max ← py_max (map deployment models);
  eff_min ← py_min (map efficiency models);
  eff_max ← py_max (map efficiency models);
  mapM (score_model weights tco_min tco_max dep_min dep_max eff_min eff_max)
       models.

(** Lines 136-166: [results] after [results.sort(...)]. *)
Definition compare_models (weights : gmap string Q) (models : list Model)
  : result (list Result) :=
  results ← score_models weights models;
  Ok (sort_reverse final_score results).

(** Lines 200-202: the rows of the final table, [(rank, result)]. *)
Definition final_rankings (results : list Result) : list (nat * Result) :=
  enumerate 1 results.

(** [main] in mode 2, from the parsed answers to the printed ranking. *)
Definition main_compare (custom : bool) (ans : WeightAnswers)
    (models : list Model) : bool * result (list (nat * Result)) :=
  let (warned, built) := build_weights custom ans in
  (warned,
   weights ← built;
   results ← compare_models weights models;
   Ok (final_rankings results)).

(** *** [main] in mode 2, from the lines typed *)

(** The lines typed at the five weight prompts (lines 96-100). *)
Record WeightInput : Type := {
  in_weight_detection : line Q;
  in_weight_asc : line Q;
  in_weight_tco : line Q;
  in_weight_deployment : line Q;
  in_weight_efficiency : line Q
}.

(** [float(input(...) or weights[k])] up to the assignment: an empty line
    leaves the choice to the current weight, a text that is not a number
    raises [ValueError]. *)
Definition float_answer (text : line Q) : result (option Q) :=
  match text with
  | Blank => Ok None
  | Denotes x => Ok (Some x)
  | Garbled => Raise ValueError
  end.

Definition read_weight_input (w : WeightInput) : result WeightAnswers :=
  d ← float_answer (in_weight_detection w);
  a ← float_answer (in_weight_asc w);
  t ← float_answer (in_weight_tco w);
  p ← float_answer (in_weight_deployment w);
  e ← float_answer (in_weight_efficiency w);
  Ok {| ans_detection := d;
        ans_asc := a;
        ans_tco := t;
        ans_deployment := p;
        ans_efficiency := e |}.

(** The lines typed for one model (lines 120-125). *)
Record ModelInput : Type := {
  in_name : string;
  in_detection : line Q;
  in_asc : line Q;
  in_tco : line Q;
  in_deployment : line Q;
  in_efficiency : line Q
}.

Definition read_model (m : ModelInput) : result Model :=
  detection ← float_of (in_detection m);
  asc ← float_of (in_asc m);
  tco ← float_of (in_tco m);
  deployment ← float_of (in_deployment m);
  efficiency ← float_of (in_efficiency m);
  Ok {| name := in_name m;
        detection := detection;
        asc := asc;
        tco := tco;
        deployment := deployment;
        efficiency := efficiency |}.

(** Lines 89-166 in mode 2.  [customize] holds the weight lines when the
    answer to "Use default weights?" was "no" or "n".  The weights are
    built before the number of models is asked; [typed_models i] are the
    lines typed for model [i + 1], of which the loop over
    [range(num_models)] reads the first [num_models]. *)
Definition main_compare_from_input (customize : option WeightInput)
    (num_models : line Z) (typed_models : nat -> ModelInput)
  : bool * result (list (nat * Result)) :=
  let (warned, built) :=
    match customize with
    | Some w =>
        match read_weight_input w with
        | Raise e => (false, Raise e)
        | Ok ans => build_weights true ans
        end
    | None => (false, Ok WEIGHTS)
    end in
  (warned,
   weights ← built;
   num_models ← int_of num_models;
   models ← mapM (fun i => read_model (typed_models i))
                 (seq 0 (Z.to_nat num_models));
   results ← compare_models weights models;
   Ok (final_rankings results)).

End Synthesis.

(** ** The normaliser on binary64 floats

    [normalize_score] once more, on the machine representation of Python's
    floats.  It is run on the inputs at which a property of the rational
    model fails, where every operation is exact and the two agree.  The
    default weighted sum is run at the two ends of the scale. *)

Module Binary64.

#[local] Open Scope float_scope.

Definition normalize_score (score min_val max_val : float) (inverse : bool)
  : float :=
  if PrimFloat.eqb max_val min_val then
    (if inverse then 100 else 0)
  else if inverse then
    ((max_val - score) / (max_val - min_val)) * 100
  else
    ((score - min_val) / (max_val - min_val)) * 100.

(** [calculate_final_score] with the default weights, its products and
    sums in the order of the source. *)
#[warnings="-inexact-float"]
Definition calculate_final_score
    (detection_norm asc_norm tco_norm deployment_norm efficiency_norm : float)
  : float :=
  0.30 * detection_norm + 0.25 * asc_norm + 0.20 * tco_norm
  + 0.15 * deployment_norm + 0.10 * efficiency_norm.

End Binary64.

(** ** More Python run-time notions *)

(** [s.lower()] on ASCII text: the letters A-Z become a-z, every other
    byte is kept. *)
Definition ascii_lower (c : Ascii.ascii) : Ascii.ascii :=
  let n := Ascii.N_of_ascii c in
  if ((65 <=? n) && (n <=? 90))%N then Ascii.ascii_of_N (n + 32) else c.

Fixpoint lower (s : string) : string :=
  match s with
  | EmptyString => EmptyString
  | String c rest => String (ascii_lower c) (lower rest)
  end.

(** [int(x)] on a float: truncation towards zero. *)
Definition py_int (x : Q) : Q :=
  inject_Z (Z.quot (Qnum x) (Z.pos (Qden x))).

(** [d.get(k, default)]. *)
Definition dict_get {V : Type} (d : gmap string V) (k : string) (default : V)
  : V :=
  match d !! k with
  | Some v => v
  | None => default
  end.

(** ** asc_calculator.py *)

Module Asc.

(** The counts are the [int]s that [main] passes; a call with neither a
    recall nor counts is outside this embedding. *)
Definition calculate_tpr (true_positives false_negatives : Z)
    (recall : option Q) : result Q :=
  match recall with
  | Some r => Ok r
  | None =>
      q ← truediv (inject_Z true_positives)
                  (inject_Z (true_positives + false_negatives));
      Ok (q * 100)
  end.

Definition calculate_fpr_min (fpr : Q) : Q :=
  (1 - fpr) * 100.

Definition get_novel_attack_score (architecture_type : string) : Z :=
  let scores : gmap string Z :=
    <["traditional" := 70%Z]>
      (<["hybrid" := 80%Z]>
         (<["attention" := 90%Z]> ∅)) in
  dict_get scores (lower architecture_type) 70%Z.

Definition calculate_inference_efficiency
    (model_inference_time fastest_inference_time : Q) : result Q :=
  q ← truediv fastest_inference_time model_inference_time;
  Ok (q * 100).

Definition calculate_asc (tpr fpr_min novel_attack inference_eff : Q) : Q :=
  (0.35 * tpr) + (0.35 * fpr_min) + (0.15 * novel_attack)
  + (0.15 * inference_eff).

(** *** [main] *)

(** The answer to the first prompt: option 2 with the two counts, or the
    recall typed in directly. *)
Inductive TprInput : Type :=
  | Counts (tp fn : Z)
  | Direct (recall : Q).

(** The line printed under INTERPRETATION. *)
Definition interpretation (asc_score : Q) : string :=
  if Qle_bool 97 asc_score then
    "  Excellent security coverage - suitable for high-security IIoT environments"
  else if Qle_bool 95 asc_score then
    "  Very good security coverage - suitable for most industrial deployments"
  else if Qle_bool 90 asc_score then
    "  Good security coverage - adequate for standard IIoT applications"
  else
    "  Moderate security coverage - consider improvements for critical infrastructure".

(** What [main] prints. *)
Record Report : Type := {
  tpr : Q;
  fpr : Q;
  fpr_min : Q;
  novel_attack : Z;
  inference_eff : Q;
  asc_score : Q;
  verdict : string
}.

Definition main (tpr_input : TprInput) (fpr_value : Q) (arch_choice : string)
    (model_infer_time fastest_infer_time : Q) : result Report :=
  tpr ← match tpr_input with
        | Counts tp fn => calculate_tpr tp fn None
        | Direct recall => Ok recall
        end;
  let fpr := if Qlt_le_dec 1 fpr_value then fpr_value / 100 else fpr_value in
  let fpr_min := calculate_fpr_min fpr in
  let arch_map : gmap string string :=
    <["3" := "traditional"]> (<["2" := "hybrid"]> (<["1" := "attention"]> ∅)) in
  let architecture := dict_get arch_map arch_choice "traditional" in
  let novel_attack := get_novel_attack_score architecture in
  inference_eff ←
    calculate_inference_efficiency model_infer_time fastest_infer_time;
  let asc_score :=
    calculate_asc tpr fpr_min (inject_Z novel_attack) inference_eff in
  Ok {| tpr := tpr;
        fpr := fpr;
        fpr_min := fpr_min;
        novel_attack := novel_attack;
        inference_eff := inference_eff;
        asc_score := asc_score;
        verdict := interpretation asc_score |}.

(** *** [main], from the lines typed *)

(** The lines typed at the prompts of [main] (lines 113-153).  The two
    counts are read after the answer "2" to the first prompt, the recall
    after any other answer. *)
Record Input : Type := {
  in_input_type : string;
  in_tp : line Z;
  in_fn : line Z;
  in_recall : line Q;
  in_fpr : line Q;
  in_arch_choice : string;
  in_model_infer_time : line Q;
  in_fastest_infer_time : line Q
}.

(** Lines 113-158: every conversion and every division at its place in the
    order of the prompts. *)
Definition main_from_input (i : Input) : result Report :=
  tpr ← (if decide (in_input_type i = "2") then
           tp ← int_of (in_tp i);
           fn ← int_of (in_fn i);
           calculate_tpr tp fn None
         else float_of (in_recall i));
  fpr_value ← float_of (in_fpr i);
  let fpr := if Qlt_le_dec 1 fpr_value then fpr_value / 100 else fpr_value in
  let fpr_min := calculate_fpr_min fpr in
  let arch_map : gmap string string :=
    <["3" := "traditional"]> (<["2" := "hybrid"]> (<["1" := "attention"]> ∅)) in
  let architecture := dict_get arch_map (in_arch_choice i) "traditional" in
  let novel_attack := get_novel_attack_score architecture in
  model_infer_time ← float_of (in_model_infer_time i);
  fastest_infer_time ← float_of (in_fastest_infer_time i);
  inference_eff ←
    calculate_inference_efficiency model_infer_time fastest_infer_time;
  let asc_score :=
    calculate_asc tpr fpr_min (inject_Z novel_attack) inference_eff in
  Ok {| tpr := tpr;
        fpr := fpr;
        fpr_min := fpr_min;
        novel_attack := novel_attack;
        inference_eff := inference_eff;
        asc_score := asc_score;
        verdict := interpretation asc_score |}.

End Asc.

(** ** tco_calculator.py *)

Module Tco.

Definition DEFAULT_PARAMS : gmap string Q :=
  list_to_map
    [ ("num_devices", 1000);
      ("evaluation_years", 5);
      ("flows_per_device_per_day", 10000);
      ("base_infrastructure", 50000);
      ("hardware_cost_per_mb", 350);
      ("network_cost_edge", 10000);
      ("network_cost_centralized", 50000);
      ("integration_cost_edge", 20000);
      ("integration_cost_dl", 100000);
      ("retraining_frequency_per_year", 1);
      ("training_compute_rate_per_hour", 2);
      ("inference_compute_rate_per_hour", 0.5);
      ("energy_cost_per_device_5year", 90);
      ("alert_investigation_time_min", 10);
      ("soc_analyst_rate_per_hour", 75);
      ("expansion_fee_edge", 80000);
      ("expansion_fee_non_edge", 50000);
      ("base_audit_fee", 120000);
      ("interpretability_high", 1.0);
      ("interpretability_medium", 0.5);
      ("interpretability_low", 0.2) ].

(** [p = params or DEFAULT_PARAMS]: [None] and the empty dict are falsy. *)
Definition params_or_default (params : option (gmap string Q))
  : gmap string Q :=
  match params with
  | None => DEFAULT_PARAMS
  | Some p => if decide (p = ∅) then DEFAULT_PARAMS else p
  end.

Definition calculate_deployment_cost (model_size_mb : Q)
    (is_edge_compatible : bool) (params : option (gmap string Q))
  : result (gmap string Q) :=
  let p := params_or_default params in
  c_infra ← getitem p "base_infrastructure";
  hw ← getitem p "hardware_cost_per_mb";
  let c_hw := hw * model_size_mb in
  c_net ← (if is_edge_compatible then getitem p "network_cost_edge"
           else getitem p "network_cost_centralized");
  c_int ← (if is_edge_compatible then getitem p "integration_cost_edge"
           else getitem p "integration_cost_dl");
  let total := c_infra + c_hw + c_net + c_int in
  Ok (list_to_map
        [ ("infrastructure", c_infra);
          ("hardware", c_hw);
          ("network", c_net);
          ("integration", c_int);
          ("total", total) ]).

Definition calculate_operational_cost (training_time_s inference_time_s : Q)
    (params : option (gmap string Q)) : result (gmap string Q) :=
  let p := params_or_default params in
  N ← getitem p "num_devices";
  Y ← getitem p "evaluation_years";
  F ← getitem p "flows_per_device_per_day";
  R ← getitem p "retraining_frequency_per_year";
  let training_hours := training_time_s / 3600 in
  train_rate ← getitem p "training_compute_rate_per_hour";
  let c_train := training_hours * N * R * Y * train_rate in
  let total_flows := F * N * 365 * Y in
  let inference_hours := (total_flows * inference_time_s) / 3600 in
  infer_rate ← getitem p "inference_compute_rate_per_hour";
  let c_infer := inference_hours * infer_rate in
  energy ← getitem p "energy_cost_per_device_5year";
  let c_energy := energy * N * Y in
  let total := c_train + c_infer + c_energy in
  Ok (list_to_map
        [ ("training", c_train);
          ("inference", c_infer);
          ("energy", c_energy);
          ("total", total) ]).

Definition calculate_incident_response_cost (fpr : Q)
    (params : option (gmap string Q)) : result (gmap string Q) :=
  let p := params_or_default params in
  N ← getitem p "num_devices";
  Y ← getitem p "evaluation_years";
  F ← getitem p "flows_per_device_per_day";
  let total_flows := F * N * 365 * Y in
  let false_alerts := fpr * total_flows in
  minutes ← getitem p "alert_investigation_time_min";
  let alert_investigation_hours := minutes / 60 in
  rate ← getitem p "soc_analyst_rate_per_hour";
  let cost_per_alert := alert_investigation_hours * rate in
  let total := false_alerts * cost_per_alert in
  Ok (list_to_map
        [ ("total_flows", total_flows);
          ("false_alerts", false_alerts);
          ("cost_per_alert", cost_per_alert);
          ("total", total) ]).

Definition calculate_scalability_cost (is_edge_compatible : bool)
    (edge_compatibility_score : Q) (params : option (gmap string Q))
  : result (gmap string Q) :=
  let p := params_or_default params in
  fees ← (if is_edge_compatible then
            base_fee ← getitem p "expansion_fee_edge";
            Ok (base_fee, base_fee * edge_compatibility_score)
          else
            total ← getitem p "expansion_fee_non_edge";
            Ok (total, total));
  let '(base_fee, total) := fees in
  Ok (list_to_map
        [ ("base_fee", base_fee);
          ("compatibility_factor",
           if is_edge_compatible then edge_compatibility_score else 1.0);
          ("total", total) ]).

Definition calculate_compliance_cost (interpretability : string)
    (params : option (gmap string Q)) : result (gmap string Q) :=
  let p := params_or_default params in
  high ← getitem p "interpretability_high";
  medium ← getitem p "interpretability_medium";
  low ← getitem p "interpretability_low";
  let interp_scores : gmap string Q :=
    list_to_map [ ("high", high); ("medium", medium); ("low", low) ] in
  default ← getitem p "interpretability_low";
  let interp_score := dict_get interp_scores (lower interpretability) default in
  opacity_factor ← truediv 1 interp_score;
  audit_fee ← getitem p "base_audit_fee";
  let total := audit_fee * opacity_factor in
  Ok (list_to_map
        [ ("audit_fee", audit_fee);
          ("interpretability_score", interp_score);
          ("opacity_factor", opacity_factor);
          ("total", total) ]).

Definition calculate_total_tco (dep op ir sc cc : Q) : Q :=
  dep + op + ir + sc + cc.

(** *** [main] *)

(** The answers to the three prompts for custom system parameters; [None]
    is an empty line, for which [int(input(...) or params[k])] keeps the
    current parameter, as an [int]. *)
Record ParamAnswers : Type := {
  ans_num_devices : option Z;
  ans_evaluation_years : option Z;
  ans_flows_per_device_per_day : option Z
}.

Definition int_answer_or (ans : option Z) (current : Q) : Q :=
  match ans with
  | Some z => inject_Z z
  | None => py_int current
  end.

Definition read_params (ans : ParamAnswers) (params : gmap string Q)
  : result (gmap string Q) :=
  cur ← getitem params "num_devices";
  let params :=
    <["num_devices" := int_answer_or (ans_num_devices ans) cur]> params in
  cur ← getitem params "evaluation_years";
  let params :=
    <["evaluation_years" := int_answer_or (ans_evaluation_years ans) cur]>
      params in
  cur ← getitem params "flows_per_device_per_day";
  let params :=
    <["flows_per_device_per_day" :=
        int_answer_or (ans_flows_per_device_per_day ans) cur]> params in
  Ok params.

(** What [main] computes: the five breakdowns and the total. *)
Record Report : Type := {
  dep_result : gmap string Q;
  op_result : gmap string Q;
  ir_result : gmap string Q;
  sc_result : gmap string Q;
  cc_result : gmap string Q;
  total_tco : Q
}.

(** [custom] is [None] when the default cost parameters are kept.
    [edge_score_answer] is read only for an edge-compatible model. *)
Definition main (custom : option ParamAnswers)
    (model_size training_time inference_time fpr : Q) (is_edge : bool)
    (edge_score_answer : Q) (interp_choice : string) : result Report :=
  params ← match custom with
           | Some ans => read_params ans DEFAULT_PARAMS
           | None => Ok DEFAULT_PARAMS
           end;
  let edge_score := if is_edge then edge_score_answer else 0.2 in
  let interp_map : gmap string string :=
    list_to_map [ ("1", "high"); ("2", "medium"); ("3", "low") ] in
  let interpretability := dict_get interp_map interp_choice "low" in
  dep_result ← calculate_deployment_cost model_size is_edge (Some params);
  op_result ←
    calculate_operational_cost training_time inference_time (Some params);
  ir_result ← calculate_incident_response_cost fpr (Some params);
  sc_result ← calculate_scalability_cost is_edge edge_score (Some params);
  cc_result ← calculate_compliance_cost interpretability (Some params);
  dep ← getitem dep_result "total";
  op ← getitem op_result "total";
  ir ← getitem ir_result "total";
  sc ← getitem sc_result "total";
  cc ← getitem cc_result "total";
  Ok {| dep_result := dep_result;
        op_result := op_result;
        ir_result := ir_result;
        sc_result := sc_result;
        cc_result := cc_result;
        total_tco := calculate_total_tco dep op ir sc cc |}.

(** *** [main], from the lines typed *)

(** The lines typed at the three prompts for custom system parameters
    (lines 262-264). *)
Record SystemInput : Type := {
  in_num_devices : line Z;
  in_evaluation_years : line Z;
  in_flows_per_device_per_day : line Z
}.

(** [int(input(...) or params[k])] up to the assignment: an empty line
    leaves the choice to the current parameter, a text that is not an
    integer raises [ValueError]. *)
Definition int_answer (text : line Z) : result (option Z) :=
  match text with
  | Blank => Ok None
  | Denotes z => Ok (Some z)
  | Garbled => Raise ValueError
  end.

Definition read_system_input (s : SystemInput) : result ParamAnswers :=
  n ← int_answer (in_num_devices s);
  y ← int_answer (in_evaluation_years s);
  f ← int_answer (in_flows_per_device_per_day s);
  Ok {| ans_num_devices := n;
        ans_evaluation_years := y;
        ans_flows_per_device_per_day := f |}.

(** Lines 255-303.  Every conversion of [main] comes before its first
    computation: the lines are converted in the order of the prompts, the
    edge score being asked of an edge-compatible model only, and [main]
    above computes from the numbers. *)
Definition main_from_input (customize : option SystemInput)
    (model_size training_time inference_time fpr : line Q) (is_edge : bool)
    (edge_score : line Q) (interp_choice : string) : result Report :=
  custom ← match customize with
           | Some s => ans ← read_system_input s; Ok (Some ans)
           | None => Ok None
           end;
  model_size ← float_of model_size;
  training_time ← float_of training_time;
  inference_time ← float_of inference_time;
  fpr ← float_of fpr;
  edge_score ← (if is_edge then float_of edge_score else Ok 0.2);
  main custom model_size training_time inference_time fpr is_edge edge_score
       interp_choice.

End Tco.

(** ** main_calculator.py *)

Module MainCalculator.

(** What [run_complete_evaluation] computes and prints. *)
Record Evaluation : Type := {
  edge_score : Q;
  detection_score : Q;
  efficiency_score : Q;
  deployment_score : Q;
  tpr : Q;
  fpr_min : Q;
  novel_attack : Z;
  inference_eff : Q;
  asc_score : Q;
  dep_cost : Q;
  op_cost : Q;
  ir_cost : Q;
  sc_cost : Q;
  cc_cost : Q;
  tco : Q
}.

(** Lines 117-205 of [run_complete_evaluation], from the parsed answers. *)
Definition run_complete_evaluation
    (accuracy f1_score training_time inference_time model_size : Q)
    (is_edge : bool) (recall fpr : Q) (arch_choice interp_choice : string)
    (fastest_infer : Q) : result Evaluation :=
  let edge_score :=
    if is_edge then 1.0
    else if Qlt_le_dec model_size 10 then 0.8
    else 0.2 in
  let arch_scores : gmap string Z :=
    list_to_map [ ("1", 90%Z); ("2", 80%Z); ("3", 70%Z) ] in
  let novel_attack := dict_get arch_scores arch_choice 70%Z in
  let interp_map : gmap string (string * Q) :=
    list_to_map
      [ ("1", ("high", 1.0)); ("2", ("medium", 0.5)); ("3", ("low", 0.2)) ] in
  let '(interp_label, interp_score) :=
    dict_get interp_map interp_choice ("low", 0.2) in
  (* PFO *)
  let detection_score := (accuracy * f1_score) / 10000 in
  a ← truediv 1 training_time;
  b ← truediv 1 inference_time;
  let efficiency_score := a * b in
  c ← truediv 1 model_size;
  let deployment_score := c * edge_score in
  (* ASC *)
  let tpr := recall in
  let fpr_min := (1 - fpr) * 100 in
  d ← truediv fastest_infer inference_time;
  let inference_eff := d * 100 in
  let asc_score :=
    (0.35 * tpr) + (0.35 * fpr_min) + (0.15 * inject_Z novel_attack)
    + (0.15 * inference_eff) in
  (* TCO, with the default parameters written out *)
  let N := 1000 in
  let Y := 5 in
  let F := 10000 in
  let c_infra := 50000 in
  let c_hw := 350 * model_size in
  let c_net := if is_edge then 10000 else 50000 in
  let c_int := if is_edge then 20000 else 100000 in
  let dep_cost := c_infra + c_hw + c_net + c_int in
  let training_hours := training_time / 3600 in
  let c_train := training_hours * N * 1 * Y * 2 in
  let total_flows := F * N * 365 * Y in
  let c_infer := (total_flows * inference_time / 3600) * 0.5 in
  let c_energy := 90 * N * Y in
  let op_cost := c_train + c_infer + c_energy in
  let false_alerts := fpr * total_flows in
  let cost_per_alert := (10 / 60) * 75 in
  let ir_cost := false_alerts * cost_per_alert in
  let sc_cost := if is_edge then 80000 * edge_score else 50000 in
  opacity ← truediv 1 interp_score;
  let cc_cost := 120000 * opacity in
  let tco := dep_cost + op_cost + ir_cost + sc_cost + cc_cost in
  Ok {| edge_score := edge_score;
        detection_score := detection_score;
        efficiency_score := efficiency_score;
        deployment_score := deployment_score;
        tpr := tpr;
        fpr_min := fpr_min;
        novel_attack := novel_attack;
        inference_eff := inference_eff;
        asc_score := asc_score;
        dep_cost := dep_cost;
        op_cost := op_cost;
        ir_cost := ir_cost;
        sc_cost := sc_cost;
        cc_cost := cc_cost;
        tco := tco |}.

(** Lines 100-205.  The eight numbers are converted in the order of the
    prompts, all of them before the first calculation. *)
Definition run_complete_evaluation_from_input
    (accuracy f1_score training_time inference_time model_size : line Q)
    (is_edge : bool) (recall fpr : line Q)
    (arch_choice interp_choice : string) (fastest_infer : line Q)
  : result Evaluation :=
  accuracy ← float_of accuracy;
  f1_score ← float_of f1_score;
  training_time ← float_of training_time;
  inference_time ← float_of inference_time;
  model_size ← float_of model_size;
  recall ← float_of recall;
  fpr ← float_of fpr;
  fastest_infer ← float_of fastest_infer;
  run_complete_evaluation accuracy f1_score training_time inference_time
    model_size is_edge recall fpr arch_choice interp_choice fastest_infer.

End MainCalculator.

(** ** Vocabulary of the statements *)

(** The dict literal [{'detection': wd, 'asc': wa, 'tco': wt,
    'deployment': wp, 'efficiency': we}]. *)
Definition weight_dict (wd wa wt wp we : Q) : gmap string Q :=
  <["efficiency" := we]>
    (<["deployment" := wp]>
       (<["tco" := wt]>
          (<["asc" := wa]>
             (<["detection" := wd]> ∅)))).

(** Five weights typed in at the prompts, none left empty. *)
Definition typed (wd wa wt wp we : Q) : Synthesis.WeightAnswers :=
  {| Synthesis.ans_detection := Some wd;
     Synthesis.ans_asc := Some wa;
     Synthesis.ans_tco := Some wt;
     Synthesis.ans_deployment := Some wp;
     Synthesis.ans_efficiency := Some we |}.

(** [x == y] is decidable, so that a list can be filtered by a score. *)
#[global] Instance Qeq_decision (x y : Q) : Decision (x == y) := Qeq_dec x y.

(** [x] is ranked no later than [y]. *)
Definition desc {A : Type} (key : A -> Q) (x y : A) : Prop := key y <= key x.

(** [r] is the row computed for candidate [m]. *)
Definition scored (weights : gmap string Q)
    (tco_min tco_max dep_min dep_max eff_min eff_max : Q)
    (m : Synthesis.Model) (r : Synthesis.Result) : Prop :=
  Synthesis.r_name r = Synthesis.name m
  /\ Synthesis.detection_norm r = Synthesis.detection m
  /\ Synthesis.asc_norm r = Synthesis.asc m
  /\ Synthesis.tco_norm r
     = Synthesis.normalize_score (Synthesis.tco m) tco_min tco_max true
  /\ Synthesis.deployment_norm r
     = Synthesis.normalize_score (Synthesis.deployment m) dep_min dep_max false
  /\ Synthesis.efficiency_norm r
     = Synthesis.normalize_score (Synthesis.efficiency m) eff_min eff_max false
  /\ Synthesis.calculate_final_score
       (Synthesis.detection_norm r) (Synthesis.asc_norm r)
       (Synthesis.tco_norm r) (Synthesis.deployment_norm r)
       (Synthesis.efficiency_norm r) (Some weights)
     = Ok (Synthesis.final_score r).

(** The two candidates of the specification's scenario. *)
Definition candidate_A : Synthesis.Model :=
  {| Synthesis.name := "A"; Synthesis.detection := 90; Synthesis.asc := 95;
     Synthesis.tco := 500000; Synthesis.deployment := 0.5;
     Synthesis.efficiency := 0.002 |}.

Definition candidate_B : Synthesis.Model :=
  {| Synthesis.name := "B"; Synthesis.detection := 80; Synthesis.asc := 85;
     Synthesis.tco := 300000; Synthesis.deployment := 0.8;
     Synthesis.efficiency := 0.004 |}.

(** A well-formed answer to the recall prompt of the ASC calculator: a
    percentage, or two counts that are not both zero. *)
Definition valid_tpr_input (i : Asc.TprInput) : Prop :=
  match i with
  | Asc.Counts tp fn => (0 <= tp)%Z /\ (0 <= fn)%Z /\ (0 < tp + fn)%Z
  | Asc.Direct recall => 0 <= recall <= 100
  end.

(** The cost parameters of a TCO run: the defaults with the three system
    parameters set to [N], [Y] and [F]. *)
Definition params_with (N Y F : Q) : gmap string Q :=
  <["flows_per_device_per_day" := F]>
    (<["evaluation_years" := Y]>
       (<["num_devices" := N]> Tco.DEFAULT_PARAMS)).

(** The three system parameters of a TCO run, from the answers. *)
Definition system_params (custom : option Tco.ParamAnswers) : Q * Q * Q :=
  match custom with
  | None => (1000, 5, 10000)
  | Some ans =>
      (Tco.int_answer_or (Tco.ans_num_devices ans) 1000,
       Tco.int_answer_or (Tco.ans_evaluation_years ans) 5,
       Tco.int_answer_or (Tco.ans_flows_per_device_per_day ans) 10000)
  end.

(** No system parameter was answered with a negative number. *)
Definition nonnegative_answers (custom : option Tco.ParamAnswers) : Prop :=
  match custom with
  | None => True
  | Some ans =>
      (forall z, Tco.ans_num_devices ans = Some z -> (0 <= z)%Z)
      /\ (forall z, Tco.ans_evaluation_years ans = Some z -> (0 <= z)%Z)
      /\ (forall z, Tco.ans_flows_per_device_per_day ans = Some z ->
                    (0 <= z)%Z)
  end.

(** A line that [float] or [int] rejects with [ValueError]. *)
Definition rejected {A : Type} (text : line A) : Prop :=
  match text with
  | Denotes _ => False
  | Blank | Garbled => True
  end.

(** A line that denotes zero. *)
Definition denotes_zero (text : line Q) : Prop :=
  match text with
  | Denotes x => x == 0
  | Blank | Garbled => False
  end.

(** A count that, if it is a number at all, is not negative.  The quotient
    of such counts is at most 1; on a quotient beyond the floats Python's
    division of [int]s raises [OverflowError], which this embedding leaves
    out. *)
Definition not_negative (text : line Z) : Prop :=
  match text with
  | Denotes z => (0 <= z)%Z
  | Blank | Garbled => True
  end.

(** What [main] of the ASC calculator reads first, the recall or the two
    counts, holds a line that is rejected. *)
Definition recall_rejected (i : Asc.Input) : Prop :=
  if decide (Asc.in_input_type i = "2")
  then rejected (Asc.in_tp i) \/ rejected (Asc.in_fn i)
  else rejected (Asc.in_recall i).

(** The two counts are read, and they sum to zero. *)
Definition counts_sum_to_zero (i : Asc.Input) : Prop :=
  Asc.in_input_type i = "2"
  /\ match Asc.in_tp i, Asc.in_fn i with
     | Denotes tp, Denotes fn => (tp + fn = 0)%Z
     | _, _ => False
     end.

(** One of the three numbers read after the recall is rejected. *)
Definition later_rejected (i : Asc.Input) : Prop :=
  rejected (Asc.in_fpr i)
  \/ rejected (Asc.in_model_infer_time i)
  \/ rejected (Asc.in_fastest_infer_time i).

(** A custom system parameter is a text that [int] rejects; an empty line
    is not, it keeps the default. *)
Definition system_rejected (customize : option Tco.SystemInput) : Prop :=
  match customize with
  | None => False
  | Some s =>
      Tco.in_num_devices s = Garbled
      \/ Tco.in_evaluation_years s = Garbled
      \/ Tco.in_flows_per_device_per_day s = Garbled
  end.

(** One of the lines that [main] of the TCO calculator converts is rejected;
    the edge score is read for an edge-compatible model only. *)
Definition tco_rejected (customize : option Tco.SystemInput)
    (model_size training_time inference_time fpr : line Q) (is_edge : bool)
    (edge_score : line Q) : Prop :=
  system_rejected customize
  \/ rejected model_size
  \/ rejected training_time
  \/ rejected inference_time
  \/ rejected fpr
  \/ (is_edge = true /\ rejected edge_score).

(** A custom system parameter of a size that Python still converts to a
    float, alone and multiplied with the two others and 365.  Beyond,
    [int * float] raises [OverflowError], which this embedding leaves
    out. *)
Definition moderate (text : line Z) : Prop :=
  match text with
  | Denotes z => (Z.abs z <= 10 ^ 100)%Z
  | Blank | Garbled => True
  end.

Definition system_moderate (customize : option Tco.SystemInput) : Prop :=
  match customize with
  | None => True
  | Some s =>
      moderate (Tco.in_num_devices s)
      /\ moderate (Tco.in_evaluation_years s)
      /\ moderate (Tco.in_flows_per_device_per_day s)
  end.

(** One of the eight numbers of the complete evaluation is rejected. *)
Definition complete_rejected
    (accuracy f1_score training_time inference_time model_size recall fpr
       fastest_infer : line Q) : Prop :=
  rejected accuracy
  \/ rejected f1_score
  \/ rejected training_time
  \/ rejected inference_time
  \/ rejected model_size
  \/ rejected recall
  \/ rejected fpr
  \/ rejected fastest_infer.

(** A weight that, if it is a number at all, is not negative. *)
Definition not_negative_number (text : line Q) : Prop :=
  match text with
  | Denotes x => 0 <= x
  | Blank | Garbled => True
  end.

(** No custom weight is typed as a negative number.  The sum of such
    weights is zero only when each of them is, on binary64 floats as in
    exact arithmetic. *)
Definition weights_not_negative (customize : option Synthesis.WeightInput)
  : Prop :=
  match customize with
  | None => True
  | Some w =>
      not_negative_number (Synthesis.in_weight_detection w)
      /\ not_negative_number (Synthesis.in_weight_asc w)
      /\ not_negative_number (Synthesis.in_weight_tco w)
      /\ not_negative_number (Synthesis.in_weight_deployment w)
      /\ not_negative_number (Synthesis.in_weight_efficiency w)
  end.

(** A custom weight is a text that [float] rejects; an empty line is not,
    it keeps the default. *)
Definition weights_rejected (customize : option Synthesis.WeightInput)
  : Prop :=
  match customize with
  | None => False
  | Some w =>
      Synthesis.in_weight_detection w = Garbled
      \/ Synthesis.in_weight_asc w = Garbled
      \/ Synthesis.in_weight_tco w = Garbled
      \/ Synthesis.in_weight_deployment w = Garbled
      \/ Synthesis.in_weight_efficiency w = Garbled
  end.

(** The five custom weights are all typed as zero. *)
Definition weights_all_zero (customize : option Synthesis.WeightInput)
  : Prop :=
  match customize with
  | None => False
  | Some w =>
      denotes_zero (Synthesis.in_weight_detection w)
      /\ denotes_zero (Synthesis.in_weight_asc w)
      /\ denotes_zero (Synthesis.in_weight_tco w)
      /\ denotes_zero (Synthesis.in_weight_deployment w)
      /\ denotes_zero (Synthesis.in_weight_efficiency w)
  end.

(** One of the five numbers typed for a model is rejected. *)
Definition model_rejected (m : Synthesis.ModelInput) : Prop :=
  rejected (Synthesis.in_detection m)
  \/ rejected (Synthesis.in_asc m)
  \/ rejected (Synthesis.in_tco m)
  \/ rejected (Synthesis.in_deployment m)
  \/ rejected (Synthesis.in_efficiency m).

(** The candidates cannot be ranked: the number of models is rejected or
    not positive, or one of the models that the loop reads has a line
    that is rejected. *)
Definition candidates_rejected (num_models : line Z)
    (typed_models : nat -> Synthesis.ModelInput) : Prop :=
  match num_models with
  | Denotes n =>
      (n <= 0)%Z
      \/ exists i, (i < Z.to_nat n)%nat /\ model_rejected (typed_models i)
  | Blank | Garbled => True
  end.

(** The answer that a weight line leaves to the assignment: the number
    typed, or none, as for the empty line, which keeps the current
    weight. *)
Definition answer_of (text : line Q) : option Q :=
  match text with
  | Denotes x => Some x
  | Blank | Garbled => None
  end.

(** Candidate [a] is at least as good as [b] in every dimension: no lower
    detection, coverage, deployment and efficiency, and no higher cost. *)
Definition dominates (a b : Synthesis.Model) : Prop :=
  Synthesis.detection b <= Synthesis.detection a
  /\ Synthesis.asc b <= Synthesis.asc a
  /\ Synthesis.tco a <= Synthesis.tco b
  /\ Synthesis.deployment b <= Synthesis.deployment a
  /\ Synthesis.efficiency b <= Synthesis.efficiency a.

(** ** Concrete runs *)

Example normalize_midpoint :
  Synthesis.normalize_score 400000 300000 500000 true == 50.
Proof. reflexivity. Qed.

Example pfo_normalize_midpoint :
  Pfo.normalize_score 3 2 4 == 0.5.
Proof. reflexivity. Qed.

(** ** Arithmetic of min-max scaling *)

Section Scaling.

Variables a b d : Q.
Hypothesis d_pos : 0 < d.

Lemma scaled_le : a <= b -> a / d * 100 <= b / d * 100.
Proof.
  intros Hab.
  apply Qmult_le_compat_r; [| lra].
  unfold Qdiv. apply Qmult_le_compat_r; [exact Hab |].
  apply Qlt_le_weak, Qinv_lt_0_compat, d_pos.
Qed.

Lemma scaled_zero : 0 / d * 100 == 0.
Proof. field. lra. Qed.

Lemma scaled_full : d / d * 100 == 100.
Proof. field. lra. Qed.

End Scaling.

Lemma scaled_range (a d : Q) :
  0 < d -> 0 <= a <= d -> 0 <= a / d * 100 <= 100.
Proof.
  intros Hd [H0 H1]. split.
  - apply Qle_trans with (0 / d * 100).
    + rewrite (scaled_zero d Hd). apply Qle_refl.
    + now apply scaled_le.
  - apply Qle_trans with (d / d * 100).
    + now apply scaled_le.
    + rewrite (scaled_full d Hd). apply Qle_refl.
Qed.

Lemma degenerate_test (mx mn : Q) :
  Qeq_bool mx mn = true <-> mx == mn.
Proof. apply Qeq_bool_iff. Qed.

Lemma proper_range (mn mx : Q) :
  Qeq_bool mx mn = false -> mn <= mx -> 0 < mx - mn.
Proof.
  intros E Hle. apply Qeq_bool_neq in E.
  destruct (Qlt_le_dec mn mx) as [Hlt | Hge]; [lra |].
  exfalso. apply E. apply Qle_antisym; assumption.
Qed.

(** ** The normaliser *)

(** C2. When [max == min] the normaliser returns exactly 100.0 with the
    inverse flag and 0.0 without it; otherwise it returns
    [((max - value) / (max - min)) * 100] with the inverse flag and
    [((value - min) / (max - min)) * 100] without it. *)
Theorem normalize_score_cases (value mn mx : Q) (inverse : bool) :
  (mx == mn ->
   Synthesis.normalize_score value mn mx inverse
   = if inverse then 100.0 else 0.0)
  /\
  (~ mx == mn ->
   Synthesis.normalize_score value mn mx inverse
   = if inverse then ((mx - value) / (mx - mn)) * 100
     else ((value - mn) / (mx - mn)) * 100).
Proof.
  unfold Synthesis.normalize_score. split; intros H.
  - apply degenerate_test in H. now rewrite H.
  - destruct (Qeq_bool mx mn) eqn:E; [| reflexivity].
    apply degenerate_test in E. contradiction.
Qed.

Lemma normalize_score_cases_witness :
  Synthesis.normalize_score 7 3 3 true = 100.0
  /\ Synthesis.normalize_score 7 3 3 false = 0.0
  /\ Synthesis.normalize_score 4 3 5 true = ((5 - 4) / (5 - 3)) * 100
  /\ Synthesis.normalize_score 4 3 5 false = ((4 - 3) / (5 - 3)) * 100.
Proof.
  split; [| split; [| split]].
  - apply (proj1 (normalize_score_cases 7 3 3 true)). reflexivity.
  - apply (proj1 (normalize_score_cases 7 3 3 false)). reflexivity.
  - apply (proj2 (normalize_score_cases 4 3 5 true)). discriminate.
  - apply (proj2 (normalize_score_cases 4 3 5 false)). discriminate.
Defined.

(** C3, as stated, fails: nothing clamps the result.  A value above the
    maximum scores above 100. *)
Lemma normalize_score_unclamped :
  ~ (forall value mn mx inverse,
        0 <= Synthesis.normalize_score value mn mx inverse <= 100).
Proof.
  intros H. destruct (H 150 0 100 false) as [_ Hup].
  vm_compute in Hup. apply Hup. reflexivity.
Qed.

Lemma normalize_score_bounds (value mn mx : Q) (inverse : bool) :
  mn <= value -> value <= mx ->
  0 <= Synthesis.normalize_score value mn mx inverse <= 100.
Proof.
  intros Hlo Hhi. unfold Synthesis.normalize_score.
  destruct (Qeq_bool mx mn) eqn:E.
  - destruct inverse; split; discriminate.
  - assert (Hd : 0 < mx - mn) by (apply proper_range; [exact E | lra]).
    destruct inverse; apply scaled_range; try exact Hd; lra.
Qed.

(** On binary64 floats too, 150 in the range 0..100 scores 150. *)
Example normalize_score_unclamped_binary64 :
  Binary64.normalize_score 150 0 100 false = 150%float.
Proof. reflexivity. Qed.

(** C3, amended. For a value inside the range, [min <= value <= max], the
    score returned by the normaliser lies in [0, 100], whatever the
    direction flag. *)
Theorem normalize_score_range (value mn mx : Q) (inverse : bool) :
  mn <= value <= mx ->
  0 <= Synthesis.normalize_score value mn mx inverse <= 100.
Proof. intros [Hlo Hhi]. now apply normalize_score_bounds. Qed.

Lemma normalize_score_range_witness :
  0 <= Synthesis.normalize_score 400000 300000 500000 true <= 100.
Proof.
  apply (normalize_score_range 400000 300000 500000 true).
  split; discriminate.
Defined.

(** C8. For a minimum and a maximum that differ, [min < max], the
    normaliser is non-decreasing in the raw value without the inverse flag
    and non-increasing with it.  [min_val] and [max_val] are the minimum
    and the maximum of a dataset, and [main] takes them with [min()] and
    [max()] from one list (lines 137-151), so that [min != max] is
    [min < max]. *)
Theorem normalize_score_monotone (mn mx v1 v2 : Q) :
  mn < mx -> v1 <= v2 ->
  Synthesis.normalize_score v1 mn mx false
  <= Synthesis.normalize_score v2 mn mx false
  /\ Synthesis.normalize_score v2 mn mx true
     <= Synthesis.normalize_score v1 mn mx true.
Proof.
  intros Hlt Hv. unfold Synthesis.normalize_score.
  destruct (Qeq_bool mx mn) eqn:E.
  - apply degenerate_test in E. lra.
  - assert (Hd : 0 < mx - mn) by lra.
    split; apply scaled_le; try exact Hd; lra.
Qed.

Lemma normalize_score_monotone_witness :
  Synthesis.normalize_score 2 1 5 false <= Synthesis.normalize_score 4 1 5 false
  /\ Synthesis.normalize_score 4 1 5 true <= Synthesis.normalize_score 2 1 5 true.
Proof.
  apply (normalize_score_monotone 1 5 2 4); [reflexivity | discriminate].
Defined.

(** C10. Without the inverse flag the synthesis normaliser is 100 times
    the PFO normaliser on the same inputs, the degenerate case
    [max == min] included, where both are 0. *)
Theorem normalize_score_refines_pfo (value mn mx : Q) :
  Synthesis.normalize_score value mn mx false
  == 100 * Pfo.normalize_score value mn mx
  /\ (mx == mn ->
      Synthesis.normalize_score value mn mx false == 0
      /\ Pfo.normalize_score value mn mx == 0).
Proof.
  unfold Synthesis.normalize_score, Pfo.normalize_score. split.
  - destruct (Qeq_bool mx mn); [reflexivity | ring].
  - intros H. apply degenerate_test in H. rewrite H. split; reflexivity.
Qed.

Lemma normalize_score_refines_pfo_witness :
  Synthesis.normalize_score 9 4 4 false == 0
  /\ Pfo.normalize_score 9 4 4 == 0.
Proof.
  apply (proj2 (normalize_score_refines_pfo 9 4 4)). reflexivity.
Defined.

(** ** Dicts of weights *)

Lemma WEIGHTS_literal : Synthesis.WEIGHTS = weight_dict 0.30 0.25 0.20 0.15 0.10.
Proof. reflexivity. Qed.

Lemma getitem_Some (d : gmap string Q) (k : string) (v : Q) :
  d !! k = Some v -> getitem d k = Ok v.
Proof. intros H. unfold getitem. now rewrite H. Qed.

Lemma getitem_None (d : gmap string Q) (k : string) :
  d !! k = None -> getitem d k = Raise KeyError.
Proof. intros H. unfold getitem. now rewrite H. Qed.

Lemma weights_or_default_nonempty (w : gmap string Q) (k : string) (v : Q) :
  w !! k = Some v -> Synthesis.weights_or_default (Some w) = w.
Proof.
  intros H. unfold Synthesis.weights_or_default.
  destruct (decide (w = ∅)) as [-> | _]; [| reflexivity].
  rewrite lookup_empty in H. discriminate.
Qed.

(** ** The weighted sum *)

Lemma calculate_final_score_lookup (det asc tco dep eff : Q)
    (w : gmap string Q) (wd wa wt wp we : Q) :
  w !! "detection" = Some wd ->
  w !! "asc" = Some wa ->
  w !! "tco" = Some wt ->
  w !! "deployment" = Some wp ->
  w !! "efficiency" = Some we ->
  Synthesis.calculate_final_score det asc tco dep eff (Some w)
  = Ok (wd * det + wa * asc + wt * tco + wp * dep + we * eff).
Proof.
  intros Hd Ha Ht Hp He.
  unfold Synthesis.calculate_final_score.
  rewrite (weights_or_default_nonempty w _ _ Hd).
  rewrite (getitem_Some _ _ _ Hd), (getitem_Some _ _ _ Ha),
    (getitem_Some _ _ _ Ht), (getitem_Some _ _ _ Hp),
    (getitem_Some _ _ _ He).
  reflexivity.
Qed.

(** C4. With a weight mapping that gives the five weights,
    [calculate_final_score] returns
    [w_detection*detection + w_asc*asc + w_tco*tco + w_deployment*deployment
     + w_efficiency*efficiency]; with no weights it uses the defaults
    0.30, 0.25, 0.20, 0.15 and 0.10. *)
Theorem calculate_final_score_weighted_sum (det asc tco dep eff : Q) :
  (forall (w : gmap string Q) (wd wa wt wp we : Q),
      w !! "detection" = Some wd ->
      w !! "asc" = Some wa ->
      w !! "tco" = Some wt ->
      w !! "deployment" = Some wp ->
      w !! "efficiency" = Some we ->
      Synthesis.calculate_final_score det asc tco dep eff (Some w)
      = Ok (wd * det + wa * asc + wt * tco + wp * dep + we * eff))
  /\ Synthesis.calculate_final_score det asc tco dep eff None
     = Ok (0.30 * det + 0.25 * asc + 0.20 * tco + 0.15 * dep + 0.10 * eff).
Proof.
  split.
  - intros w wd wa wt wp we. apply calculate_final_score_lookup.
  - unfold Synthesis.calculate_final_score, Synthesis.weights_or_default.
    reflexivity.
Qed.

Lemma calculate_final_score_weighted_sum_witness :
  Synthesis.calculate_final_score 90 95 0 0 0
    (Some (weight_dict 0.5 0.2 0.1 0.1 0.1))
  = Ok (0.5 * 90 + 0.2 * 95 + 0.1 * 0 + 0.1 * 0 + 0.1 * 0).
Proof.
  apply (proj1 (calculate_final_score_weighted_sum 90 95 0 0 0)
           (weight_dict 0.5 0.2 0.1 0.1 0.1)); reflexivity.
Defined.

(** A mapping that lacks one of the five keys makes the lookup raise. *)
Lemma calculate_final_score_missing_key (det asc tco dep eff : Q) :
  Synthesis.calculate_final_score det asc tco dep eff
    (Some (<["detection" := 1]> ∅))
  = Raise KeyError.
Proof. reflexivity. Qed.

(** The empty dict is falsy: the defaults are used. *)
Lemma calculate_final_score_empty_dict (det asc tco dep eff : Q) :
  Synthesis.calculate_final_score det asc tco dep eff (Some ∅)
  = Synthesis.calculate_final_score det asc tco dep eff None.
Proof. reflexivity. Qed.

(** ** Sums and renormalisation of dicts *)

Lemma sum_values_empty : sum_values ∅ = 0.
Proof. unfold sum_values. apply map_fold_empty. Qed.

Lemma sum_values_insert (m : gmap string Q) (k : string) (v : Q) :
  m !! k = None -> sum_values (<[k := v]> m) == sum_values m + v.
Proof.
  intros Hk. unfold sum_values.
  apply (map_fold_insert Qeq (fun _ v acc => acc + v)); [| | exact Hk].
  - intros _ z x y Hxy. now rewrite Hxy.
  - intros j1 j2 z1 z2 y _ _ _. ring.
Qed.

Lemma sum_values_scaled (t : Q) (m : gmap string Q) :
  sum_values ((fun v => v / t) <$> m) == sum_values m / t.
Proof.
  induction m as [| k v m Hk IH] using map_ind.
  - rewrite fmap_empty, sum_values_empty. reflexivity.
  - rewrite fmap_insert.
    rewrite !sum_values_insert; [| exact Hk | now rewrite lookup_fmap, Hk].
    rewrite IH. unfold Qdiv. ring.
Qed.

Lemma sum_values_weight_dict (wd wa wt wp we : Q) :
  sum_values (weight_dict wd wa wt wp we) == wd + wa + wt + wp + we.
Proof.
  unfold weight_dict.
  rewrite !sum_values_insert, sum_values_empty by reflexivity.
  ring.
Qed.

Lemma renormalize_nonzero (t : Q) (m : gmap string Q) :
  ~ t == 0 -> Synthesis.renormalize t m = Ok ((fun v => v / t) <$> m).
Proof.
  intros Ht. unfold Synthesis.renormalize.
  apply (map_fold_weak_ind
           (fun r m => r = Ok ((fun v => v / t) <$> m))).
  - now rewrite fmap_empty.
  - intros k v m' r _ ->. cbn.
    unfold truediv. destruct (Qeq_bool t 0) eqn:E.
    + apply Qeq_bool_iff in E. contradiction.
    + cbn. now rewrite fmap_insert.
Qed.

Lemma renormalize_zero (t : Q) (m : gmap string Q) :
  t == 0 -> m <> ∅ -> Synthesis.renormalize t m = Raise ZeroDivisionError.
Proof.
  intros Ht Hm. apply Qeq_bool_iff in Ht.
  enough (H : (m = ∅ /\ Synthesis.renormalize t m = Ok ∅)
              \/ Synthesis.renormalize t m = Raise ZeroDivisionError)
    by (destruct H as [[H _] | H]; [contradiction | exact H]).
  unfold Synthesis.renormalize.
  apply (map_fold_weak_ind
           (fun r m => (m = ∅ /\ r = Ok ∅) \/ r = Raise ZeroDivisionError)).
  - now left.
  - intros k v m' r _ [[_ ->] | ->]; right; cbn.
    + unfold truediv. now rewrite Ht.
    + reflexivity.
Qed.

Lemma renormalized_sum (t : Q) (m : gmap string Q) :
  ~ t == 0 -> sum_values m == t ->
  sum_values ((fun v => v / t) <$> m) == 1.
Proof.
  intros Ht Hs. rewrite sum_values_scaled, Hs. now field.
Qed.

(** ** Reading the custom weights *)

Lemma read_weights_default (ans : Synthesis.WeightAnswers) :
  Synthesis.read_weights ans Synthesis.WEIGHTS
  = Ok (weight_dict (Synthesis.answer_or (Synthesis.ans_detection ans) 0.30)
                    (Synthesis.answer_or (Synthesis.ans_asc ans) 0.25)
                    (Synthesis.answer_or (Synthesis.ans_tco ans) 0.20)
                    (Synthesis.answer_or (Synthesis.ans_deployment ans) 0.15)
                    (Synthesis.answer_or (Synthesis.ans_efficiency ans) 0.10)).
Proof.
  unfold Synthesis.read_weights, Synthesis.WEIGHTS, weight_dict, getitem.
  simplify_map_eq. reflexivity.
Qed.

Lemma weight_dict_nonempty (wd wa wt wp we : Q) :
  weight_dict wd wa wt wp we <> ∅.
Proof.
  intros H. apply (f_equal (fun m => m !! "efficiency")) in H.
  unfold weight_dict in H. rewrite lookup_insert_eq, lookup_empty in H.
  discriminate.
Qed.

Lemma read_weights_nonempty (ans : Synthesis.WeightAnswers)
    (weights : gmap string Q) :
  Synthesis.read_weights ans Synthesis.WEIGHTS = Ok weights -> weights <> ∅.
Proof.
  rewrite read_weights_default. intros [= <-]. apply weight_dict_nonempty.
Qed.

Lemma sum_values_WEIGHTS : sum_values Synthesis.WEIGHTS == 1.
Proof. rewrite WEIGHTS_literal, sum_values_weight_dict. reflexivity. Qed.

(** What [build_weights] does with custom weights, by the raw sum. *)
Lemma build_weights_custom (ans : Synthesis.WeightAnswers)
    (weights : gmap string Q) :
  Synthesis.read_weights ans Synthesis.WEIGHTS = Ok weights ->
  Synthesis.build_weights true ans
  = if Qlt_le_dec 0.01 (Qabs (sum_values weights - 1.0))
    then (true, Synthesis.renormalize (sum_values weights) weights)
    else (false, Ok weights).
Proof. intros H. unfold Synthesis.build_weights. now rewrite H. Qed.

Lemma dom_weight_dict (wd wa wt wp we : Q) :
  dom (weight_dict wd wa wt wp we) = dom Synthesis.WEIGHTS.
Proof.
  rewrite WEIGHTS_literal. unfold weight_dict.
  now rewrite !dom_insert_L.
Qed.

(** Whatever [build_weights] yields has exactly the five keys, so scoring
    never misses a weight. *)
Lemma build_weights_dom (custom : bool) (ans : Synthesis.WeightAnswers)
    (warned : bool) (w : gmap string Q) :
  Synthesis.build_weights custom ans = (warned, Ok w) ->
  dom w = dom Synthesis.WEIGHTS.
Proof.
  destruct custom.
  - rewrite (build_weights_custom _ _ (read_weights_default ans)).
    destruct (Qlt_le_dec _ _) as [Hdev | Hle].
    + destruct (Qeq_dec (sum_values (weight_dict
                  (Synthesis.answer_or (Synthesis.ans_detection ans) 0.30)
                  (Synthesis.answer_or (Synthesis.ans_asc ans) 0.25)
                  (Synthesis.answer_or (Synthesis.ans_tco ans) 0.20)
                  (Synthesis.answer_or (Synthesis.ans_deployment ans) 0.15)
                  (Synthesis.answer_or (Synthesis.ans_efficiency ans) 0.10)))
                0) as [Hz | Hnz].
      * rewrite renormalize_zero;
          [discriminate | exact Hz | apply weight_dict_nonempty].
      * rewrite renormalize_nonzero by exact Hnz. intros [= _ <-].
        rewrite dom_fmap_L. apply dom_weight_dict.
    + intros [= _ <-]. apply dom_weight_dict.
  - unfold Synthesis.build_weights. now intros [= _ <-].
Qed.

(** ** Construction of the weight set *)

(** C5, as stated, fails when the raw sum is zero: the sum deviates from
    1.0, the warning is printed, and the first division raises. *)
Lemma renormalization_zero_sum :
  ~ (forall ans weights,
        Synthesis.read_weights ans Synthesis.WEIGHTS = Ok weights ->
        0.01 < Qabs (sum_values weights - 1.0) ->
        exists w',
          Synthesis.build_weights true ans = (true, Ok w')
          /\ w' = (fun v => v / sum_values weights) <$> weights
          /\ sum_values w' == 1).
Proof.
  intros H.
  destruct (H (typed 0 0 0 0 0) (weight_dict 0 0 0 0 0))
    as (w' & Hbuild & _); [reflexivity | vm_compute; reflexivity |].
  vm_compute in Hbuild. discriminate.
Qed.

(** C5, amended. For five weights whose sum is not zero and deviates from
    1.0 by more than 0.01, each weight is divided by the raw sum and the
    warning is signalled, and the renormalised weights sum to 1; and
    whenever construction yields a weight set, its sum is within 0.01 of
    1.0. *)
Theorem renormalization_postcondition (ans : Synthesis.WeightAnswers)
    (weights : gmap string Q) :
  Synthesis.read_weights ans Synthesis.WEIGHTS = Ok weights ->
  (0.01 < Qabs (sum_values weights - 1.0) ->
   ~ sum_values weights == 0 ->
   Synthesis.build_weights true ans
   = (true, Ok ((fun v => v / sum_values weights) <$> weights))
   /\ sum_values ((fun v => v / sum_values weights) <$> weights) == 1)
  /\
  (forall custom warned w,
      Synthesis.build_weights custom ans = (warned, Ok w) ->
      Qabs (sum_values w - 1.0) <= 0.01).
Proof.
  intros Hread. split.
  - intros Hdev Hnz. split.
    + rewrite (build_weights_custom _ _ Hread).
      destruct (Qlt_le_dec _ _) as [_ | Hle]; [| lra].
      now rewrite renormalize_nonzero.
    + now apply renormalized_sum.
  - intros [|] warned w.
    + rewrite (build_weights_custom _ _ Hread).
      destruct (Qlt_le_dec _ _) as [Hdev | Hle].
      * destruct (Qeq_dec (sum_values weights) 0) as [Hz | Hnz].
        -- rewrite renormalize_zero;
             [discriminate | exact Hz | eapply read_weights_nonempty, Hread].
        -- rewrite renormalize_nonzero by exact Hnz. intros [= _ <-].
           rewrite renormalized_sum; [discriminate | exact Hnz | reflexivity].
      * intros [= _ <-]. exact Hle.
    + unfold Synthesis.build_weights. intros [= _ <-].
      rewrite sum_values_WEIGHTS. discriminate.
Qed.

Lemma renormalization_postcondition_witness :
  Synthesis.build_weights true (typed 0.4 0.3 0.3 0.3 0.3)
  = (true, Ok ((fun v => v / sum_values (weight_dict 0.4 0.3 0.3 0.3 0.3))
                 <$> weight_dict 0.4 0.3 0.3 0.3 0.3))
  /\ sum_values ((fun v => v / sum_values (weight_dict 0.4 0.3 0.3 0.3 0.3))
                   <$> weight_dict 0.4 0.3 0.3 0.3 0.3) == 1.
Proof.
  apply (proj1 (renormalization_postcondition
                  (typed 0.4 0.3 0.3 0.3 0.3)
                  (weight_dict 0.4 0.3 0.3 0.3 0.3) eq_refl)).
  - vm_compute. reflexivity.
  - intros H. vm_compute in H. discriminate.
Defined.

(** C7, as stated, fails: no sign is ever tested, and a negative weight is
    accepted as it is when the five weights sum to 1.0. *)
Lemma negative_weight_accepted :
  ~ (forall ans weights,
        Synthesis.read_weights ans Synthesis.WEIGHTS = Ok weights ->
        ((exists e, snd (Synthesis.build_weights true ans) = Raise e)
         <-> (exists k v, weights !! k = Some v /\ v < 0))).
Proof.
  intros H.
  destruct (H (typed (-0.5) 0.5 0.5 0.25 0.25)
              (weight_dict (-0.5) 0.5 0.5 0.25 0.25) eq_refl)
    as [_ Hneg].
  destruct Hneg as [e He].
  - exists "detection", (-0.5). split; reflexivity.
  - vm_compute in He. discriminate.
Qed.

(** C7, amended. Construction makes no sign check: it yields a weight set
    for every five weights whose raw sum is not zero, negative weights
    included; and when construction does raise, the run ends with that
    exception and nothing further is computed. *)
Theorem build_weights_no_sign_check (ans : Synthesis.WeightAnswers)
    (weights : gmap string Q) :
  Synthesis.read_weights ans Synthesis.WEIGHTS = Ok weights ->
  (~ sum_values weights == 0 ->
   exists warned w, Synthesis.build_weights true ans = (warned, Ok w))
  /\
  (forall custom models e,
      snd (Synthesis.build_weights custom ans) = Raise e ->
      snd (Synthesis.main_compare custom ans models) = Raise e).
Proof.
  intros Hread. split.
  - intros Hnz. rewrite (build_weights_custom _ _ Hread).
    destruct (Qlt_le_dec _ _); [| eauto].
    rewrite renormalize_nonzero by exact Hnz. eauto.
  - intros custom models e. unfold Synthesis.main_compare.
    destruct (Synthesis.build_weights custom ans) as [warned built].
    cbn. now intros ->.
Qed.

Lemma build_weights_no_sign_check_witness :
  exists warned w,
    Synthesis.build_weights true (typed (-0.5) 0.5 0.5 0.25 0.25)
    = (warned, Ok w).
Proof.
  apply (proj1 (build_weights_no_sign_check
                  (typed (-0.5) 0.5 0.5 0.25 0.25)
                  (weight_dict (-0.5) 0.5 0.5 0.25 0.25) eq_refl)).
  intros H. vm_compute in H. discriminate.
Defined.

(** ** The stable descending sort *)

Section SortReverse.

Context {A : Type} (key : A -> Q).

Lemma insert_desc_perm (x : A) (xs : list A) :
  insert_desc key x xs ≡ₚ x :: xs.
Proof.
  induction xs as [| y rest IH]; cbn; [reflexivity |].
  destruct (Qlt_le_dec (key x) (key y)); [| reflexivity].
  rewrite IH. apply Permutation_swap.
Qed.

Lemma sort_reverse_perm (xs : list A) : sort_reverse key xs ≡ₚ xs.
Proof.
  induction xs as [| x rest IH]; cbn; [reflexivity |].
  rewrite insert_desc_perm. now rewrite IH.
Qed.

Lemma insert_desc_sorted (x : A) (xs : list A) :
  StronglySorted (desc key) xs ->
  StronglySorted (desc key) (insert_desc key x xs).
Proof.
  induction 1 as [| y rest Hrest IH Hy]; cbn.
  - repeat constructor.
  - destruct (Qlt_le_dec (key x) (key y)) as [Hlt | Hle].
    + constructor; [exact IH |].
      rewrite insert_desc_perm. constructor; [| exact Hy].
      unfold desc. lra.
    + constructor; [now constructor |].
      constructor; [exact Hle |].
      eapply Forall_impl; [exact Hy |].
      unfold desc. intros z Hz. lra.
Qed.

Lemma sort_reverse_sorted (xs : list A) :
  StronglySorted (desc key) (sort_reverse key xs).
Proof.
  induction xs as [| x rest IH]; cbn; [constructor |].
  now apply insert_desc_sorted.
Qed.

(** Stability: among the items of one key value, the order is kept. *)
Lemma insert_desc_stable (k : Q) (x : A) (xs : list A) :
  filter (fun r => key r == k) (insert_desc key x xs)
  = filter (fun r => key r == k) (x :: xs).
Proof.
  induction xs as [| y rest IH]; cbn; [reflexivity |].
  destruct (Qlt_le_dec (key x) (key y)) as [Hlt | Hle]; [| reflexivity].
  rewrite !filter_cons in *.
  rewrite IH.
  destruct (decide (key y == k)) as [Hy | Hy];
    destruct (decide (key x == k)) as [Hx | Hx]; try reflexivity.
  exfalso. rewrite Hx, Hy in Hlt. lra.
Qed.

Lemma sort_reverse_stable (k : Q) (xs : list A) :
  filter (fun r => key r == k) (sort_reverse key xs)
  = filter (fun r => key r == k) xs.
Proof.
  induction xs as [| x rest IH]; [reflexivity |].
  change (sort_reverse key (x :: rest))
    with (insert_desc key x (sort_reverse key rest)).
  rewrite insert_desc_stable, !filter_cons, IH. reflexivity.
Qed.

End SortReverse.

Lemma enumerate_fst {A : Type} (start : nat) (xs : list A) :
  map fst (enumerate start xs) = seq start (length xs).
Proof.
  revert start. induction xs as [| x rest IH]; intros start; cbn;
    [reflexivity |]. now rewrite IH.
Qed.

Lemma enumerate_snd {A : Type} (start : nat) (xs : list A) :
  map snd (enumerate start xs) = xs.
Proof.
  revert start. induction xs as [| x rest IH]; intros start; cbn;
    [reflexivity |]. now rewrite IH.
Qed.

(** ** [min] and [max] over the candidates *)

Lemma fold_min_spec (rest : list Q) (x : Q) :
  let m := fold_left (fun cur item => if Qlt_le_dec item cur then item else cur)
                     rest x in
  Forall (fun y => m <= y) (x :: rest).
Proof.
  revert x. induction rest as [| y rest IH]; intros x; cbn.
  - repeat constructor. apply Qle_refl.
  - destruct (Qlt_le_dec y x) as [Hlt | Hle].
    + specialize (IH y). cbn in IH. inversion_clear IH as [| ? ? Hy Hrest].
      repeat constructor; try assumption. lra.
    + specialize (IH x). cbn in IH. inversion_clear IH as [| ? ? Hx Hrest].
      repeat constructor; try assumption. lra.
Qed.

Lemma fold_max_spec (rest : list Q) (x : Q) :
  let m := fold_left (fun cur item => if Qlt_le_dec cur item then item else cur)
                     rest x in
  Forall (fun y => y <= m) (x :: rest).
Proof.
  revert x. induction rest as [| y rest IH]; intros x; cbn.
  - repeat constructor. apply Qle_refl.
  - destruct (Qlt_le_dec x y) as [Hlt | Hle].
    + specialize (IH y). cbn in IH. inversion_clear IH as [| ? ? Hy Hrest].
      repeat constructor; try assumption. lra.
    + specialize (IH x). cbn in IH. inversion_clear IH as [| ? ? Hx Hrest].
      repeat constructor; try assumption. lra.
Qed.

Lemma py_min_lower_bound (xs : list Q) (m : Q) :
  py_min xs = Ok m -> Forall (fun y => m <= y) xs.
Proof.
  destruct xs as [| x rest]; cbn; [discriminate |].
  intros [= <-]. apply fold_min_spec.
Qed.

Lemma py_max_upper_bound (xs : list Q) (m : Q) :
  py_max xs = Ok m -> Forall (fun y => y <= m) xs.
Proof.
  destruct xs as [| x rest]; cbn; [discriminate |].
  intros [= <-]. apply fold_max_spec.
Qed.

Lemma py_min_nonempty (xs : list Q) :
  xs <> [] -> exists m, py_min xs = Ok m.
Proof. destruct xs; [congruence | cbn; eauto]. Qed.

Lemma py_max_nonempty (xs : list Q) :
  xs <> [] -> exists m, py_max xs = Ok m.
Proof. destruct xs; [congruence | cbn; eauto]. Qed.

(** ** Scoring the candidates *)

Lemma mapM_Ok {A B : Type} (f : A -> result B) (xs : list A) (ys : list B) :
  mapM f xs = Ok ys -> Forall2 (fun x y => f x = Ok y) xs ys.
Proof.
  revert ys. induction xs as [| x rest IH]; intros ys; cbn.
  - intros [= <-]. constructor.
  - destruct (f x) as [y |] eqn:Hx; cbn; [| discriminate].
    destruct (mapM f rest) as [ys' |]; cbn; [| discriminate].
    intros [= <-]. constructor; [exact Hx | now apply IH].
Qed.

Lemma mapM_total {A B : Type} (f : A -> result B) (xs : list A) :
  (forall x, exists y, f x = Ok y) -> exists ys, mapM f xs = Ok ys.
Proof.
  intros Hf. induction xs as [| x rest [ys IH]]; cbn; [eauto |].
  destruct (Hf x) as [y ->]. rewrite IH. cbn. eauto.
Qed.

Lemma weight_present (weights : gmap string Q) (k : string) (v0 : Q) :
  dom Synthesis.WEIGHTS ⊆ dom weights ->
  Synthesis.WEIGHTS !! k = Some v0 ->
  exists v, weights !! k = Some v.
Proof.
  intros Hsub Hk. apply elem_of_dom, Hsub, elem_of_dom. eauto.
Qed.

Lemma calculate_final_score_total (weights : gmap string Q)
    (det asc tco dep eff : Q) :
  dom Synthesis.WEIGHTS ⊆ dom weights ->
  exists final,
    Synthesis.calculate_final_score det asc tco dep eff (Some weights)
    = Ok final.
Proof.
  intros Hsub.
  destruct (weight_present weights "detection" 0.30 Hsub eq_refl) as [wd Hd].
  destruct (weight_present weights "asc" 0.25 Hsub eq_refl) as [wa Ha].
  destruct (weight_present weights "tco" 0.20 Hsub eq_refl) as [wt Ht].
  destruct (weight_present weights "deployment" 0.15 Hsub eq_refl) as [wp Hp].
  destruct (weight_present weights "efficiency" 0.10 Hsub eq_refl) as [we He].
  eexists. apply calculate_final_score_lookup; eassumption.
Qed.

Lemma score_model_scored (weights : gmap string Q)
    (tmin tmax dmin dmax emin emax : Q)
    (m : Synthesis.Model) (r : Synthesis.Result) :
  Synthesis.score_model weights tmin tmax dmin dmax emin emax m = Ok r ->
  scored weights tmin tmax dmin dmax emin emax m r.
Proof.
  unfold Synthesis.score_model.
  destruct (Synthesis.calculate_final_score _ _ _ _ _ _) as [final |] eqn:E;
    cbn; [| discriminate].
  intros [= <-]. unfold scored. cbn. repeat split; try reflexivity. exact E.
Qed.

Lemma score_model_total (weights : gmap string Q)
    (tmin tmax dmin dmax emin emax : Q) (m : Synthesis.Model) :
  dom Synthesis.WEIGHTS ⊆ dom weights ->
  exists r, Synthesis.score_model weights tmin tmax dmin dmax emin emax m = Ok r.
Proof.
  intros Hsub. unfold Synthesis.score_model.
  edestruct calculate_final_score_total as [final ->]; [exact Hsub |].
  cbn. eauto.
Qed.

Lemma score_models_ok (weights : gmap string Q) (models : list Synthesis.Model) :
  models <> [] ->
  dom Synthesis.WEIGHTS ⊆ dom weights ->
  exists tmin tmax dmin dmax emin emax unsorted,
    py_min (map Synthesis.tco models) = Ok tmin
    /\ py_max (map Synthesis.tco models) = Ok tmax
    /\ py_min (map Synthesis.deployment models) = Ok dmin
    /\ py_max (map Synthesis.deployment models) = Ok dmax
    /\ py_min (map Synthesis.efficiency models) = Ok emin
    /\ py_max (map Synthesis.efficiency models) = Ok emax
    /\ Synthesis.score_models weights models = Ok unsorted
    /\ Forall2 (scored weights tmin tmax dmin dmax emin emax) models unsorted.
Proof.
  intros Hne Hsub.
  assert (Hmap : forall f : Synthesis.Model -> Q, map f models <> [])
    by (intros f; destruct models; [congruence | discriminate]).
  destruct (py_min_nonempty _ (Hmap Synthesis.tco)) as [tmin Htmin].
  destruct (py_max_nonempty _ (Hmap Synthesis.tco)) as [tmax Htmax].
  destruct (py_min_nonempty _ (Hmap Synthesis.deployment)) as [dmin Hdmin].
  destruct (py_max_nonempty _ (Hmap Synthesis.deployment)) as [dmax Hdmax].
  destruct (py_min_nonempty _ (Hmap Synthesis.efficiency)) as [emin Hemin].
  destruct (py_max_nonempty _ (Hmap Synthesis.efficiency)) as [emax Hemax].
  destruct (mapM_total
              (Synthesis.score_model weights tmin tmax dmin dmax emin emax)
              models) as [unsorted Hrows].
  { intros m. now apply score_model_total. }
  exists tmin, tmax, dmin, dmax, emin, emax, unsorted.
  repeat (split; [assumption |]).
  split.
  - unfold Synthesis.score_models.
    rewrite Htmin, Htmax, Hdmin, Hdmax, Hemin, Hemax. exact Hrows.
  - apply mapM_Ok in Hrows.
    eapply Forall2_impl; [exact Hrows |].
    intros m r. apply score_model_scored.
Qed.

Lemma scored_names (weights : gmap string Q)
    (tmin tmax dmin dmax emin emax : Q)
    (models : list Synthesis.Model) (rows : list Synthesis.Result) :
  Forall2 (scored weights tmin tmax dmin dmax emin emax) models rows ->
  map Synthesis.r_name rows = map Synthesis.name models.
Proof.
  induction 1 as [| m r ms rs Hr _ IH]; cbn; [reflexivity |].
  destruct Hr as [-> _]. now rewrite IH.
Qed.

Lemma compare_models_sorts (weights : gmap string Q)
    (models : list Synthesis.Model) (unsorted : list Synthesis.Result) :
  Synthesis.score_models weights models = Ok unsorted ->
  Synthesis.compare_models weights models
  = Ok (sort_reverse Synthesis.final_score unsorted).
Proof. intros H. unfold Synthesis.compare_models. now rewrite H. Qed.

Example scenario_ranking :
  match snd (Synthesis.main_compare false (typed 0 0 0 0 0)
               [candidate_A; candidate_B]) with
  | Ok [(1%nat, rb); (2%nat, ra)] =>
      Synthesis.r_name rb = "B" /\ Synthesis.r_name ra = "A"
      /\ Synthesis.tco_norm rb == 100 /\ Synthesis.tco_norm ra == 0
      /\ Synthesis.deployment_norm rb == 100
      /\ Synthesis.efficiency_norm rb == 100
      /\ Synthesis.final_score rb == 90.25
      /\ Synthesis.final_score ra == 50.75
  | _ => False
  end.
Proof. vm_compute. repeat apply conj; reflexivity. Qed.

(** ** The ranking *)

(** C1. For a non-empty sequence of candidates, the comparison returns a
    ranking that is sorted by composite score in descending order, keeps
    candidates of equal composite score in their input order, and numbers
    the rows 1..N from the first. *)
Theorem ranking_sorted_stable (weights : gmap string Q)
    (models : list Synthesis.Model) :
  models <> [] ->
  dom Synthesis.WEIGHTS ⊆ dom weights ->
  exists unsorted results,
    Synthesis.score_models weights models = Ok unsorted
    /\ map Synthesis.r_name unsorted = map Synthesis.name models
    /\ Synthesis.compare_models weights models = Ok results
    /\ results ≡ₚ unsorted
    /\ StronglySorted
         (fun r1 r2 => Synthesis.final_score r2 <= Synthesis.final_score r1)
         results
    /\ (forall k,
           filter (fun r => Synthesis.final_score r == k) results
           = filter (fun r => Synthesis.final_score r == k) unsorted)
    /\ map fst (Synthesis.final_rankings results) = seq 1 (length models)
    /\ map snd (Synthesis.final_rankings results) = results.
Proof.
  intros Hne Hsub.
  destruct (score_models_ok weights models Hne Hsub)
    as (tmin & tmax & dmin & dmax & emin & emax & unsorted
        & _ & _ & _ & _ & _ & _ & Hscore & Hrows).
  exists unsorted, (sort_reverse Synthesis.final_score unsorted).
  split; [exact Hscore |].
  split; [eapply scored_names, Hrows |].
  split; [now apply compare_models_sorts |].
  split; [apply sort_reverse_perm |].
  split; [apply (sort_reverse_sorted Synthesis.final_score) |].
  split; [intros k; apply sort_reverse_stable |].
  unfold Synthesis.final_rankings. split; [| apply enumerate_snd].
  rewrite enumerate_fst, (Permutation_length (sort_reverse_perm _ _)).
  now rewrite <- (Forall2_length _ _ _ Hrows).
Qed.

Lemma ranking_sorted_stable_witness :
  exists unsorted results,
    Synthesis.score_models Synthesis.WEIGHTS [candidate_A; candidate_B]
    = Ok unsorted
    /\ map Synthesis.r_name unsorted
       = map Synthesis.name [candidate_A; candidate_B]
    /\ Synthesis.compare_models Synthesis.WEIGHTS [candidate_A; candidate_B]
       = Ok results
    /\ results ≡ₚ unsorted
    /\ StronglySorted
         (fun r1 r2 => Synthesis.final_score r2 <= Synthesis.final_score r1)
         results
    /\ (forall k,
           filter (fun r => Synthesis.final_score r == k) results
           = filter (fun r => Synthesis.final_score r == k) unsorted)
    /\ map fst (Synthesis.final_rankings results)
       = seq 1 (length [candidate_A; candidate_B])
    /\ map snd (Synthesis.final_rankings results) = results.
Proof.
  apply (ranking_sorted_stable Synthesis.WEIGHTS [candidate_A; candidate_B]);
    [discriminate | reflexivity].
Defined.

(** Candidates of equal composite score keep their input order. *)
Example tie_keeps_input_order :
  match Synthesis.compare_models Synthesis.WEIGHTS
          [ {| Synthesis.name := "first"; Synthesis.detection := 70;
               Synthesis.asc := 70; Synthesis.tco := 1;
               Synthesis.deployment := 1; Synthesis.efficiency := 1 |};
            {| Synthesis.name := "second"; Synthesis.detection := 70;
               Synthesis.asc := 70; Synthesis.tco := 1;
               Synthesis.deployment := 1; Synthesis.efficiency := 1 |} ] with
  | Ok [r1; r2] =>
      Synthesis.r_name r1 = "first" /\ Synthesis.r_name r2 = "second"
      /\ Synthesis.final_score r1 == Synthesis.final_score r2
  | _ => False
  end.
Proof. vm_compute. repeat apply conj; reflexivity. Qed.

(** C6, as stated, fails: names are never compared, and two candidates of
    one name are ranked like any others. *)
Lemma duplicate_names_ranked :
  ~ (forall weights models,
        (models = [] ->
         exists e, Synthesis.compare_models weights models = Raise e)
        /\ (~ NoDup (map Synthesis.name models) ->
            exists e, Synthesis.compare_models weights models = Raise e)).
Proof.
  intros H.
  destruct (H Synthesis.WEIGHTS [candidate_A; candidate_A]) as [_ Hdup].
  destruct Hdup as [e He].
  - intros Hnd. inversion_clear Hnd as [| ? ? Hnotin _].
    apply Hnotin. cbn. now left.
  - vm_compute in He. discriminate.
Qed.

(** C6, amended. Given zero candidates the ranking fails with
    [ValueError] (raised by [min] of an empty sequence) and no ranking is
    produced; names are not checked, and a non-empty sequence of
    candidates, sharing names or not, is ranked in full. *)
Theorem ranking_errors (weights : gmap string Q) :
  Synthesis.compare_models weights [] = Raise ValueError
  /\ (forall custom ans built,
         Synthesis.build_weights custom ans = (built, Ok weights) ->
         snd (Synthesis.main_compare custom ans []) = Raise ValueError)
  /\ (forall models,
         models <> [] ->
         dom Synthesis.WEIGHTS ⊆ dom weights ->
         exists results,
           Synthesis.compare_models weights models = Ok results
           /\ length results = length models).
Proof.
  split; [reflexivity |]. split.
  - intros custom ans built Hb. unfold Synthesis.main_compare.
    now rewrite Hb.
  - intros models Hne Hsub.
    destruct (score_models_ok weights models Hne Hsub)
      as (tmin & tmax & dmin & dmax & emin & emax & unsorted
          & _ & _ & _ & _ & _ & _ & Hscore & Hrows).
    exists (sort_reverse Synthesis.final_score unsorted).
    split; [now apply compare_models_sorts |].
    rewrite (Permutation_length (sort_reverse_perm _ _)).
    symmetry. exact (Forall2_length _ _ _ Hrows).
Qed.

Lemma ranking_errors_witness :
  exists results,
    Synthesis.compare_models Synthesis.WEIGHTS [candidate_A; candidate_A]
    = Ok results
    /\ length results = length [candidate_A; candidate_A].
Proof.
  apply (proj2 (proj2 (ranking_errors Synthesis.WEIGHTS))
           [candidate_A; candidate_A]); [discriminate | reflexivity].
Defined.

(** C9. In a ranking run every candidate's detection and asc normalised
    scores are its raw detection and asc values, unchanged, while its tco,
    deployment and efficiency scores are normalised between the minimum
    and the maximum of that dimension over the candidates. *)
Theorem detection_asc_pass_through (weights : gmap string Q)
    (models : list Synthesis.Model) :
  models <> [] ->
  dom Synthesis.WEIGHTS ⊆ dom weights ->
  exists tmin tmax dmin dmax emin emax unsorted results,
    py_min (map Synthesis.tco models) = Ok tmin
    /\ py_max (map Synthesis.tco models) = Ok tmax
    /\ py_min (map Synthesis.deployment models) = Ok dmin
    /\ py_max (map Synthesis.deployment models) = Ok dmax
    /\ py_min (map Synthesis.efficiency models) = Ok emin
    /\ py_max (map Synthesis.efficiency models) = Ok emax
    /\ Synthesis.compare_models weights models = Ok results
    /\ results ≡ₚ unsorted
    /\ Forall2
         (fun m r =>
            Synthesis.r_name r = Synthesis.name m
            /\ Synthesis.detection_norm r = Synthesis.detection m
            /\ Synthesis.asc_norm r = Synthesis.asc m
            /\ Synthesis.tco_norm r
               = Synthesis.normalize_score (Synthesis.tco m) tmin tmax true
            /\ Synthesis.deployment_norm r
               = Synthesis.normalize_score (Synthesis.deployment m)
                   dmin dmax false
            /\ Synthesis.efficiency_norm r
               = Synthesis.normalize_score (Synthesis.efficiency m)
                   emin emax false)
         models unsorted.
Proof.
  intros Hne Hsub.
  destruct (score_models_ok weights models Hne Hsub)
    as (tmin & tmax & dmin & dmax & emin & emax & unsorted
        & Htmin & Htmax & Hdmin & Hdmax & Hemin & Hemax & Hscore & Hrows).
  exists tmin, tmax, dmin, dmax, emin, emax, unsorted,
    (sort_reverse Synthesis.final_score unsorted).
  repeat (split; [assumption |]).
  split; [now apply compare_models_sorts |].
  split; [apply sort_reverse_perm |].
  eapply Forall2_impl; [exact Hrows |].
  intros m r (Hn & Hd & Ha & Ht & Hp & He & _). now repeat split.
Qed.

Lemma detection_asc_pass_through_witness :
  exists tmin tmax dmin dmax emin emax unsorted results,
    py_min (map Synthesis.tco [candidate_A; candidate_B]) = Ok tmin
    /\ py_max (map Synthesis.tco [candidate_A; candidate_B]) = Ok tmax
    /\ py_min (map Synthesis.deployment [candidate_A; candidate_B]) = Ok dmin
    /\ py_max (map Synthesis.deployment [candidate_A; candidate_B]) = Ok dmax
    /\ py_min (map Synthesis.efficiency [candidate_A; candidate_B]) = Ok emin
    /\ py_max (map Synthesis.efficiency [candidate_A; candidate_B]) = Ok emax
    /\ Synthesis.compare_models Synthesis.WEIGHTS [candidate_A; candidate_B]
       = Ok results
    /\ results ≡ₚ unsorted
    /\ Forall2
         (fun m r =>
            Synthesis.r_name r = Synthesis.name m
            /\ Synthesis.detection_norm r = Synthesis.detection m
            /\ Synthesis.asc_norm r = Synthesis.asc m
            /\ Synthesis.tco_norm r
               = Synthesis.normalize_score (Synthesis.tco m) tmin tmax true
            /\ Synthesis.deployment_norm r
               = Synthesis.normalize_score (Synthesis.deployment m)
                   dmin dmax false
            /\ Synthesis.efficiency_norm r
               = Synthesis.normalize_score (Synthesis.efficiency m)
                   emin emax false)
         [candidate_A; candidate_B] unsorted.
Proof.
  apply (detection_asc_pass_through Synthesis.WEIGHTS
           [candidate_A; candidate_B]); [discriminate | reflexivity].
Defined.

(** ** Scores of a ranking run stay in range *)

Lemma between_min_max (f : Synthesis.Model -> Q)
    (models : list Synthesis.Model) (lo hi : Q) :
  py_min (map f models) = Ok lo ->
  py_max (map f models) = Ok hi ->
  Forall (fun m => lo <= f m /\ f m <= hi) models.
Proof.
  intros Hlo Hhi.
  apply py_min_lower_bound in Hlo. apply py_max_upper_bound in Hhi.
  rewrite Forall_map in Hlo, Hhi.
  rewrite Forall_forall in *. intros m Hm. split; auto.
Qed.

Lemma scored_in_range (weights : gmap string Q)
    (tmin tmax dmin dmax emin emax : Q)
    (models : list Synthesis.Model) (rows : list Synthesis.Result) :
  Forall2 (scored weights tmin tmax dmin dmax emin emax) models rows ->
  Forall (fun m => tmin <= Synthesis.tco m /\ Synthesis.tco m <= tmax) models ->
  Forall (fun m => dmin <= Synthesis.deployment m
                   /\ Synthesis.deployment m <= dmax) models ->
  Forall (fun m => emin <= Synthesis.efficiency m
                   /\ Synthesis.efficiency m <= emax) models ->
  Forall (fun r => 0 <= Synthesis.tco_norm r <= 100
                   /\ 0 <= Synthesis.deployment_norm r <= 100
                   /\ 0 <= Synthesis.efficiency_norm r <= 100) rows.
Proof.
  induction 1 as [| m r ms rs Hr _ IH]; intros Ht Hd He; constructor.
  - destruct Hr as (_ & _ & _ & -> & -> & -> & _).
    apply Forall_cons_1 in Ht as [[] _], Hd as [[] _], He as [[] _].
    repeat split; now apply normalize_score_bounds.
  - apply Forall_cons_1 in Ht as [_ Ht], Hd as [_ Hd], He as [_ He].
    now apply IH.
Qed.

(** In a ranking run, where the minimum and the maximum are taken over the
    candidates themselves, the three normalised scores of every row lie in
    [0, 100]. *)
Corollary ranking_scores_in_range (weights : gmap string Q)
    (models : list Synthesis.Model) :
  models <> [] ->
  dom Synthesis.WEIGHTS ⊆ dom weights ->
  exists results,
    Synthesis.compare_models weights models = Ok results
    /\ Forall (fun r => 0 <= Synthesis.tco_norm r <= 100
                        /\ 0 <= Synthesis.deployment_norm r <= 100
                        /\ 0 <= Synthesis.efficiency_norm r <= 100) results.
Proof.
  intros Hne Hsub.
  destruct (score_models_ok weights models Hne Hsub)
    as (tmin & tmax & dmin & dmax & emin & emax & unsorted
        & Htmin & Htmax & Hdmin & Hdmax & Hemin & Hemax & Hscore & Hrows).
  exists (sort_reverse Synthesis.final_score unsorted).
  split; [now apply compare_models_sorts |].
  rewrite sort_reverse_perm.
  eapply scored_in_range; [exact Hrows | | |];
    eapply between_min_max; eassumption.
Qed.

(** A run of [main] in comparison mode with at least one candidate, and
    with weights that do not sum to zero, prints a full ranking. *)
Corollary main_compare_total (custom : bool) (ans : Synthesis.WeightAnswers)
    (models : list Synthesis.Model) (warned : bool) (weights : gmap string Q) :
  models <> [] ->
  Synthesis.build_weights custom ans = (warned, Ok weights) ->
  exists rows,
    Synthesis.main_compare custom ans models = (warned, Ok rows)
    /\ map fst rows = seq 1 (length models).
Proof.
  intros Hne Hbuild.
  assert (Hsub : dom Synthesis.WEIGHTS ⊆ dom weights)
    by (now rewrite (build_weights_dom _ _ _ _ Hbuild)).
  destruct (score_models_ok weights models Hne Hsub)
    as (tmin & tmax & dmin & dmax & emin & emax & unsorted
        & _ & _ & _ & _ & _ & _ & Hscore & Hrows).
  exists (Synthesis.final_rankings
            (sort_reverse Synthesis.final_score unsorted)).
  split.
  - unfold Synthesis.main_compare. rewrite Hbuild. cbn.
    now rewrite (compare_models_sorts _ _ _ Hscore).
  - unfold Synthesis.final_rankings.
    rewrite enumerate_fst, (Permutation_length (sort_reverse_perm _ _)).
    now rewrite <- (Forall2_length _ _ _ Hrows).
Qed.

(** ** Division *)

Lemma truediv_nonzero (a b : Q) : ~ b == 0 -> truediv a b = Ok (a / b).
Proof.
  intros Hb. unfold truediv. destruct (Qeq_bool b 0) eqn:E; [| reflexivity].
  apply Qeq_bool_iff in E. contradiction.
Qed.

Lemma truediv_zero (a b : Q) : b == 0 -> truediv a b = Raise ZeroDivisionError.
Proof. intros Hb. unfold truediv. apply Qeq_bool_iff in Hb. now rewrite Hb. Qed.

Lemma truediv_cases (a b : Q) :
  (b == 0 /\ truediv a b = Raise ZeroDivisionError)
  \/ (~ b == 0 /\ truediv a b = Ok (a / b)).
Proof.
  destruct (Qeq_dec b 0) as [Hz | Hnz].
  - left. split; [exact Hz | now apply truediv_zero].
  - right. split; [exact Hnz | now apply truediv_nonzero].
Qed.

Lemma reciprocal_pos (x : Q) : 0 < x -> 0 < 1 / x.
Proof.
  intros Hx. unfold Qdiv. rewrite Qmult_1_l. now apply Qinv_lt_0_compat.
Qed.

Lemma reciprocal_antitone (x y : Q) : 0 < x -> x <= y -> 1 / y <= 1 / x.
Proof.
  intros Hx Hxy.
  assert (Hy : 0 < y) by lra.
  apply Qle_shift_div_l; [exact Hx |].
  assert (E : 1 / y * x == x / y) by (field; lra).
  rewrite E. apply Qle_shift_div_r; [exact Hy | lra].
Qed.

(** ** pfo_calculator.py *)

Lemma pfo_detection_unit (accuracy f1_score : Q) :
  0 <= accuracy <= 100 -> 0 <= f1_score <= 100 ->
  0 <= Pfo.calculate_detection_score accuracy f1_score <= 1.
Proof.
  intros [Ha0 Ha1] [Hf0 Hf1]. unfold Pfo.calculate_detection_score. split.
  - apply Qle_shift_div_l; [reflexivity | nra].
  - apply Qle_shift_div_r; [reflexivity | nra].
Qed.

Lemma pfo_efficiency_score_zero (training_time inference_time : Q) :
  (training_time == 0 \/ inference_time == 0 ->
   Pfo.calculate_efficiency_score training_time inference_time
   = Raise ZeroDivisionError)
  /\
  (~ training_time == 0 -> ~ inference_time == 0 ->
   exists e,
     Pfo.calculate_efficiency_score training_time inference_time = Ok e).
Proof.
  unfold Pfo.calculate_efficiency_score. split.
  - intros [Ht | Hi].
    + now rewrite (truediv_zero _ _ Ht).
    + destruct (truediv_cases 1 training_time) as [[_ ->] | [_ ->]];
        [reflexivity |].
      cbn. now rewrite (truediv_zero _ _ Hi).
  - intros Ht Hi.
    rewrite (truediv_nonzero _ _ Ht). cbn.
    rewrite (truediv_nonzero _ _ Hi). cbn. eauto.
Qed.

(** X12. The efficiency score raises [ZeroDivisionError], and nothing else,
    exactly when one of the two times is zero. It rewards speed: of two
    models with positive times, the one that is no faster in training and in
    inference scores no higher. *)
Theorem pfo_efficiency_score_spec (training_time inference_time : Q) :
  (forall x,
     Pfo.calculate_efficiency_score training_time inference_time = Raise x
     <-> x = ZeroDivisionError
         /\ (training_time == 0 \/ inference_time == 0))
  /\
  (forall slower_training slower_inference,
     0 < training_time <= slower_training ->
     0 < inference_time <= slower_inference ->
     exists e e',
       Pfo.calculate_efficiency_score training_time inference_time = Ok e
       /\ Pfo.calculate_efficiency_score slower_training slower_inference
          = Ok e'
       /\ e' <= e).
Proof.
  split.
  - intros x.
    destruct (Qeq_dec training_time 0) as [Ht | Ht];
      [| destruct (Qeq_dec inference_time 0) as [Hi | Hi]].
    + rewrite (proj1 (pfo_efficiency_score_zero _ _) (or_introl Ht)).
      split; [intros [= <-]; auto | now intros [-> _]].
    + rewrite (proj1 (pfo_efficiency_score_zero _ _) (or_intror Hi)).
      split; [intros [= <-]; auto | now intros [-> _]].
    + destruct (proj2 (pfo_efficiency_score_zero _ _) Ht Hi) as [e ->].
      split; [discriminate | intros [_ [H | H]]; contradiction].
  - intros t' i' [Ht Ht'] [Hi Hi'].
    unfold Pfo.calculate_efficiency_score.
    rewrite !truediv_nonzero by lra. cbn.
    do 2 eexists. split; [reflexivity |]. split; [reflexivity |].
    pose proof (reciprocal_antitone _ _ Ht Ht') as Rt.
    pose proof (reciprocal_antitone _ _ Hi Hi') as Ri.
    assert (0 < 1 / t') by (apply reciprocal_pos; lra).
    assert (0 < 1 / i') by (apply reciprocal_pos; lra).
    apply Qle_trans with (1 / training_time * (1 / i')).
    + apply Qmult_le_compat_r; [exact Rt | lra].
    + rewrite !(Qmult_comm (1 / training_time)).
      apply Qmult_le_compat_r; [exact Ri |].
      apply Qlt_le_weak, reciprocal_pos, Ht.
Qed.

Lemma pfo_efficiency_score_spec_witness :
  (Pfo.calculate_efficiency_score 100 0 = Raise ZeroDivisionError
   <-> ZeroDivisionError = ZeroDivisionError /\ (100 == 0 \/ 0 == 0))
  /\ exists e e',
       Pfo.calculate_efficiency_score 100 0.001 = Ok e
       /\ Pfo.calculate_efficiency_score 120 0.002 = Ok e'
       /\ e' <= e.
Proof.
  split.
  - apply (proj1 (pfo_efficiency_score_spec 100 0) ZeroDivisionError).
  - apply (proj2 (pfo_efficiency_score_spec 100 0.001) 120 0.002);
      split; discriminate || reflexivity.
Defined.

Lemma edge_compatibility_pos (is_edge : bool) (size : Q) :
  0 < Pfo.get_edge_compatibility is_edge size.
Proof.
  unfold Pfo.get_edge_compatibility.
  destruct is_edge; [reflexivity |].
  destruct (Qlt_le_dec size 10); reflexivity.
Qed.

Lemma edge_compatibility_le_1 (is_edge : bool) (size : Q) :
  Pfo.get_edge_compatibility is_edge size <= 1.
Proof.
  unfold Pfo.get_edge_compatibility.
  destruct is_edge; [discriminate |].
  destruct (Qlt_le_dec size 10); discriminate.
Qed.

Lemma edge_compatibility_antitone (is_edge : bool) (s1 s2 : Q) :
  s1 <= s2 ->
  Pfo.get_edge_compatibility is_edge s2 <= Pfo.get_edge_compatibility is_edge s1.
Proof.
  intros Hs. unfold Pfo.get_edge_compatibility.
  destruct is_edge; [apply Qle_refl |].
  destruct (Qlt_le_dec s2 10), (Qlt_le_dec s1 10);
    try apply Qle_refl; try discriminate.
  lra.
Qed.

(** X13. With the compatibility factor that [main] derives from the size, a
    larger model of the same kind never gets a higher deployment score, and
    the score of a model of positive size is positive. *)
Theorem pfo_deployment_score_antitone (is_edge : bool) (s1 s2 : Q) :
  0 < s1 -> s1 <= s2 ->
  exists p1 p2,
    Pfo.calculate_deployment_score s1 (Pfo.get_edge_compatibility is_edge s1)
    = Ok p1
    /\ Pfo.calculate_deployment_score s2
         (Pfo.get_edge_compatibility is_edge s2) = Ok p2
    /\ 0 < p2 /\ p2 <= p1.
Proof.
  intros H1 H12. assert (H2 : 0 < s2) by lra.
  unfold Pfo.calculate_deployment_score.
  rewrite !truediv_nonzero by lra. cbn.
  do 2 eexists. split; [reflexivity |]. split; [reflexivity |].
  pose proof (edge_compatibility_pos is_edge s1) as Ha1.
  pose proof (edge_compatibility_pos is_edge s2) as Ha2.
  pose proof (edge_compatibility_antitone is_edge s1 s2 H12) as Ha.
  pose proof (reciprocal_pos s1 H1) as Hr1.
  pose proof (reciprocal_pos s2 H2) as Hr2.
  pose proof (reciprocal_antitone s1 s2 H1 H12) as Hr.
  split; [now apply Qmult_lt_0_compat |].
  apply Qle_trans with (1 / s1 * Pfo.get_edge_compatibility is_edge s2).
  - apply Qmult_le_compat_r; [exact Hr | lra].
  - rewrite !(Qmult_comm (1 / s1)). apply Qmult_le_compat_r; [exact Ha | lra].
Qed.

Lemma pfo_deployment_score_antitone_witness :
  exists p1 p2,
    Pfo.calculate_deployment_score 9 (Pfo.get_edge_compatibility false 9)
    = Ok p1
    /\ Pfo.calculate_deployment_score 12
         (Pfo.get_edge_compatibility false 12) = Ok p2
    /\ 0 < p2 /\ p2 <= p1.
Proof.
  apply (pfo_deployment_score_antitone false 9 12); [reflexivity | discriminate].
Defined.


Lemma min2_unit (x : Q) : 0 <= x -> 0 <= Pfo.min2 x 1 <= 1.
Proof.
  intros Hx. unfold Pfo.min2.
  destruct (Qlt_le_dec 1 x); split; try discriminate; assumption.
Qed.

Lemma pfo_normalize_score_unit (value mn mx : Q) :
  mn <= value -> value <= mx -> 0 <= Pfo.normalize_score value mn mx <= 1.
Proof.
  intros Hlo Hhi. unfold Pfo.normalize_score.
  destruct (Qeq_bool mx mn) eqn:E; [split; discriminate |].
  assert (Hd : 0 < mx - mn) by (apply proper_range; [exact E | lra]).
  split.
  - apply Qle_shift_div_l; [exact Hd | lra].
  - apply Qle_shift_div_r; [exact Hd | lra].
Qed.

Lemma composite_pfo_unit (d e p : Q) :
  0 <= d <= 1 -> 0 <= e <= 1 -> 0 <= p <= 1 ->
  0 <= Pfo.calculate_composite_pfo d e p <= 1.
Proof.
  intros Hd He Hp. unfold Pfo.calculate_composite_pfo.
  assert (H3 : 1 / 3 == (1 # 3)) by reflexivity.
  rewrite !H3. lra.
Qed.

(** X14. [main] of the PFO calculator stops with [ZeroDivisionError] when the
    training time, the inference time or the model size is zero, in either
    branch. *)
Theorem pfo_main_zero_division
    (accuracy f1_score training_time inference_time model_size : Q)
    (is_edge : bool) (compare : option Pfo.Baseline) :
  training_time == 0 \/ inference_time == 0 \/ model_size == 0 ->
  Pfo.main accuracy f1_score training_time inference_time model_size
           is_edge compare
  = Raise ZeroDivisionError.
Proof.
  intros H. unfold Pfo.main.
  destruct (Qeq_dec training_time 0) as [Ht | Ht];
    [now rewrite (proj1 (pfo_efficiency_score_zero _ _) (or_introl Ht)) |].
  destruct (Qeq_dec inference_time 0) as [Hi | Hi];
    [now rewrite (proj1 (pfo_efficiency_score_zero _ _) (or_intror Hi)) |].
  destruct H as [H | [H | Hs]]; try contradiction.
  destruct (proj2 (pfo_efficiency_score_zero _ _) Ht Hi) as [e ->]. cbn.
  unfold Pfo.calculate_deployment_score. now rewrite (truediv_zero _ _ Hs).
Qed.

Lemma pfo_main_zero_division_witness :
  Pfo.main 95 94 100 0.001 0 true None = Raise ZeroDivisionError.
Proof.
  apply (pfo_main_zero_division 95 94 100 0.001 0 true None).
  right. right. reflexivity.
Defined.

(** X15. For two percentages, positive times and a positive size, [main]
    returns a report whose detection score is between 0 and 1 and whose
    efficiency and deployment scores are positive. Without a baseline its
    composite is between 0 and 1; with a baseline whose bounds enclose the
    model's efficiency and deployment scores, the normalised scores and the
    composite are between 0 and 1. *)
Theorem pfo_main_composite_range
    (accuracy f1_score training_time inference_time model_size : Q)
    (is_edge : bool) (compare : option Pfo.Baseline) :
  0 <= accuracy <= 100 -> 0 <= f1_score <= 100 ->
  0 < training_time -> 0 < inference_time -> 0 < model_size ->
  exists r,
    Pfo.main accuracy f1_score training_time inference_time model_size
             is_edge compare = Ok r
    /\ 0 <= Pfo.detection_score r <= 1
    /\ 0 < Pfo.efficiency_score r
    /\ 0 < Pfo.deployment_score r
    /\ match compare with
       | None => Pfo.normalized r = None /\ 0 <= Pfo.composite r <= 1
       | Some b =>
           Pfo.eff_min b <= Pfo.efficiency_score r <= Pfo.eff_max b ->
           Pfo.dep_min b <= Pfo.deployment_score r <= Pfo.dep_max b ->
           exists en dn,
             Pfo.normalized r = Some (en, dn)
             /\ 0 <= en <= 1 /\ 0 <= dn <= 1
             /\ 0 <= Pfo.composite r <= 1
       end.
Proof.
  intros Ha Hf Ht Hi Hs.
  pose proof (pfo_detection_unit accuracy f1_score Ha Hf) as Hd.
  unfold Pfo.main, Pfo.calculate_efficiency_score,
    Pfo.calculate_deployment_score.
  rewrite !truediv_nonzero by lra. cbn.
  assert (He : 0 < 1 / training_time * (1 / inference_time))
    by (apply Qmult_lt_0_compat; now apply reciprocal_pos).
  assert (Hp : 0 < 1 / model_size
                   * Pfo.get_edge_compatibility is_edge model_size)
    by (apply Qmult_lt_0_compat;
        [now apply reciprocal_pos | apply edge_compatibility_pos]).
  destruct compare as [b |]; eexists; (split; [reflexivity |]); cbn;
    (split; [exact Hd |]); (split; [exact He |]); (split; [exact Hp |]).
  - intros [He0 He1] [Hp0 Hp1]. do 2 eexists. split; [reflexivity |].
    pose proof (pfo_normalize_score_unit _ _ _ He0 He1) as Hen.
    pose proof (pfo_normalize_score_unit _ _ _ Hp0 Hp1) as Hdn.
    split; [exact Hen |]. split; [exact Hdn |].
    now apply composite_pfo_unit.
  - split; [reflexivity |].
    assert (He' : 0 <= 1 / training_time * (1 / inference_time) / 1000)
      by (apply Qle_shift_div_l; [reflexivity | lra]).
    pose proof (min2_unit _ He') as Hm1.
    pose proof (min2_unit _ (Qlt_le_weak _ _ Hp)) as Hm2.
    split.
    + apply Qle_shift_div_l; [reflexivity | lra].
    + apply Qle_shift_div_r; [reflexivity | lra].
Qed.

Lemma pfo_main_composite_range_witness :
  exists r,
    Pfo.main 95 94 100 0.001 5 false None = Ok r
    /\ 0 <= Pfo.detection_score r <= 1
    /\ 0 < Pfo.efficiency_score r
    /\ 0 < Pfo.deployment_score r
    /\ Pfo.normalized r = None /\ 0 <= Pfo.composite r <= 1.
Proof.
  apply (pfo_main_composite_range 95 94 100 0.001 5 false None);
    try (split; discriminate); reflexivity.
Defined.

(** ** asc_calculator.py *)

Lemma inject_Z_zero (z : Z) : inject_Z z == 0 <-> z = 0%Z.
Proof. unfold Qeq. cbn. lia. Qed.

Lemma tpr_counts_range (tp fn : Z) :
  (0 <= tp)%Z -> (0 <= fn)%Z -> (0 < tp + fn)%Z ->
  0 <= inject_Z tp / inject_Z (tp + fn) * 100 <= 100.
Proof.
  intros Htp Hfn Hsum.
  apply scaled_range.
  - rewrite (Zlt_Qlt 0 (tp + fn)) in Hsum. exact Hsum.
  - split.
    + rewrite (Zle_Qle 0 tp) in Htp. exact Htp.
    + rewrite <- Zle_Qle. lia.
Qed.

(** X16. A recall given to [calculate_tpr] is returned as it is, whatever the
    counts. Without one, counts that sum to zero raise [ZeroDivisionError],
    and non-negative counts that do not sum to zero give a rate between 0 and
    100 which is 100 exactly when there is no false negative. *)
Theorem asc_tpr_spec (tp fn : Z) :
  (forall recall, Asc.calculate_tpr tp fn (Some recall) = Ok recall)
  /\ ((tp + fn = 0)%Z ->
      Asc.calculate_tpr tp fn None = Raise ZeroDivisionError)
  /\ ((0 <= tp)%Z -> (0 <= fn)%Z -> (0 < tp + fn)%Z ->
      exists t,
        Asc.calculate_tpr tp fn None = Ok t
        /\ 0 <= t <= 100
        /\ (t == 100 <-> fn = 0%Z)).
Proof.
  split; [reflexivity |]. unfold Asc.calculate_tpr. split.
  - intros Hz. rewrite truediv_zero; [reflexivity |].
    now apply inject_Z_zero.
  - intros Htp Hfn Hsum.
    assert (Hnz : ~ inject_Z (tp + fn) == 0)
      by (rewrite inject_Z_zero; lia).
    rewrite (truediv_nonzero _ _ Hnz). cbn.
    eexists. split; [reflexivity |].
    split; [now apply tpr_counts_range |].
    rewrite inject_Z_plus in *. split.
    + intros H100.
      assert (E : inject_Z tp == inject_Z tp + inject_Z fn).
      { assert (H1 : inject_Z tp / (inject_Z tp + inject_Z fn) == 1) by lra.
        rewrite <- (Qmult_1_l (inject_Z tp + inject_Z fn)), <- H1.
        field. exact Hnz. }
      assert (E0 : inject_Z fn == 0) by lra.
      now apply inject_Z_zero.
    + intros ->. change (inject_Z 0) with 0. field.
      intros Hc. apply Hnz. rewrite Hc. reflexivity.
Qed.

Lemma asc_tpr_spec_witness :
  Asc.calculate_tpr 0 0 None = Raise ZeroDivisionError
  /\ exists t,
       Asc.calculate_tpr 95 5 None = Ok t
       /\ 0 <= t <= 100
       /\ (t == 100 <-> 5%Z = 0%Z).
Proof.
  split.
  - apply (proj1 (proj2 (asc_tpr_spec 0 0))). reflexivity.
  - apply (proj2 (proj2 (asc_tpr_spec 95 5))); lia.
Defined.

Lemma ascii_lower_idempotent (c : Ascii.ascii) :
  ascii_lower (ascii_lower c) = ascii_lower c.
Proof.
  destruct c as [[] [] [] [] [] [] [] []]; reflexivity.
Qed.

Lemma lower_idempotent (s : string) : lower (lower s) = lower s.
Proof.
  induction s as [| c rest IH]; cbn; [reflexivity |].
  now rewrite ascii_lower_idempotent, IH.
Qed.

Lemma novel_attack_score_cases (architecture_type : string) :
  (lower architecture_type = "attention"
   /\ Asc.get_novel_attack_score architecture_type = 90%Z)
  \/ (lower architecture_type = "hybrid"
      /\ Asc.get_novel_attack_score architecture_type = 80%Z)
  \/ (lower architecture_type <> "attention"
      /\ lower architecture_type <> "hybrid"
      /\ Asc.get_novel_attack_score architecture_type = 70%Z).
Proof.
  unfold Asc.get_novel_attack_score, dict_get.
  destruct (decide (lower architecture_type = "attention")) as [-> | Ha];
    [left; split; reflexivity |].
  destruct (decide (lower architecture_type = "hybrid")) as [-> | Hh];
    [right; left; split; reflexivity |].
  right. right. repeat split; try assumption.
  destruct (decide (lower architecture_type = "traditional")) as [-> | Ht];
    [reflexivity |].
  now rewrite !lookup_insert_ne, lookup_empty by congruence.
Qed.

(** X17. The novel-attack score is 90 for "attention", 80 for "hybrid" and 70
    for everything else, whatever the case of the letters: it is never another
    number, and upper-case spellings score like lower-case ones. *)
Theorem asc_novel_attack_score_spec (architecture_type : string) :
  (Asc.get_novel_attack_score architecture_type = 90%Z
   <-> lower architecture_type = "attention")
  /\ (Asc.get_novel_attack_score architecture_type = 80%Z
      <-> lower architecture_type = "hybrid")
  /\ (Asc.get_novel_attack_score architecture_type = 70%Z
      <-> lower architecture_type <> "attention"
          /\ lower architecture_type <> "hybrid")
  /\ (Asc.get_novel_attack_score architecture_type = 70%Z
      \/ Asc.get_novel_attack_score architecture_type = 80%Z
      \/ Asc.get_novel_attack_score architecture_type = 90%Z)
  /\ Asc.get_novel_attack_score (lower architecture_type)
     = Asc.get_novel_attack_score architecture_type.
Proof.
  assert (Hl : Asc.get_novel_attack_score (lower architecture_type)
               = Asc.get_novel_attack_score architecture_type)
    by (unfold Asc.get_novel_attack_score; now rewrite lower_idempotent).
  rewrite Hl.
  destruct (novel_attack_score_cases architecture_type)
    as [[E ->] | [[E ->] | (Ha & Hh & ->)]].
  - split; [tauto |].
    split; [split; [discriminate | rewrite E; discriminate] |].
    split; [split; [discriminate | intros [H _]; contradiction] |].
    split; [auto | reflexivity].
  - split; [split; [discriminate | rewrite E; discriminate] |].
    split; [tauto |].
    split; [split; [discriminate | intros [_ H]; contradiction] |].
    split; [auto | reflexivity].
  - split; [split; [discriminate | intros H; contradiction] |].
    split; [split; [discriminate | intros H; contradiction] |].
    split; [tauto |].
    split; [auto | reflexivity].
Qed.

Example novel_attack_score_upper_case :
  Asc.get_novel_attack_score "Attention" = 90%Z
  /\ Asc.get_novel_attack_score "HYBRID" = 80%Z
  /\ Asc.get_novel_attack_score "transformer" = 70%Z.
Proof. repeat apply conj; reflexivity. Qed.

Lemma inference_efficiency_range (model fastest : Q) :
  0 < fastest -> fastest <= model ->
  0 < fastest / model * 100 <= 100.
Proof.
  intros Hf Hm. assert (Hpos : 0 < model) by lra. split.
  - apply Qmult_lt_0_compat; [| reflexivity].
    apply Qlt_shift_div_l; [exact Hpos | lra].
  - apply scaled_range; [exact Hpos | lra].
Qed.

(** X18. The inference efficiency raises [ZeroDivisionError] for a model time
    of zero; when the fastest time is positive and not above the model's time,
    it is above 0 and at most 100, and 100 exactly for the fastest model. *)
Theorem asc_inference_efficiency_spec (model fastest : Q) :
  (model == 0 ->
   Asc.calculate_inference_efficiency model fastest = Raise ZeroDivisionError)
  /\ (0 < fastest -> fastest <= model ->
      exists i,
        Asc.calculate_inference_efficiency model fastest = Ok i
        /\ 0 < i <= 100
        /\ (i == 100 <-> model == fastest)).
Proof.
  unfold Asc.calculate_inference_efficiency. split.
  - intros Hz. now rewrite (truediv_zero _ _ Hz).
  - intros Hf Hm. rewrite truediv_nonzero by lra. cbn.
    eexists. split; [reflexivity |].
    split; [now apply inference_efficiency_range |]. split.
    + intros H100.
      assert (H1 : fastest / model == 1) by lra.
      rewrite <- (Qmult_1_l model), <- H1. field. lra.
    + intros E. rewrite E. field. lra.
Qed.

Lemma asc_inference_efficiency_spec_witness :
  Asc.calculate_inference_efficiency 0 0.0005 = Raise ZeroDivisionError
  /\ exists i,
       Asc.calculate_inference_efficiency 0.001 0.0005 = Ok i
       /\ 0 < i <= 100
       /\ (i == 100 <-> 0.001 == 0.0005).
Proof.
  split.
  - apply (proj1 (asc_inference_efficiency_spec 0 0.0005)). reflexivity.
  - apply (proj2 (asc_inference_efficiency_spec 0.001 0.0005));
      [reflexivity | discriminate].
Defined.


Lemma arch_choice_cases (arch_choice : string) :
  let arch_map : gmap string string :=
    <["3" := "traditional"]> (<["2" := "hybrid"]> (<["1" := "attention"]> ∅)) in
  let score :=
    Asc.get_novel_attack_score (dict_get arch_map arch_choice "traditional") in
  (arch_choice = "1" /\ score = 90%Z)
  \/ (arch_choice = "2" /\ score = 80%Z)
  \/ (arch_choice <> "1" /\ arch_choice <> "2" /\ score = 70%Z).
Proof.
  cbv zeta. unfold dict_get.
  destruct (decide (arch_choice = "1")) as [-> | H1];
    [left; split; reflexivity |].
  destruct (decide (arch_choice = "2")) as [-> | H2];
    [right; left; split; reflexivity |].
  right. right. repeat split; try assumption.
  destruct (decide (arch_choice = "3")) as [-> | H3]; [reflexivity |].
  now rewrite !lookup_insert_ne, lookup_empty by congruence.
Qed.

Lemma fpr_reading (fpr_value : Q) :
  0 <= fpr_value <= 100 ->
  0 <= (if Qlt_le_dec 1 fpr_value then fpr_value / 100 else fpr_value) <= 1.
Proof.
  intros [H0 H1]. destruct (Qlt_le_dec 1 fpr_value) as [Hgt | Hle].
  - split.
    + apply Qle_shift_div_l; [reflexivity | lra].
    + apply Qle_shift_div_r; [reflexivity | lra].
  - split; assumption.
Qed.

Lemma tpr_input_value (tpr_input : Asc.TprInput) :
  valid_tpr_input tpr_input ->
  exists t,
    match tpr_input with
    | Asc.Counts tp fn => Asc.calculate_tpr tp fn None
    | Asc.Direct recall => Ok recall
    end = Ok t
    /\ 0 <= t <= 100.
Proof.
  destruct tpr_input as [tp fn | recall]; cbn.
  - intros (Htp & Hfn & Hsum). unfold Asc.calculate_tpr.
    rewrite truediv_nonzero by (rewrite inject_Z_zero; lia). cbn.
    eexists. split; [reflexivity | now apply tpr_counts_range].
  - intros H. eauto.
Qed.

(** X19. For well-formed answers (a recall percentage or counts not both zero,
    an FPR between 0 and 100, a positive fastest time not above the model's),
    [main] of the ASC calculator returns a report in which the recall is
    between 0 and 100, the FPR actually used is between 0 and 1, the
    novel-attack score is 90, 80 or 70 according to the choice "1", "2" or
    anything else, and the ASC score is above 10.5 and at most 98.5. *)
Theorem asc_main_score_range (tpr_input : Asc.TprInput) (fpr_value : Q)
    (arch_choice : string) (model_infer_time fastest_infer_time : Q) :
  valid_tpr_input tpr_input ->
  0 <= fpr_value <= 100 ->
  0 < fastest_infer_time -> fastest_infer_time <= model_infer_time ->
  exists r,
    Asc.main tpr_input fpr_value arch_choice model_infer_time
             fastest_infer_time = Ok r
    /\ 0 <= Asc.tpr r <= 100
    /\ 0 <= Asc.fpr r <= 1
    /\ 0 <= Asc.fpr_min r <= 100
    /\ ((arch_choice = "1" /\ Asc.novel_attack r = 90%Z)
        \/ (arch_choice = "2" /\ Asc.novel_attack r = 80%Z)
        \/ (arch_choice <> "1" /\ arch_choice <> "2"
            /\ Asc.novel_attack r = 70%Z))
    /\ 0 < Asc.inference_eff r <= 100
    /\ 10.5 < Asc.asc_score r <= 98.5.
Proof.
  intros Hin Hfpr Hfast Hmodel. unfold Asc.main.
  destruct (tpr_input_value tpr_input Hin) as (t & -> & Ht). cbn.
  unfold Asc.calculate_inference_efficiency.
  rewrite truediv_nonzero by lra. cbn.
  eexists. split; [reflexivity |]. cbn.
  pose proof (fpr_reading fpr_value Hfpr) as Hf.
  pose proof (inference_efficiency_range _ _ Hfast Hmodel) as Hi.
  pose proof (arch_choice_cases arch_choice) as Hn. cbv zeta in Hn.
  set (f := if Qlt_le_dec 1 fpr_value then fpr_value / 100 else fpr_value)
    in *.
  set (ie := fastest_infer_time / model_infer_time * 100) in *.
  set (n := Asc.get_novel_attack_score _) in *.
  assert (Hfm : 0 <= Asc.calculate_fpr_min f <= 100)
    by (unfold Asc.calculate_fpr_min; lra).
  split; [exact Ht |]. split; [exact Hf |]. split; [exact Hfm |].
  split; [exact Hn |]. split; [exact Hi |].
  unfold Asc.calculate_asc.
  assert (Hnq : 70 <= inject_Z n <= 90).
  { destruct Hn as [[_ ->] | [[_ ->] | (_ & _ & ->)]]; split; discriminate. }
  set (fm := Asc.calculate_fpr_min f) in *.
  lra.
Qed.

Lemma asc_main_score_range_witness :
  exists r,
    Asc.main (Asc.Counts 95 5) 0.2 "1" 0.001 0.0005 = Ok r
    /\ 0 <= Asc.tpr r <= 100
    /\ 0 <= Asc.fpr r <= 1
    /\ 0 <= Asc.fpr_min r <= 100
    /\ (("1" = "1" /\ Asc.novel_attack r = 90%Z)
        \/ ("1" = "2" /\ Asc.novel_attack r = 80%Z)
        \/ ("1" <> "1" /\ "1" <> "2" /\ Asc.novel_attack r = 70%Z))
    /\ 0 < Asc.inference_eff r <= 100
    /\ 10.5 < Asc.asc_score r <= 98.5.
Proof.
  apply (asc_main_score_range (Asc.Counts 95 5) 0.2 "1" 0.001 0.0005).
  - cbn. lia.
  - split; discriminate.
  - reflexivity.
  - discriminate.
Defined.

Lemma float_of_cases (text : line Q) :
  (rejected text /\ float_of text = Raise ValueError)
  \/ (exists x, text = Denotes x /\ float_of text = Ok x).
Proof. destruct text; cbn; eauto. Qed.

(** On lines that all denote numbers, [main] from the lines typed is [main]
    on the numbers. *)
Lemma asc_main_from_input_converted (input_type : string) (tp fn : Z)
    (recall fpr_value : Q) (arch_choice : string)
    (model_infer_time fastest_infer_time : Q) :
  Asc.main_from_input
    {| Asc.in_input_type := input_type;
       Asc.in_tp := Denotes tp;
       Asc.in_fn := Denotes fn;
       Asc.in_recall := Denotes recall;
       Asc.in_fpr := Denotes fpr_value;
       Asc.in_arch_choice := arch_choice;
       Asc.in_model_infer_time := Denotes model_infer_time;
       Asc.in_fastest_infer_time := Denotes fastest_infer_time |}
  = Asc.main
      (if decide (input_type = "2") then Asc.Counts tp fn
       else Asc.Direct recall)
      fpr_value arch_choice model_infer_time fastest_infer_time.
Proof.
  unfold Asc.main_from_input, Asc.main. cbn.
  destruct (decide (input_type = "2")); reflexivity.
Qed.

(** X20. From the lines typed at its prompts, counts that are not negative
    among them, [main] of the ASC calculator fails up to its last
    computation in two ways only, whichever comes first in the order of the
    prompts: with [ValueError] when a line that it converts is not a number,
    and with [ZeroDivisionError] when the two counts sum to zero or the
    model's inference time is zero. *)
Theorem asc_main_failure (i : Asc.Input) (e : exn) :
  not_negative (Asc.in_tp i) -> not_negative (Asc.in_fn i) ->
  Asc.main_from_input i = Raise e
  <-> (e = ValueError
       /\ (recall_rejected i
           \/ (~ counts_sum_to_zero i /\ later_rejected i)))
      \/ (e = ZeroDivisionError
          /\ (counts_sum_to_zero i
              \/ (~ recall_rejected i /\ ~ later_rejected i
                  /\ denotes_zero (Asc.in_model_infer_time i)))).
Proof.
  intros _ _.
  destruct i as [mode tp fn recall fpr arch mt ft].
  unfold Asc.main_from_input, recall_rejected, counts_sum_to_zero,
    later_rejected.
  cbn [Asc.in_input_type Asc.in_tp Asc.in_fn Asc.in_recall Asc.in_fpr
       Asc.in_arch_choice Asc.in_model_infer_time
       Asc.in_fastest_infer_time].
  match goal with
  | |- context [mbind ?F _] => set (rest := F)
  end.
  assert (Hrest : forall tpr,
             rest tpr = Raise e
             <-> (e = ValueError
                  /\ (rejected fpr \/ rejected mt \/ rejected ft))
                 \/ (e = ZeroDivisionError
                     /\ ~ (rejected fpr \/ rejected mt \/ rejected ft)
                     /\ denotes_zero mt)).
  { intros tpr. subst rest. cbn beta.
    destruct fpr as [| fpr |]; cbn;
      try (split; [intros [= <-]; tauto | intros [[-> _] | [_ [H _]]]; tauto]).
    destruct mt as [| mt |]; cbn;
      try (split; [intros [= <-]; tauto | intros [[-> _] | [_ [H _]]]; tauto]).
    destruct ft as [| ft |]; cbn;
      try (split; [intros [= <-]; tauto | intros [[-> _] | [_ [H _]]]; tauto]).
    unfold Asc.calculate_inference_efficiency.
    destruct (truediv_cases ft mt) as [[Hz ->] | [Hnz ->]]; cbn.
    - split; [intros [= <-]; tauto | intros [[_ H] | [-> _]]; tauto].
    - split; [discriminate | intros [[_ H] | [_ [_ H]]]; tauto]. }
  destruct (decide (mode = "2")) as [Hm | Hm].
  - destruct tp as [| tp |]; cbn;
      try (split; [intros [= <-]; tauto | intros [[-> _] | [_ H]]; tauto]).
    destruct fn as [| fn |]; cbn;
      try (split; [intros [= <-]; tauto | intros [[-> _] | [_ H]]; tauto]).
    unfold Asc.calculate_tpr.
    destruct (truediv_cases (inject_Z tp) (inject_Z (tp + fn)))
      as [[Hz ->] | [Hnz ->]]; cbn.
    + apply (proj1 (inject_Z_zero _)) in Hz.
      split; [intros [= <-]; tauto | intros [[_ H] | [-> _]]; tauto].
    + assert (Hsum : (tp + fn)%Z <> 0%Z)
        by (intros Hc; apply Hnz; now apply inject_Z_zero).
      rewrite Hrest. tauto.
  - destruct recall as [| recall |]; cbn;
      try (split; [intros [= <-]; tauto | intros [[-> _] | [_ H]]; tauto]).
    rewrite Hrest. tauto.
Qed.

Lemma asc_main_failure_witness :
  Asc.main_from_input
    {| Asc.in_input_type := "2";
       Asc.in_tp := Denotes 0%Z;
       Asc.in_fn := Denotes 0%Z;
       Asc.in_recall := Blank;
       Asc.in_fpr := Garbled;
       Asc.in_arch_choice := "1";
       Asc.in_model_infer_time := Denotes 0.001;
       Asc.in_fastest_infer_time := Denotes 0.0005 |}
  = Raise ZeroDivisionError.
Proof.
  apply asc_main_failure; [cbn; lia | cbn; lia |].
  right. split; [reflexivity |]. left. split; reflexivity.
Defined.

Example asc_main_percentage_reading :
  match Asc.main (Asc.Direct 96) 0.5 "2" 0.001 0.0005,
        Asc.main (Asc.Direct 96) 50 "2" 0.001 0.0005 with
  | Ok r1, Ok r2 => Asc.fpr r1 == Asc.fpr r2
  | _, _ => False
  end.
Proof. vm_compute. reflexivity. Qed.

(** ** tco_calculator.py *)

Lemma DEFAULT_PARAMS_with : Tco.DEFAULT_PARAMS = params_with 1000 5 10000.
Proof. reflexivity. Qed.

Lemma read_params_default (ans : Tco.ParamAnswers) :
  Tco.read_params ans Tco.DEFAULT_PARAMS
  = Ok (params_with
          (Tco.int_answer_or (Tco.ans_num_devices ans) 1000)
          (Tco.int_answer_or (Tco.ans_evaluation_years ans) 5)
          (Tco.int_answer_or (Tco.ans_flows_per_device_per_day ans) 10000)).
Proof. reflexivity. Qed.

Lemma deployment_cost_with (N Y F size : Q) (edge : bool) :
  Tco.calculate_deployment_cost size edge (Some (params_with N Y F))
  = Ok (list_to_map
          [ ("infrastructure", 50000);
            ("hardware", 350 * size);
            ("network", if edge then 10000 else 50000);
            ("integration", if edge then 20000 else 100000);
            ("total",
             50000 + 350 * size + (if edge then 10000 else 50000)
             + (if edge then 20000 else 100000)) ]).
Proof. destruct edge; reflexivity. Qed.

Lemma operational_cost_with (N Y F training inference : Q) :
  Tco.calculate_operational_cost training inference (Some (params_with N Y F))
  = Ok (list_to_map
          [ ("training", training / 3600 * N * 1 * Y * 2);
            ("inference", F * N * 365 * Y * inference / 3600 * 0.5);
            ("energy", 90 * N * Y);
            ("total",
             training / 3600 * N * 1 * Y * 2
             + F * N * 365 * Y * inference / 3600 * 0.5
             + 90 * N * Y) ]).
Proof. reflexivity. Qed.

Lemma incident_response_cost_with (N Y F fpr : Q) :
  Tco.calculate_incident_response_cost fpr (Some (params_with N Y F))
  = Ok (list_to_map
          [ ("total_flows", F * N * 365 * Y);
            ("false_alerts", fpr * (F * N * 365 * Y));
            ("cost_per_alert", 10 / 60 * 75);
            ("total", fpr * (F * N * 365 * Y) * (10 / 60 * 75)) ]).
Proof. reflexivity. Qed.

Lemma scalability_cost_with (N Y F score : Q) (edge : bool) :
  Tco.calculate_scalability_cost edge score (Some (params_with N Y F))
  = Ok (list_to_map
          [ ("base_fee", if edge then 80000 else 50000);
            ("compatibility_factor", if edge then score else 1.0);
            ("total", if edge then 80000 * score else 50000) ]).
Proof. destruct edge; reflexivity. Qed.

(** The interpretability score that the default parameters give a label. *)
Lemma interpretability_score_cases (label : string) :
  let interp_scores : gmap string Q :=
    list_to_map [ ("high", 1.0); ("medium", 0.5); ("low", 0.2) ] in
  let score := dict_get interp_scores (lower label) 0.2 in
  (lower label = "high" /\ score = 1.0)
  \/ (lower label = "medium" /\ score = 0.5)
  \/ (lower label <> "high" /\ lower label <> "medium" /\ score = 0.2).
Proof.
  cbv zeta. unfold dict_get.
  destruct (decide (lower label = "high")) as [-> | Hh];
    [left; split; reflexivity |].
  destruct (decide (lower label = "medium")) as [-> | Hm];
    [right; left; split; reflexivity |].
  right. right. repeat split; try assumption.
  destruct (decide (lower label = "low")) as [-> | Hl]; [reflexivity |].
  cbn. now rewrite !lookup_insert_ne, lookup_empty by congruence.
Qed.

Lemma compliance_cost_with (N Y F : Q) (label : string) :
  exists score,
    Tco.calculate_compliance_cost label (Some (params_with N Y F))
    = Ok (list_to_map
            [ ("audit_fee", 120000);
              ("interpretability_score", score);
              ("opacity_factor", 1 / score);
              ("total", 120000 * (1 / score)) ])
    /\ ((lower label = "high" /\ score = 1.0)
        \/ (lower label = "medium" /\ score = 0.5)
        \/ (lower label <> "high" /\ lower label <> "medium"
            /\ score = 0.2)).
Proof.
  pose proof (interpretability_score_cases label) as H. cbv zeta in H.
  unfold Tco.calculate_compliance_cost.
  change (Tco.params_or_default (Some (params_with N Y F)))
    with (params_with N Y F).
  change (getitem (params_with N Y F) "interpretability_high") with (Ok 1.0).
  change (getitem (params_with N Y F) "interpretability_medium") with (Ok 0.5).
  change (getitem (params_with N Y F) "interpretability_low") with (Ok 0.2).
  change (getitem (params_with N Y F) "base_audit_fee") with (Ok 120000).
  cbn [mbind result_bind].
  set (score := dict_get _ (lower label) 0.2) in *.
  exists score. split; [| exact H].
  destruct H as [[_ ->] | [[_ ->] | (_ & _ & ->)]]; reflexivity.
Qed.


(** The interpretability score behind a choice at the prompt. *)
Lemma interp_choice_cases (interp_choice : string) :
  let interp_map : gmap string string :=
    list_to_map [ ("1", "high"); ("2", "medium"); ("3", "low") ] in
  let label := dict_get interp_map interp_choice "low" in
  (interp_choice = "1" /\ label = "high")
  \/ (interp_choice = "2" /\ label = "medium")
  \/ (interp_choice <> "1" /\ interp_choice <> "2" /\ label = "low").
Proof.
  cbv zeta. unfold dict_get.
  destruct (decide (interp_choice = "1")) as [-> | H1];
    [left; split; reflexivity |].
  destruct (decide (interp_choice = "2")) as [-> | H2];
    [right; left; split; reflexivity |].
  right. right. repeat split; try assumption.
  destruct (decide (interp_choice = "3")) as [-> | H3]; [reflexivity |].
  cbn. now rewrite !lookup_insert_ne, lookup_empty by congruence.
Qed.

(** [main] of the TCO calculator in closed form. *)
Lemma tco_main_closed_form (custom : option Tco.ParamAnswers)
    (size training inference fpr : Q) (edge : bool) (score_answer : Q)
    (interp_choice : string) :
  exists N Y F score r,
    system_params custom = (N, Y, F)
    /\ ((interp_choice = "1" /\ score = 1.0)
        \/ (interp_choice = "2" /\ score = 0.5)
        \/ (interp_choice <> "1" /\ interp_choice <> "2" /\ score = 0.2))
    /\ Tco.main custom size training inference fpr edge score_answer
                interp_choice = Ok r
    /\ Tco.dep_result r !! "total"
       = Some (50000 + 350 * size + (if edge then 10000 else 50000)
               + (if edge then 20000 else 100000))
    /\ Tco.op_result r !! "total"
       = Some (training / 3600 * N * 1 * Y * 2
               + F * N * 365 * Y * inference / 3600 * 0.5
               + 90 * N * Y)
    /\ Tco.ir_result r !! "total"
       = Some (fpr * (F * N * 365 * Y) * (10 / 60 * 75))
    /\ Tco.sc_result r !! "total"
       = Some (if edge then 80000 * score_answer else 50000)
    /\ Tco.cc_result r !! "total" = Some (120000 * (1 / score))
    /\ Tco.total_tco r
       = (50000 + 350 * size + (if edge then 10000 else 50000)
          + (if edge then 20000 else 100000))
         + (training / 3600 * N * 1 * Y * 2
            + F * N * 365 * Y * inference / 3600 * 0.5
            + 90 * N * Y)
         + fpr * (F * N * 365 * Y) * (10 / 60 * 75)
         + (if edge then 80000 * score_answer else 50000)
         + 120000 * (1 / score).
Proof.
  destruct (system_params custom) as [[N Y] F] eqn:Hsys.
  assert (Hparams :
            match custom with
            | Some ans => Tco.read_params ans Tco.DEFAULT_PARAMS
            | None => Ok Tco.DEFAULT_PARAMS
            end = Ok (params_with N Y F)).
  { destruct custom as [ans |]; cbn in Hsys; injection Hsys as <- <- <-;
      reflexivity. }
  pose proof (interp_choice_cases interp_choice) as Hc. cbv zeta in Hc.
  unfold Tco.main. rewrite Hparams. cbn [mbind result_bind].
  set (label := dict_get _ interp_choice "low") in *.
  destruct (compliance_cost_with N Y F label) as (score & Hcc & Hscore).
  rewrite deployment_cost_with, operational_cost_with,
    incident_response_cost_with, scalability_cost_with, Hcc.
  cbn [mbind result_bind].
  do 5 (match goal with
        | |- context [getitem ?d "total"] =>
            rewrite (getitem_Some d "total" _ eq_refl)
        end; cbn [mbind result_bind]).
  exists N, Y, F, score. eexists.
  split; [reflexivity |]. split.
  { destruct Hc as [[E1 E] | [[E1 E] | (E1 & E2 & E)]];
      rewrite E in Hscore; cbn in Hscore.
    - destruct Hscore as [[_ Hs] | [[Hl _] | (Hl & _)]];
        [left; now split | discriminate Hl | now contradiction Hl].
    - destruct Hscore as [[Hl _] | [[_ Hs] | (_ & Hl & _)]];
        [discriminate Hl | right; left; now split | now contradiction Hl].
    - destruct Hscore as [[Hl _] | [[Hl _] | (_ & _ & Hs)]];
        [discriminate Hl | discriminate Hl | right; right; now repeat split]. }
  split; [reflexivity |].
  cbn [Tco.dep_result Tco.op_result Tco.ir_result Tco.sc_result
       Tco.cc_result Tco.total_tco].
  split; [destruct edge; reflexivity |].
  split; [reflexivity |]. split; [reflexivity |].
  split; [destruct edge; reflexivity |].
  split; [reflexivity |].
  destruct edge; reflexivity.
Qed.


(** On numbers, [main] of the TCO calculator always returns: the default
    parameters hold every key the five cost functions read, the
    interpretability scores are not zero, and customising the system
    parameters keeps it so. The total is the sum of the totals of the five
    breakdowns. *)
Lemma tco_main_returns (custom : option Tco.ParamAnswers)
    (size training inference fpr : Q) (edge : bool) (score_answer : Q)
    (interp_choice : string) :
  exists r dep op ir sc cc,
    Tco.main custom size training inference fpr edge score_answer
             interp_choice = Ok r
    /\ Tco.dep_result r !! "total" = Some dep
    /\ Tco.op_result r !! "total" = Some op
    /\ Tco.ir_result r !! "total" = Some ir
    /\ Tco.sc_result r !! "total" = Some sc
    /\ Tco.cc_result r !! "total" = Some cc
    /\ Tco.total_tco r = dep + op + ir + sc + cc.
Proof.
  destruct (tco_main_closed_form custom size training inference fpr edge
              score_answer interp_choice)
    as (N & Y & F & score & r & _ & _ & Hmain & Hd & Ho & Hi & Hs & Hc & Ht).
  exists r. do 5 eexists.
  split; [exact Hmain |]. split; [exact Hd |]. split; [exact Ho |].
  split; [exact Hi |]. split; [exact Hs |]. split; [exact Hc |]. exact Ht.
Qed.

Lemma read_system_input_cases (customize : option Tco.SystemInput) :
  (system_rejected customize
   /\ match customize with
      | Some s => ans ← Tco.read_system_input s; Ok (Some ans)
      | None => Ok None
      end = Raise ValueError)
  \/ (~ system_rejected customize
      /\ exists custom,
           match customize with
           | Some s => ans ← Tco.read_system_input s; Ok (Some ans)
           | None => Ok None
           end = Ok custom).
Proof.
  destruct customize as [[n y f] |]; cbn; [| right; split; eauto].
  unfold Tco.read_system_input. cbn.
  destruct n; cbn; [| | now left; auto];
    (destruct y; cbn; [| | now left; auto]);
    (destruct f; cbn; [| | now left; auto]);
    right; (split; [intros [H | [H | H]]; discriminate | eauto]).
Qed.

(** X21. From the lines typed at its prompts, custom system parameters of
    moderate size among them, [main] of the TCO calculator fails up to the
    computation of the total in one way only: with [ValueError], exactly
    when a line that it converts is not a number. Otherwise it returns, and
    the total is the sum of the totals of the five breakdowns. *)
Theorem tco_main_total (customize : option Tco.SystemInput)
    (model_size training_time inference_time fpr : line Q) (is_edge : bool)
    (edge_score : line Q) (interp_choice : string) :
  system_moderate customize ->
  (forall e,
     Tco.main_from_input customize model_size training_time inference_time
       fpr is_edge edge_score interp_choice = Raise e
     <-> e = ValueError
         /\ tco_rejected customize model_size training_time inference_time
              fpr is_edge edge_score)
  /\ (~ tco_rejected customize model_size training_time inference_time fpr
        is_edge edge_score ->
      exists r dep op ir sc cc,
        Tco.main_from_input customize model_size training_time
          inference_time fpr is_edge edge_score interp_choice = Ok r
        /\ Tco.dep_result r !! "total" = Some dep
        /\ Tco.op_result r !! "total" = Some op
        /\ Tco.ir_result r !! "total" = Some ir
        /\ Tco.sc_result r !! "total" = Some sc
        /\ Tco.cc_result r !! "total" = Some cc
        /\ Tco.total_tco r = dep + op + ir + sc + cc).
Proof.
  intros _. unfold Tco.main_from_input, tco_rejected.
  assert (Hfail : forall P : Prop, P ->
            (forall e, Raise (A := Tco.Report) ValueError = Raise e
                       <-> e = ValueError /\ P)
            /\ (~ P -> exists r dep op ir sc cc,
                  Raise ValueError = Ok r
                  /\ Tco.dep_result r !! "total" = Some dep
                  /\ Tco.op_result r !! "total" = Some op
                  /\ Tco.ir_result r !! "total" = Some ir
                  /\ Tco.sc_result r !! "total" = Some sc
                  /\ Tco.cc_result r !! "total" = Some cc
                  /\ Tco.total_tco r = dep + op + ir + sc + cc)).
  { intros P HP. split; [| now intros Hn].
    intros e. split; [intros [= <-]; auto | now intros [-> _]]. }
  destruct (read_system_input_cases customize) as [[Hc ->] | [Hc [custom ->]]];
    cbn [mbind result_bind]; [apply Hfail; tauto |].
  destruct (float_of_cases model_size) as [[H1 ->] | [size [-> ->]]];
    cbn [mbind result_bind]; [apply Hfail; tauto |].
  destruct (float_of_cases training_time) as [[H2 ->] | [training [-> ->]]];
    cbn [mbind result_bind]; [apply Hfail; tauto |].
  destruct (float_of_cases inference_time)
    as [[H3 ->] | [inference [-> ->]]];
    cbn [mbind result_bind]; [apply Hfail; tauto |].
  destruct (float_of_cases fpr) as [[H4 ->] | [fpr_value [-> ->]]];
    cbn [mbind result_bind]; [apply Hfail; tauto |].
  assert (Hedge :
            (is_edge = true /\ rejected edge_score
             /\ (if is_edge then float_of edge_score else Ok 0.2)
                = Raise ValueError)
            \/ (~ (is_edge = true /\ rejected edge_score)
                /\ exists score,
                     (if is_edge then float_of edge_score else Ok 0.2)
                     = Ok score)).
  { destruct is_edge.
    - destruct (float_of_cases edge_score) as [[H5 ->] | [score [-> ->]]];
        [left; auto | right; split; [cbn; tauto | eauto]].
    - right. split; [intros [[=] _] | eauto]. }
  destruct Hedge as [(He & H5 & ->) | [H5 [score ->]]];
    cbn [mbind result_bind]; [apply Hfail; tauto |].
  destruct (tco_main_returns custom size training inference fpr_value is_edge
              score interp_choice)
    as (r & dep & op & ir & sc & cc & Hmain & Hrest).
  rewrite Hmain. cbn [rejected]. split.
  - intros e. split; [discriminate | tauto].
  - intros _. exists r, dep, op, ir, sc, cc. split; [reflexivity | exact Hrest].
Qed.

Lemma tco_main_total_witness :
  (forall e,
     Tco.main_from_input
       (Some {| Tco.in_num_devices := Denotes 200%Z;
                Tco.in_evaluation_years := Blank;
                Tco.in_flows_per_device_per_day := Garbled |})
       (Denotes 5) (Denotes 100) (Denotes 0.001) (Denotes 0.0012) false
       Blank "3" = Raise e
     <-> e = ValueError
         /\ tco_rejected
              (Some {| Tco.in_num_devices := Denotes 200%Z;
                       Tco.in_evaluation_years := Blank;
                       Tco.in_flows_per_device_per_day := Garbled |})
              (Denotes 5) (Denotes 100) (Denotes 0.001) (Denotes 0.0012)
              false Blank)
  /\ exists r dep op ir sc cc,
       Tco.main_from_input
         (Some {| Tco.in_num_devices := Denotes 200%Z;
                  Tco.in_evaluation_years := Blank;
                  Tco.in_flows_per_device_per_day := Denotes 5000%Z |})
         (Denotes 5) (Denotes 100) (Denotes 0.001) (Denotes 0.0012) false
         Blank "3" = Ok r
       /\ Tco.dep_result r !! "total" = Some dep
       /\ Tco.op_result r !! "total" = Some op
       /\ Tco.ir_result r !! "total" = Some ir
       /\ Tco.sc_result r !! "total" = Some sc
       /\ Tco.cc_result r !! "total" = Some cc
       /\ Tco.total_tco r = dep + op + ir + sc + cc.
Proof.
  split.
  - apply tco_main_total. cbn. lia.
  - apply tco_main_total; [cbn; lia |].
    unfold tco_rejected. cbn.
    intros [[H | [H | H]] | [H | [H | [H | [H | [H _]]]]]];
      try discriminate H; exact H.
Defined.

Lemma py_int_integer (z : Z) : py_int (inject_Z z) = inject_Z z.
Proof. unfold py_int. cbn. now rewrite Z.quot_1_r. Qed.

Lemma int_answer_nonneg (ans : option Z) (n : Z) :
  (0 <= n)%Z ->
  (forall z, ans = Some z -> (0 <= z)%Z) ->
  0 <= Tco.int_answer_or ans (inject_Z n).
Proof.
  intros Hn Hans. destruct ans as [z |]; cbn.
  - change 0 with (inject_Z 0). rewrite <- Zle_Qle. now apply Hans.
  - rewrite py_int_integer. change 0 with (inject_Z 0).
    now rewrite <- Zle_Qle.
Qed.

Lemma system_params_nonneg (custom : option Tco.ParamAnswers) (N Y F : Q) :
  nonnegative_answers custom ->
  system_params custom = (N, Y, F) ->
  0 <= N /\ 0 <= Y /\ 0 <= F.
Proof.
  destruct custom as [ans |]; cbn.
  - intros (HN & HY & HF) [= <- <- <-].
    split; [| split].
    + now apply (int_answer_nonneg _ 1000).
    + now apply (int_answer_nonneg _ 5).
    + now apply (int_answer_nonneg _ 10000).
  - intros _ [= <- <- <-]. repeat split; discriminate.
Qed.

Lemma choice_score_unique (interp_choice : string) (s1 s2 : Q) :
  (interp_choice = "1" /\ s1 = 1.0)
  \/ (interp_choice = "2" /\ s1 = 0.5)
  \/ (interp_choice <> "1" /\ interp_choice <> "2" /\ s1 = 0.2) ->
  (interp_choice = "1" /\ s2 = 1.0)
  \/ (interp_choice = "2" /\ s2 = 0.5)
  \/ (interp_choice <> "1" /\ interp_choice <> "2" /\ s2 = 0.2) ->
  s1 = s2.
Proof.
  intros [[E1 ->] | [[E1 ->] | (A1 & B1 & ->)]]
         [[E2 ->] | [[E2 ->] | (A2 & B2 & ->)]];
    try reflexivity; subst; try discriminate; contradiction.
Qed.

(** X22. With system parameters that are not negative, the total cost of
    ownership never decreases when the model grows, trains or infers more
    slowly, or raises more false alarms, everything else being equal. *)
Theorem tco_main_monotone (custom : option Tco.ParamAnswers)
    (size1 size2 training1 training2 inference1 inference2 fpr1 fpr2 : Q)
    (edge : bool) (score_answer : Q) (interp_choice : string) :
  nonnegative_answers custom ->
  size1 <= size2 -> training1 <= training2 ->
  inference1 <= inference2 -> fpr1 <= fpr2 ->
  exists r1 r2,
    Tco.main custom size1 training1 inference1 fpr1 edge score_answer
             interp_choice = Ok r1
    /\ Tco.main custom size2 training2 inference2 fpr2 edge score_answer
                interp_choice = Ok r2
    /\ Tco.total_tco r1 <= Tco.total_tco r2.
Proof.
  intros Hans Hsize Htrain Hinfer Hfpr.
  destruct (tco_main_closed_form custom size1 training1 inference1 fpr1 edge
              score_answer interp_choice)
    as (N & Y & F & score & r1 & Hsys & Hsc & Hmain1 & _ & _ & _ & _ & _ & Ht1).
  destruct (tco_main_closed_form custom size2 training2 inference2 fpr2 edge
              score_answer interp_choice)
    as (N' & Y' & F' & score' & r2 & Hsys' & Hsc' & Hmain2
        & _ & _ & _ & _ & _ & Ht2).
  rewrite Hsys in Hsys'. injection Hsys' as <- <- <-.
  rewrite <- (choice_score_unique _ _ _ Hsc Hsc') in Ht2.
  destruct (system_params_nonneg _ _ _ _ Hans Hsys) as (HN & HY & HF).
  exists r1, r2. split; [exact Hmain1 |]. split; [exact Hmain2 |].
  rewrite Ht1, Ht2.
  assert (HNY : 0 <= N * Y) by now apply Qmult_le_0_compat.
  assert (HFNY : 0 <= F * (N * Y)) by now apply Qmult_le_0_compat.
  set (K := N * Y) in *. set (L := F * K) in *.
  assert (E1 : forall t, t / 3600 * N * 1 * Y * 2 == t * (K * (2 / 3600)))
    by (intros t; unfold K; field).
  assert (E2 : forall i,
             F * N * 365 * Y * i / 3600 * 0.5 == i * (L * (365 / 7200)))
    by (intros i; unfold L, K; field).
  assert (E3 : forall f,
             f * (F * N * 365 * Y) * (10 / 60 * 75) == f * (L * (9125 / 2)))
    by (intros f; unfold L, K; field).
  rewrite !E1, !E2, !E3.
  assert (H1 : training1 * (K * (2 / 3600)) <= training2 * (K * (2 / 3600))).
  { apply Qmult_le_compat_r; [exact Htrain |].
    apply Qmult_le_0_compat; [exact HNY | discriminate]. }
  assert (H2 : inference1 * (L * (365 / 7200))
               <= inference2 * (L * (365 / 7200))).
  { apply Qmult_le_compat_r; [exact Hinfer |].
    apply Qmult_le_0_compat; [exact HFNY | discriminate]. }
  assert (H3 : fpr1 * (L * (9125 / 2)) <= fpr2 * (L * (9125 / 2))).
  { apply Qmult_le_compat_r; [exact Hfpr |].
    apply Qmult_le_0_compat; [exact HFNY | discriminate]. }
  lra.
Qed.

Lemma tco_main_monotone_witness :
  exists r1 r2,
    Tco.main None 5 100 0.001 0.0012 true 0.9 "2" = Ok r1
    /\ Tco.main None 8 100 0.001 0.002 true 0.9 "2" = Ok r2
    /\ Tco.total_tco r1 <= Tco.total_tco r2.
Proof.
  apply (tco_main_monotone None 5 8 100 100 0.001 0.001 0.0012 0.002
           true 0.9 "2"); try discriminate. exact I.
Defined.

(** X23. With the default parameters the compliance cost is 120000 for high,
    240000 for medium and 600000 for low interpretability, whatever the case
    of the letters; any other label is billed as low. *)
Theorem tco_compliance_cost_default (interpretability : string) :
  exists d total,
    Tco.calculate_compliance_cost interpretability None = Ok d
    /\ d !! "total" = Some total
    /\ ((lower interpretability = "high" /\ total == 120000)
        \/ (lower interpretability = "medium" /\ total == 240000)
        \/ (lower interpretability <> "high"
            /\ lower interpretability <> "medium" /\ total == 600000)).
Proof.
  destruct (compliance_cost_with 1000 5 10000 interpretability)
    as (score & Hcc & Hscore).
  change (Tco.calculate_compliance_cost interpretability
            (Some (params_with 1000 5 10000)))
    with (Tco.calculate_compliance_cost interpretability None) in Hcc.
  do 2 eexists. split; [exact Hcc |]. split; [reflexivity |].
  destruct Hscore as [[Hl ->] | [[Hl ->] | (Hh & Hm & ->)]].
  - left. split; [exact Hl | reflexivity].
  - right. left. split; [exact Hl | reflexivity].
  - right. right. repeat split; try assumption.
Qed.

(** X24. The compliance cost divides by the interpretability score: custom
    parameters whose low score is zero make every label other than high and
    medium raise [ZeroDivisionError]. *)
Theorem tco_compliance_zero_score (p : gmap string Q)
    (interpretability : string) (high medium low : Q) :
  p !! "interpretability_high" = Some high ->
  p !! "interpretability_medium" = Some medium ->
  p !! "interpretability_low" = Some low ->
  low == 0 ->
  lower interpretability <> "high" ->
  lower interpretability <> "medium" ->
  Tco.calculate_compliance_cost interpretability (Some p)
  = Raise ZeroDivisionError.
Proof.
  intros Hh Hm Hl Hz Hnh Hnm. unfold Tco.calculate_compliance_cost.
  assert (Hp : Tco.params_or_default (Some p) = p).
  { unfold Tco.params_or_default.
    destruct (decide (p = ∅)) as [-> | _]; [| reflexivity].
    rewrite lookup_empty in Hh. discriminate. }
  rewrite Hp, (getitem_Some _ _ _ Hh), (getitem_Some _ _ _ Hm),
    (getitem_Some _ _ _ Hl).
  cbn [mbind result_bind].
  assert (Hscore : dict_get
                     (list_to_map
                        [("high", high); ("medium", medium); ("low", low)])
                     (lower interpretability) low = low).
  { unfold dict_get. cbn [list_to_map foldr fst snd curry].
    rewrite !lookup_insert_ne by congruence.
    destruct (decide (lower interpretability = "low")) as [-> | Hnl].
    - now rewrite lookup_insert_eq.
    - now rewrite lookup_insert_ne, lookup_empty by congruence. }
  rewrite Hscore, (truediv_zero _ _ Hz). reflexivity.
Qed.

Lemma tco_compliance_zero_score_witness :
  Tco.calculate_compliance_cost "low"
    (Some (<["interpretability_low" := 0]> Tco.DEFAULT_PARAMS))
  = Raise ZeroDivisionError.
Proof.
  apply (tco_compliance_zero_score
           (<["interpretability_low" := 0]> Tco.DEFAULT_PARAMS)
           "low" 1.0 0.5 0);
    try reflexivity; discriminate.
Defined.

(** ** main_calculator.py *)

Lemma complete_arch_cases (arch_choice : string) :
  let arch_scores : gmap string Z :=
    list_to_map [ ("1", 90%Z); ("2", 80%Z); ("3", 70%Z) ] in
  let novel := dict_get arch_scores arch_choice 70%Z in
  (arch_choice = "1" /\ novel = 90%Z)
  \/ (arch_choice = "2" /\ novel = 80%Z)
  \/ (arch_choice <> "1" /\ arch_choice <> "2" /\ novel = 70%Z).
Proof.
  cbv zeta. unfold dict_get.
  destruct (decide (arch_choice = "1")) as [-> | H1];
    [left; split; reflexivity |].
  destruct (decide (arch_choice = "2")) as [-> | H2];
    [right; left; split; reflexivity |].
  right. right. repeat split; try assumption.
  destruct (decide (arch_choice = "3")) as [-> | H3]; [reflexivity |].
  cbn. now rewrite !lookup_insert_ne, lookup_empty by congruence.
Qed.

Lemma complete_interp_cases (interp_choice : string) :
  let interp_map : gmap string (string * Q) :=
    list_to_map
      [ ("1", ("high", 1.0)); ("2", ("medium", 0.5)); ("3", ("low", 0.2)) ] in
  let entry := dict_get interp_map interp_choice ("low", 0.2) in
  (interp_choice = "1" /\ entry = ("high", 1.0))
  \/ (interp_choice = "2" /\ entry = ("medium", 0.5))
  \/ (interp_choice <> "1" /\ interp_choice <> "2" /\ entry = ("low", 0.2)).
Proof.
  cbv zeta. unfold dict_get.
  destruct (decide (interp_choice = "1")) as [-> | H1];
    [left; split; reflexivity |].
  destruct (decide (interp_choice = "2")) as [-> | H2];
    [right; left; split; reflexivity |].
  right. right. repeat split; try assumption.
  destruct (decide (interp_choice = "3")) as [-> | H3]; [reflexivity |].
  cbn. now rewrite !lookup_insert_ne, lookup_empty by congruence.
Qed.

(** [run_complete_evaluation] in closed form, when nothing divides by
    zero. *)
Lemma run_complete_closed_form
    (accuracy f1_score training inference size : Q) (edge : bool)
    (recall fpr : Q) (arch_choice interp_choice : string) (fastest : Q) :
  ~ training == 0 -> ~ inference == 0 -> ~ size == 0 ->
  exists novel score ev,
    ((arch_choice = "1" /\ novel = 90%Z)
     \/ (arch_choice = "2" /\ novel = 80%Z)
     \/ (arch_choice <> "1" /\ arch_choice <> "2" /\ novel = 70%Z))
    /\ ((interp_choice = "1" /\ score = 1.0)
        \/ (interp_choice = "2" /\ score = 0.5)
        \/ (interp_choice <> "1" /\ interp_choice <> "2" /\ score = 0.2))
    /\ MainCalculator.run_complete_evaluation accuracy f1_score training
         inference size edge recall fpr arch_choice interp_choice fastest
       = Ok ev
    /\ MainCalculator.edge_score ev = Pfo.get_edge_compatibility edge size
    /\ MainCalculator.detection_score ev = accuracy * f1_score / 10000
    /\ MainCalculator.efficiency_score ev = 1 / training * (1 / inference)
    /\ MainCalculator.deployment_score ev
       = 1 / size * Pfo.get_edge_compatibility edge size
    /\ MainCalculator.tpr ev = recall
    /\ MainCalculator.fpr_min ev = (1 - fpr) * 100
    /\ MainCalculator.novel_attack ev = novel
    /\ MainCalculator.inference_eff ev = fastest / inference * 100
    /\ MainCalculator.asc_score ev
       = 0.35 * recall + 0.35 * ((1 - fpr) * 100) + 0.15 * inject_Z novel
         + 0.15 * (fastest / inference * 100)
    /\ MainCalculator.dep_cost ev
       = 50000 + 350 * size + (if edge then 10000 else 50000)
         + (if edge then 20000 else 100000)
    /\ MainCalculator.op_cost ev
       = training / 3600 * 1000 * 1 * 5 * 2
         + 10000 * 1000 * 365 * 5 * inference / 3600 * 0.5
         + 90 * 1000 * 5
    /\ MainCalculator.ir_cost ev
       = fpr * (10000 * 1000 * 365 * 5) * (10 / 60 * 75)
    /\ MainCalculator.sc_cost ev
       = (if edge then 80000 * Pfo.get_edge_compatibility edge size
          else 50000)
    /\ MainCalculator.cc_cost ev = 120000 * (1 / score)
    /\ MainCalculator.tco ev
       = MainCalculator.dep_cost ev + MainCalculator.op_cost ev
         + MainCalculator.ir_cost ev + MainCalculator.sc_cost ev
         + MainCalculator.cc_cost ev.
Proof.
  intros Ht Hi Hs.
  pose proof (complete_arch_cases arch_choice) as Ha. cbv zeta in Ha.
  pose proof (complete_interp_cases interp_choice) as Hc. cbv zeta in Hc.
  unfold MainCalculator.run_complete_evaluation.
  set (novel := dict_get _ arch_choice 70%Z) in *.
  set (entry := dict_get _ interp_choice ("low", 0.2)) in *.
  assert (Hentry : exists label score,
             entry = (label, score)
             /\ ~ score == 0
             /\ ((interp_choice = "1" /\ score = 1.0)
                 \/ (interp_choice = "2" /\ score = 0.5)
                 \/ (interp_choice <> "1" /\ interp_choice <> "2"
                     /\ score = 0.2))).
  { destruct Hc as [[E ->] | [[E ->] | (E1 & E2 & ->)]];
      do 2 eexists; (split; [reflexivity |]); (split; [discriminate |]);
      auto. }
  destruct Hentry as (label & score & -> & Hnz & Hscore).
  rewrite (truediv_nonzero _ _ Ht). cbn [mbind result_bind].
  rewrite (truediv_nonzero 1 _ Hi). cbn [mbind result_bind].
  rewrite (truediv_nonzero _ _ Hs). cbn [mbind result_bind].
  rewrite (truediv_nonzero fastest _ Hi). cbn [mbind result_bind].
  rewrite (truediv_nonzero _ _ Hnz). cbn [mbind result_bind].
  exists novel, score. eexists.
  split; [exact Ha |]. split; [exact Hscore |].
  split; [reflexivity |].
  repeat (split; [reflexivity |]). reflexivity.
Qed.


(** On numbers, [run_complete_evaluation] raises [ZeroDivisionError] and
    nothing else, exactly when the training time, the inference time or the
    model size is zero. *)
Lemma run_complete_raises
    (accuracy f1_score training inference size : Q) (edge : bool)
    (recall fpr : Q) (arch_choice interp_choice : string) (fastest : Q)
    (e : exn) :
  MainCalculator.run_complete_evaluation accuracy f1_score training
    inference size edge recall fpr arch_choice interp_choice fastest
  = Raise e
  <-> e = ZeroDivisionError
      /\ (training == 0 \/ inference == 0 \/ size == 0).
Proof.
  destruct (Qeq_dec training 0) as [Ht | Ht];
    [| destruct (Qeq_dec inference 0) as [Hi | Hi];
       [| destruct (Qeq_dec size 0) as [Hs | Hs]]].
  4: { destruct (run_complete_closed_form accuracy f1_score training
                   inference size edge recall fpr arch_choice interp_choice
                   fastest Ht Hi Hs) as (novel & score & ev & _ & _ & -> & _).
       split; [discriminate |]. intros [_ [H | [H | H]]]; contradiction. }
  all: pose proof (complete_interp_cases interp_choice) as Hc;
    cbv zeta in Hc;
    unfold MainCalculator.run_complete_evaluation;
    set (entry := dict_get _ interp_choice ("low", 0.2)) in *;
    assert (Hentry : exists label score, entry = (label, score))
      by (destruct entry; eauto);
    destruct Hentry as (label & score & ->).
  - rewrite (truediv_zero _ _ Ht). cbn [mbind result_bind].
    split; [intros [= <-]; auto | now intros [-> _]].
  - rewrite (truediv_nonzero _ _ Ht). cbn [mbind result_bind].
    rewrite (truediv_zero 1 _ Hi). cbn [mbind result_bind].
    split; [intros [= <-]; auto | now intros [-> _]].
  - rewrite (truediv_nonzero _ _ Ht). cbn [mbind result_bind].
    rewrite (truediv_nonzero 1 _ Hi). cbn [mbind result_bind].
    rewrite (truediv_zero _ _ Hs). cbn [mbind result_bind].
    split; [intros [= <-]; auto | now intros [-> _]].
Qed.

(** X25. From the lines typed at its prompts and up to the end of its
    calculations, [run_complete_evaluation] fails in two ways only: with
    [ValueError], exactly when one of its eight numbers is not a number,
    and otherwise with [ZeroDivisionError], exactly when the training time,
    the inference time or the model size is zero. *)
Theorem run_complete_failure
    (accuracy f1_score training_time inference_time model_size : line Q)
    (is_edge : bool) (recall fpr : line Q)
    (arch_choice interp_choice : string) (fastest_infer : line Q)
    (e : exn) :
  MainCalculator.run_complete_evaluation_from_input accuracy f1_score
    training_time inference_time model_size is_edge recall fpr arch_choice
    interp_choice fastest_infer = Raise e
  <-> (e = ValueError
       /\ complete_rejected accuracy f1_score training_time inference_time
            model_size recall fpr fastest_infer)
      \/ (e = ZeroDivisionError
          /\ ~ complete_rejected accuracy f1_score training_time
                 inference_time model_size recall fpr fastest_infer
          /\ (denotes_zero training_time
              \/ denotes_zero inference_time
              \/ denotes_zero model_size)).
Proof.
  unfold MainCalculator.run_complete_evaluation_from_input,
    complete_rejected.
  assert (Hfail : forall P Z : Prop, P ->
            Raise (A := MainCalculator.Evaluation) ValueError = Raise e
            <-> (e = ValueError /\ P)
                \/ (e = ZeroDivisionError /\ ~ P /\ Z)).
  { intros P Z HP. split; [intros [= <-]; auto |].
    intros [[-> _] | (_ & Hn & _)]; [reflexivity | contradiction]. }
  destruct (float_of_cases accuracy) as [[H1 ->] | [a [-> ->]]];
    cbn [mbind result_bind]; [apply Hfail; tauto |].
  destruct (float_of_cases f1_score) as [[H2 ->] | [f [-> ->]]];
    cbn [mbind result_bind]; [apply Hfail; tauto |].
  destruct (float_of_cases training_time) as [[H3 ->] | [t [-> ->]]];
    cbn [mbind result_bind]; [apply Hfail; tauto |].
  destruct (float_of_cases inference_time) as [[H4 ->] | [i [-> ->]]];
    cbn [mbind result_bind]; [apply Hfail; tauto |].
  destruct (float_of_cases model_size) as [[H5 ->] | [s [-> ->]]];
    cbn [mbind result_bind]; [apply Hfail; tauto |].
  destruct (float_of_cases recall) as [[H6 ->] | [r [-> ->]]];
    cbn [mbind result_bind]; [apply Hfail; tauto |].
  destruct (float_of_cases fpr) as [[H7 ->] | [p [-> ->]]];
    cbn [mbind result_bind]; [apply Hfail; tauto |].
  destruct (float_of_cases fastest_infer) as [[H8 ->] | [q [-> ->]]];
    cbn [mbind result_bind]; [apply Hfail; tauto |].
  rewrite run_complete_raises. cbn [rejected denotes_zero].
  split.
  - intros [-> Hz]. right. tauto.
  - intros [[_ H] | (-> & _ & Hz)]; tauto.
Qed.

(** X26. The PFO scores that [run_complete_evaluation] writes out again are
    the ones [main] of the PFO calculator computes from the same answers, in
    either branch. *)
Theorem run_complete_agrees_with_pfo
    (accuracy f1_score training inference size : Q) (edge : bool)
    (recall fpr : Q) (arch_choice interp_choice : string) (fastest : Q)
    (compare : option Pfo.Baseline) :
  ~ training == 0 -> ~ inference == 0 -> ~ size == 0 ->
  exists ev r,
    MainCalculator.run_complete_evaluation accuracy f1_score training
      inference size edge recall fpr arch_choice interp_choice fastest
    = Ok ev
    /\ Pfo.main accuracy f1_score training inference size edge compare = Ok r
    /\ Pfo.detection_score r = MainCalculator.detection_score ev
    /\ Pfo.efficiency_score r = MainCalculator.efficiency_score ev
    /\ Pfo.edge_compatibility r = MainCalculator.edge_score ev
    /\ Pfo.deployment_score r = MainCalculator.deployment_score ev.
Proof.
  intros Ht Hi Hs.
  destruct (run_complete_closed_form accuracy f1_score training inference
              size edge recall fpr arch_choice interp_choice fastest
              Ht Hi Hs)
    as (novel & score & ev & _ & _ & Hev & He & Hd & Hf & Hp & _).
  exists ev.
  unfold Pfo.main, Pfo.calculate_efficiency_score,
    Pfo.calculate_deployment_score.
  rewrite (truediv_nonzero _ _ Ht). cbn [mbind result_bind].
  rewrite (truediv_nonzero _ _ Hi). cbn [mbind result_bind].
  rewrite (truediv_nonzero _ _ Hs). cbn [mbind result_bind].
  rewrite He, Hd, Hf, Hp.
  destruct compare; eexists; (split; [exact Hev |]);
    (split; [reflexivity |]); repeat split.
Qed.

Lemma run_complete_agrees_with_pfo_witness :
  exists ev r,
    MainCalculator.run_complete_evaluation 95 94 100 0.001 5 false 96
      0.0012 "1" "2" 0.0005 = Ok ev
    /\ Pfo.main 95 94 100 0.001 5 false None = Ok r
    /\ Pfo.detection_score r = MainCalculator.detection_score ev
    /\ Pfo.efficiency_score r = MainCalculator.efficiency_score ev
    /\ Pfo.edge_compatibility r = MainCalculator.edge_score ev
    /\ Pfo.deployment_score r = MainCalculator.deployment_score ev.
Proof.
  apply (run_complete_agrees_with_pfo 95 94 100 0.001 5 false 96 0.0012
           "1" "2" 0.0005 None); discriminate.
Defined.

Lemma choice_novel_unique (arch_choice : string) (n1 n2 : Z) :
  (arch_choice = "1" /\ n1 = 90%Z)
  \/ (arch_choice = "2" /\ n1 = 80%Z)
  \/ (arch_choice <> "1" /\ arch_choice <> "2" /\ n1 = 70%Z) ->
  (arch_choice = "1" /\ n2 = 90%Z)
  \/ (arch_choice = "2" /\ n2 = 80%Z)
  \/ (arch_choice <> "1" /\ arch_choice <> "2" /\ n2 = 70%Z) ->
  n1 = n2.
Proof.
  intros [[E1 ->] | [[E1 ->] | (A1 & B1 & ->)]]
         [[E2 ->] | [[E2 ->] | (A2 & B2 & ->)]];
    try reflexivity; subst; try discriminate; contradiction.
Qed.

(** X27. For an FPR of at most 1, the ASC scores that
    [run_complete_evaluation] writes out again are the ones [main] of the ASC
    calculator computes from the same answers, the recall being typed in
    directly. *)
Theorem run_complete_agrees_with_asc
    (accuracy f1_score training inference size : Q) (edge : bool)
    (recall fpr : Q) (arch_choice interp_choice : string) (fastest : Q) :
  ~ training == 0 -> ~ inference == 0 -> ~ size == 0 ->
  fpr <= 1 ->
  exists ev r,
    MainCalculator.run_complete_evaluation accuracy f1_score training
      inference size edge recall fpr arch_choice interp_choice fastest
    = Ok ev
    /\ Asc.main (Asc.Direct recall) fpr arch_choice inference fastest = Ok r
    /\ Asc.tpr r = MainCalculator.tpr ev
    /\ Asc.fpr_min r = MainCalculator.fpr_min ev
    /\ Asc.novel_attack r = MainCalculator.novel_attack ev
    /\ Asc.inference_eff r = MainCalculator.inference_eff ev
    /\ Asc.asc_score r = MainCalculator.asc_score ev.
Proof.
  intros Ht Hi Hs Hfpr.
  destruct (run_complete_closed_form accuracy f1_score training inference
              size edge recall fpr arch_choice interp_choice fastest
              Ht Hi Hs)
    as (novel & score & ev & Hnovel & _ & Hev & _ & _ & _ & _
        & Htpr & Hfm & Hn & Hie & Hasc & _).
  exists ev.
  pose proof (arch_choice_cases arch_choice) as Ha. cbv zeta in Ha.
  unfold Asc.main, Asc.calculate_inference_efficiency.
  cbn [mbind result_bind].
  rewrite (truediv_nonzero _ _ Hi). cbn [mbind result_bind].
  set (n := Asc.get_novel_attack_score _) in *.
  rewrite (choice_novel_unique _ _ _ Ha Hnovel).
  destruct (Qlt_le_dec 1 fpr) as [Hgt | _]; [lra |].
  rewrite Htpr, Hfm, Hn, Hie, Hasc.
  eexists. split; [exact Hev |]. split; [reflexivity |]. repeat split.
Qed.

Lemma run_complete_agrees_with_asc_witness :
  exists ev r,
    MainCalculator.run_complete_evaluation 95 94 100 0.001 5 false 96
      0.0012 "1" "2" 0.0005 = Ok ev
    /\ Asc.main (Asc.Direct 96) 0.0012 "1" 0.001 0.0005 = Ok r
    /\ Asc.tpr r = MainCalculator.tpr ev
    /\ Asc.fpr_min r = MainCalculator.fpr_min ev
    /\ Asc.novel_attack r = MainCalculator.novel_attack ev
    /\ Asc.inference_eff r = MainCalculator.inference_eff ev
    /\ Asc.asc_score r = MainCalculator.asc_score ev.
Proof.
  apply (run_complete_agrees_with_asc 95 94 100 0.001 5 false 96 0.0012
           "1" "2" 0.0005); discriminate.
Defined.

(** Above 1 the two part: the ASC calculator reads the FPR as a
    percentage, [run_complete_evaluation] does not. *)
Example run_complete_differs_from_asc :
  match MainCalculator.run_complete_evaluation 95 94 100 0.001 5 false 96
          2 "1" "2" 0.0005,
        Asc.main (Asc.Direct 96) 2 "1" 0.001 0.0005 with
  | Ok ev, Ok r =>
      MainCalculator.fpr_min ev == -100 /\ Asc.fpr_min r == 98
  | _, _ => False
  end.
Proof. vm_compute. split; reflexivity. Qed.

(** X28. The five costs and the total that [run_complete_evaluation] writes
    out again are the ones [main] of the TCO calculator computes with the
    default parameters from the same answers, the edge compatibility score
    being answered with 1.0. *)
Theorem run_complete_agrees_with_tco
    (accuracy f1_score training inference size : Q) (edge : bool)
    (recall fpr : Q) (arch_choice interp_choice : string) (fastest : Q) :
  ~ training == 0 -> ~ inference == 0 -> ~ size == 0 ->
  exists ev r dep op ir sc cc,
    MainCalculator.run_complete_evaluation accuracy f1_score training
      inference size edge recall fpr arch_choice interp_choice fastest
    = Ok ev
    /\ Tco.main None size training inference fpr edge 1.0 interp_choice
       = Ok r
    /\ Tco.dep_result r !! "total" = Some dep
    /\ Tco.op_result r !! "total" = Some op
    /\ Tco.ir_result r !! "total" = Some ir
    /\ Tco.sc_result r !! "total" = Some sc
    /\ Tco.cc_result r !! "total" = Some cc
    /\ dep == MainCalculator.dep_cost ev
    /\ op == MainCalculator.op_cost ev
    /\ ir == MainCalculator.ir_cost ev
    /\ sc == MainCalculator.sc_cost ev
    /\ cc == MainCalculator.cc_cost ev
    /\ Tco.total_tco r == MainCalculator.tco ev.
Proof.
  intros Ht Hi Hs.
  destruct (run_complete_closed_form accuracy f1_score training inference
              size edge recall fpr arch_choice interp_choice fastest
              Ht Hi Hs)
    as (novel & score & ev & _ & Hscore & Hev & _ & _ & _ & _ & _ & _ & _ & _
        & _ & Hdep & Hop & Hir & Hsc & Hcc & Htco).
  destruct (tco_main_closed_form None size training inference fpr edge 1.0
              interp_choice)
    as (N & Y & F & score' & r & Hsys & Hscore' & Hmain & Hd & Ho & Hi'
        & Hs' & Hc & Ht').
  cbn in Hsys. injection Hsys as <- <- <-.
  rewrite (choice_score_unique _ _ _ Hscore' Hscore) in Hc, Ht'.
  exists ev, r. do 5 eexists.
  split; [exact Hev |]. split; [exact Hmain |].
  split; [exact Hd |]. split; [exact Ho |]. split; [exact Hi' |].
  split; [exact Hs' |]. split; [exact Hc |].
  rewrite Hdep, Hop, Hir, Hsc, Hcc in Htco.
  rewrite Htco, Ht', Hdep, Hop, Hir, Hsc, Hcc.
  split; [reflexivity |]. split; [reflexivity |]. split; [reflexivity |].
  split; [destruct edge; reflexivity |]. split; [reflexivity |].
  destruct edge; reflexivity.
Qed.

Lemma run_complete_agrees_with_tco_witness :
  exists ev r dep op ir sc cc,
    MainCalculator.run_complete_evaluation 95 94 100 0.001 5 true 96
      0.0012 "1" "2" 0.0005 = Ok ev
    /\ Tco.main None 5 100 0.001 0.0012 true 1.0 "2" = Ok r
    /\ Tco.dep_result r !! "total" = Some dep
    /\ Tco.op_result r !! "total" = Some op
    /\ Tco.ir_result r !! "total" = Some ir
    /\ Tco.sc_result r !! "total" = Some sc
    /\ Tco.cc_result r !! "total" = Some cc
    /\ dep == MainCalculator.dep_cost ev
    /\ op == MainCalculator.op_cost ev
    /\ ir == MainCalculator.ir_cost ev
    /\ sc == MainCalculator.sc_cost ev
    /\ cc == MainCalculator.cc_cost ev
    /\ Tco.total_tco r == MainCalculator.tco ev.
Proof.
  apply (run_complete_agrees_with_tco 95 94 100 0.001 5 true 96 0.0012
           "1" "2" 0.0005); discriminate.
Defined.

(** ** synthesis_calculator.py, further properties *)

(** X2. On a proper range the ends of the range get the ends of the scale: the
    minimum scores 0 and the maximum 100, or the other way round with the
    inverse flag. *)
Theorem normalize_score_endpoints (mn mx : Q) :
  ~ mx == mn ->
  Synthesis.normalize_score mn mn mx false == 0
  /\ Synthesis.normalize_score mx mn mx false == 100
  /\ Synthesis.normalize_score mn mn mx true == 100
  /\ Synthesis.normalize_score mx mn mx true == 0.
Proof.
  intros Hne. unfold Synthesis.normalize_score.
  destruct (Qeq_bool mx mn) eqn:E;
    [apply Qeq_bool_iff in E; contradiction |].
  assert (Hd : ~ mx - mn == 0) by (intros H; apply Hne; lra).
  repeat split; field; exact Hd.
Qed.

Lemma normalize_score_endpoints_witness :
  Synthesis.normalize_score 300000 300000 500000 false == 0
  /\ Synthesis.normalize_score 500000 300000 500000 false == 100
  /\ Synthesis.normalize_score 300000 300000 500000 true == 100
  /\ Synthesis.normalize_score 500000 300000 500000 true == 0.
Proof.
  apply (normalize_score_endpoints 300000 500000). discriminate.
Defined.

(** X4. Whatever weight set construction yields, default, typed in or
    renormalised, has the five dimension names as its keys and no other key.
    *)
Theorem built_weights_keys (custom : bool) (ans : Synthesis.WeightAnswers)
    (warned : bool) (w : gmap string Q) :
  Synthesis.build_weights custom ans = (warned, Ok w) ->
  forall k,
    is_Some (w !! k)
    <-> k ∈ ["detection"; "asc"; "tco"; "deployment"; "efficiency"].
Proof.
  intros Hbuild k.
  rewrite <- elem_of_dom, (build_weights_dom _ _ _ _ Hbuild).
  unfold Synthesis.WEIGHTS. rewrite !dom_insert_L, dom_empty_L.
  rewrite !elem_of_cons, elem_of_nil.
  rewrite !elem_of_union, !elem_of_singleton, elem_of_empty. tauto.
Qed.

Lemma built_weights_keys_witness :
  is_Some (Synthesis.WEIGHTS !! "tco")
  <-> "tco" ∈ ["detection"; "asc"; "tco"; "deployment"; "efficiency"].
Proof.
  apply (built_weights_keys false (typed 0 0 0 0 0) false Synthesis.WEIGHTS).
  reflexivity.
Defined.


Lemma ranking_outcome (w : gmap string Q) (models : list Synthesis.Model)
    (e : exn) :
  dom Synthesis.WEIGHTS ⊆ dom w ->
  (Synthesis.compare_models w models
     ≫= (fun results => Ok (Synthesis.final_rankings results))) = Raise e
  <-> e = ValueError /\ models = [].
Proof.
  intros Hsub. destruct models as [| m rest].
  - cbn. split; [intros [= <-]; auto | now intros [-> _]].
  - destruct (score_models_ok w (m :: rest) ltac:(discriminate) Hsub)
      as (tmin & tmax & dmin & dmax & emin & emax & unsorted
          & _ & _ & _ & _ & _ & _ & Hscore & _).
    rewrite (compare_models_sorts _ _ _ Hscore). cbn.
    split; [discriminate | intros [_ [=]]].
Qed.

Lemma zero_sum_deviates (total : Q) :
  total == 0 -> 0.01 < Qabs (total - 1.0).
Proof. intros ->. reflexivity. Qed.

Lemma read_weight_input_cases (w : Synthesis.WeightInput) :
  (weights_rejected (Some w)
   /\ Synthesis.read_weight_input w = Raise ValueError)
  \/ (~ weights_rejected (Some w)
      /\ Synthesis.read_weight_input w
         = Ok {| Synthesis.ans_detection :=
                   answer_of (Synthesis.in_weight_detection w);
                 Synthesis.ans_asc := answer_of (Synthesis.in_weight_asc w);
                 Synthesis.ans_tco := answer_of (Synthesis.in_weight_tco w);
                 Synthesis.ans_deployment :=
                   answer_of (Synthesis.in_weight_deployment w);
                 Synthesis.ans_efficiency :=
                   answer_of (Synthesis.in_weight_efficiency w) |}).
Proof.
  destruct w as [d a t p e]. unfold Synthesis.read_weight_input. cbn.
  destruct d; cbn; [| | left; auto];
    (destruct a; cbn; [| | left; auto]);
    (destruct t; cbn; [| | left; auto]);
    (destruct p; cbn; [| | left; auto 6]);
    (destruct e; cbn; [| | left; auto 6]);
    right; (split; [intros [H | [H | [H | [H | H]]]]; discriminate
                   | reflexivity]).
Qed.

Lemma weight_answer (text : line Q) (current : Q) :
  0 < current -> not_negative_number text ->
  0 <= Synthesis.answer_or (answer_of text) current
  /\ (Synthesis.answer_or (answer_of text) current == 0
      <-> denotes_zero text).
Proof.
  intros Hc Hn. destruct text as [| x |]; cbn in *.
  - split; [lra |]. split; [lra | contradiction].
  - split; [exact Hn | reflexivity].
  - split; [lra |]. split; [lra | contradiction].
Qed.

Lemma read_model_cases (m : Synthesis.ModelInput) :
  (model_rejected m /\ Synthesis.read_model m = Raise ValueError)
  \/ (~ model_rejected m /\ exists model, Synthesis.read_model m = Ok model).
Proof.
  destruct m as [n d a t p e]. unfold Synthesis.read_model, model_rejected.
  cbn.
  destruct (float_of_cases d) as [[H1 ->] | [x1 [-> ->]]];
    cbn [mbind result_bind]; [left; auto |].
  destruct (float_of_cases a) as [[H2 ->] | [x2 [-> ->]]];
    cbn [mbind result_bind]; [left; auto |].
  destruct (float_of_cases t) as [[H3 ->] | [x3 [-> ->]]];
    cbn [mbind result_bind]; [left; auto |].
  destruct (float_of_cases p) as [[H4 ->] | [x4 [-> ->]]];
    cbn [mbind result_bind]; [left; auto 6 |].
  destruct (float_of_cases e) as [[H5 ->] | [x5 [-> ->]]];
    cbn [mbind result_bind]; [left; auto 6 |].
  right. cbn. split; [tauto | eauto].
Qed.

Lemma mapM_read_models (typed_models : nat -> Synthesis.ModelInput)
    (ks : list nat) :
  ((exists i, i ∈ ks /\ model_rejected (typed_models i))
   /\ mapM (fun i => Synthesis.read_model (typed_models i)) ks
      = Raise ValueError)
  \/ ((forall i, i ∈ ks -> ~ model_rejected (typed_models i))
      /\ exists models,
           mapM (fun i => Synthesis.read_model (typed_models i)) ks
           = Ok models
           /\ length models = length ks).
Proof.
  induction ks as [| k ks IH]; cbn.
  - right. split; [intros i Hi; now apply elem_of_nil in Hi | eauto].
  - destruct (read_model_cases (typed_models k)) as [[Hk ->] | [Hk [m ->]]];
      cbn.
    + left. split; [| reflexivity]. exists k. split; [left | exact Hk].
    + destruct IH as [[(i & Hi & Hr) ->] | [Hall (models & -> & Hlen)]]; cbn.
      * left. split; [| reflexivity]. exists i. split; [now right | exact Hr].
      * right. split.
        -- intros i Hi. apply elem_of_cons in Hi as [-> | Hi]; auto.
        -- exists (m :: models). split; [reflexivity | cbn; now rewrite Hlen].
Qed.

(** X5. From the lines typed at its prompts, with custom weights that are
    not negative, a comparison run of [main] fails up to the sorted ranking
    in two ways only, never with a [KeyError]: with [ZeroDivisionError],
    exactly when the five custom weights are all typed as zero, and with
    [ValueError], when a custom weight is not a number or, the weight set
    being built, when the number of models is not a number or not positive
    or a line of a model is not a number. *)
Theorem main_compare_failure (customize : option Synthesis.WeightInput)
    (num_models : line Z) (typed_models : nat -> Synthesis.ModelInput)
    (e : exn) :
  weights_not_negative customize ->
  snd (Synthesis.main_compare_from_input customize num_models typed_models)
  = Raise e
  <-> (e = ValueError
       /\ (weights_rejected customize
           \/ (~ weights_all_zero customize
               /\ candidates_rejected num_models typed_models)))
      \/ (e = ZeroDivisionError /\ weights_all_zero customize).
Proof.
  intros Hnn. unfold Synthesis.main_compare_from_input.
  assert (Hrank : forall w,
             dom Synthesis.WEIGHTS ⊆ dom w ->
             (n ← int_of num_models;
              models ← mapM (fun i => Synthesis.read_model (typed_models i))
                            (seq 0 (Z.to_nat n));
              results ← Synthesis.compare_models w models;
              Ok (Synthesis.final_rankings results)) = Raise e
             <-> e = ValueError
                 /\ candidates_rejected num_models typed_models).
  { intros w Hsub.
    destruct num_models as [| n |]; cbn;
      try (split; [intros [= <-]; auto | now intros [-> _]]).
    destruct (mapM_read_models typed_models (seq 0 (Z.to_nat n)))
      as [[(i & Hi & Hr) ->] | [Hall (models & -> & Hlen)]];
      cbn [mbind result_bind].
    - apply elem_of_seq in Hi.
      split; [intros [= <-] | now intros [-> _]].
      split; [reflexivity |]. right. exists i. split; [lia | exact Hr].
    - rewrite ranking_outcome by exact Hsub.
      rewrite length_seq in Hlen.
      split; intros [-> H]; (split; [reflexivity |]).
      + subst models. cbn in Hlen. left. lia.
      + destruct H as [Hn | (i & Hi & Hr)].
        * destruct models; [reflexivity | cbn in Hlen; lia].
        * exfalso. apply (Hall i); [| exact Hr].
          apply elem_of_seq. lia. }
  destruct customize as [w |]; cbn [weights_rejected weights_all_zero].
  - destruct (read_weight_input_cases w) as [[Hr ->] | [Hr ->]].
    + cbn [snd mbind result_bind]. cbn in Hr. split.
      * intros [= <-]. left. split; [reflexivity | now left].
      * intros [[-> _] | [_ Hz]]; [reflexivity |].
        exfalso. destruct Hz as (H1 & H2 & H3 & H4 & H5).
        destruct Hr as [H | [H | [H | [H | H]]]];
          rewrite H in *; contradiction.
    + cbn in Hnn. destruct Hnn as (N1 & N2 & N3 & N4 & N5).
      cbn in Hr.
      rewrite (build_weights_custom _ _ (read_weights_default _)).
      cbn [Synthesis.ans_detection Synthesis.ans_asc Synthesis.ans_tco
           Synthesis.ans_deployment Synthesis.ans_efficiency].
      destruct (weight_answer _ 0.30 eq_refl N1) as [P1 Z1].
      destruct (weight_answer _ 0.25 eq_refl N2) as [P2 Z2].
      destruct (weight_answer _ 0.20 eq_refl N3) as [P3 Z3].
      destruct (weight_answer _ 0.15 eq_refl N4) as [P4 Z4].
      destruct (weight_answer _ 0.10 eq_refl N5) as [P5 Z5].
      set (wd := Synthesis.answer_or _ 0.30) in *.
      set (wa := Synthesis.answer_or _ 0.25) in *.
      set (wt := Synthesis.answer_or _ 0.20) in *.
      set (wp := Synthesis.answer_or _ 0.15) in *.
      set (we := Synthesis.answer_or _ 0.10) in *.
      pose proof (sum_values_weight_dict wd wa wt wp we) as Hsum.
      assert (Hzero : sum_values (weight_dict wd wa wt wp we) == 0
                      <-> denotes_zero (Synthesis.in_weight_detection w)
                          /\ denotes_zero (Synthesis.in_weight_asc w)
                          /\ denotes_zero (Synthesis.in_weight_tco w)
                          /\ denotes_zero (Synthesis.in_weight_deployment w)
                          /\ denotes_zero (Synthesis.in_weight_efficiency w)).
      { rewrite <- Z1, <- Z2, <- Z3, <- Z4, <- Z5, Hsum.
        split; [intros H; repeat split; lra | intros (? & ? & ? & ? & ?); lra]. }
      destruct (Qeq_dec (sum_values (weight_dict wd wa wt wp we)) 0)
        as [Hz | Hnz].
      * pose proof (zero_sum_deviates _ Hz) as Hdev.
        destruct (Qlt_le_dec 0.01
                    (Qabs (sum_values (weight_dict wd wa wt wp we) - 1.0)))
          as [_ | Hle]; [| lra].
        rewrite (renormalize_zero _ _ Hz (weight_dict_nonempty _ _ _ _ _)).
        cbn [snd mbind result_bind]. split.
        -- intros [= <-]. right. split; [reflexivity | now apply Hzero].
        -- intros [[_ [H | [H _]]] | [-> _]]; [contradiction | | reflexivity].
           exfalso. apply H. now apply Hzero.
      * assert (Hbuilt : exists warned w',
                   (if Qlt_le_dec 0.01
                         (Qabs (sum_values (weight_dict wd wa wt wp we)
                                - 1.0))
                    then (true,
                          Synthesis.renormalize
                            (sum_values (weight_dict wd wa wt wp we))
                            (weight_dict wd wa wt wp we))
                    else (false, Ok (weight_dict wd wa wt wp we)))
                   = (warned, Ok w')
                   /\ dom Synthesis.WEIGHTS ⊆ dom w').
        { destruct (Qlt_le_dec 0.01 _).
          - rewrite (renormalize_nonzero _ _ Hnz). do 2 eexists.
            split; [reflexivity |]. now rewrite dom_fmap_L, dom_weight_dict.
          - do 2 eexists. split; [reflexivity |]. now rewrite dom_weight_dict. }
        destruct Hbuilt as (warned & w' & -> & Hsub).
        cbn [snd mbind result_bind]. rewrite (Hrank w' Hsub).
        rewrite <- Hzero. split.
        -- intros [-> Hc]. left. split; [reflexivity |]. right. auto.
        -- intros [[-> [H | [_ Hc]]] | [_ H]]; [contradiction | auto |].
           contradiction.
  - cbn [snd mbind result_bind].
    rewrite (Hrank Synthesis.WEIGHTS) by reflexivity.
    split.
    + intros [-> Hc]. left. split; [reflexivity |]. right. tauto.
    + intros [[-> [[] | [_ Hc]]] | [_ []]]. auto.
Qed.

Lemma main_compare_failure_witness :
  snd (Synthesis.main_compare_from_input
         (Some {| Synthesis.in_weight_detection := Denotes 0;
                  Synthesis.in_weight_asc := Denotes 0;
                  Synthesis.in_weight_tco := Denotes 0;
                  Synthesis.in_weight_deployment := Denotes 0;
                  Synthesis.in_weight_efficiency := Denotes 0 |})
         Garbled
         (fun _ => {| Synthesis.in_name := "A";
                      Synthesis.in_detection := Blank;
                      Synthesis.in_asc := Blank;
                      Synthesis.in_tco := Blank;
                      Synthesis.in_deployment := Blank;
                      Synthesis.in_efficiency := Blank |}))
  = Raise ZeroDivisionError.
Proof.
  apply main_compare_failure.
  - cbn. repeat apply conj; discriminate.
  - right. split; [reflexivity |]. cbn. repeat apply conj; reflexivity.
Defined.

Lemma main_compare_total_witness :
  exists rows,
    Synthesis.main_compare false (typed 0 0 0 0 0)
      [candidate_A; candidate_B] = (false, Ok rows)
    /\ map fst rows = seq 1 (length [candidate_A; candidate_B]).
Proof.
  apply (main_compare_total false (typed 0 0 0 0 0)
           [candidate_A; candidate_B] false Synthesis.WEIGHTS);
    [discriminate | reflexivity].
Defined.

Lemma ranking_scores_in_range_witness :
  exists results,
    Synthesis.compare_models Synthesis.WEIGHTS [candidate_A; candidate_B]
    = Ok results
    /\ Forall (fun r => 0 <= Synthesis.tco_norm r <= 100
                        /\ 0 <= Synthesis.deployment_norm r <= 100
                        /\ 0 <= Synthesis.efficiency_norm r <= 100) results.
Proof.
  apply (ranking_scores_in_range Synthesis.WEIGHTS
           [candidate_A; candidate_B]); [discriminate | reflexivity].
Defined.


(** On binary64 floats the default weighted sum of five scores of 100 is
    exactly 100, and that of five scores of 0 is 0.  The weights are
    positive and rounding is monotone, so that no scores in between give
    more, or less. *)
Example final_score_ends_binary64 :
  Binary64.calculate_final_score 100 100 100 100 100 = 100%float
  /\ Binary64.calculate_final_score 0 0 0 0 0 = 0%float.
Proof. split; reflexivity. Qed.

(** X3. With the default weights, whether no weights are passed, an empty
    dict, or the default dict as [main] passes it, the weighted sum stays
    within the scale of its inputs: five scores between 0 and 100 give a
    final score between 0 and 100. *)
Theorem final_score_in_scale (det asc tco dep eff : Q)
    (weights : option (gmap string Q)) :
  Synthesis.weights_or_default weights = Synthesis.WEIGHTS ->
  0 <= det <= 100 -> 0 <= asc <= 100 -> 0 <= tco <= 100 ->
  0 <= dep <= 100 -> 0 <= eff <= 100 ->
  exists final,
    Synthesis.calculate_final_score det asc tco dep eff weights = Ok final
    /\ 0 <= final <= 100.
Proof.
  intros Hw Hdet Hasc Htco Hdep Heff.
  unfold Synthesis.calculate_final_score. rewrite Hw.
  rewrite (getitem_Some Synthesis.WEIGHTS "detection" 0.30 eq_refl),
    (getitem_Some Synthesis.WEIGHTS "asc" 0.25 eq_refl),
    (getitem_Some Synthesis.WEIGHTS "tco" 0.20 eq_refl),
    (getitem_Some Synthesis.WEIGHTS "deployment" 0.15 eq_refl),
    (getitem_Some Synthesis.WEIGHTS "efficiency" 0.10 eq_refl).
  cbn [mbind result_bind].
  eexists. split; [reflexivity |]. lra.
Qed.

Lemma final_score_in_scale_witness :
  exists final,
    Synthesis.calculate_final_score 90 95 100 0 50 (Some Synthesis.WEIGHTS)
    = Ok final
    /\ 0 <= final <= 100.
Proof.
  apply (final_score_in_scale 90 95 100 0 50 (Some Synthesis.WEIGHTS));
    try reflexivity; split; discriminate.
Defined.

Lemma scored_final (w : gmap string Q) (tmin tmax dmin dmax emin emax : Q)
    (m : Synthesis.Model) (r : Synthesis.Result) (wd wa wt wp we : Q) :
  w !! "detection" = Some wd ->
  w !! "asc" = Some wa ->
  w !! "tco" = Some wt ->
  w !! "deployment" = Some wp ->
  w !! "efficiency" = Some we ->
  scored w tmin tmax dmin dmax emin emax m r ->
  Synthesis.final_score r
  = wd * Synthesis.detection_norm r + wa * Synthesis.asc_norm r
    + wt * Synthesis.tco_norm r + wp * Synthesis.deployment_norm r
    + we * Synthesis.efficiency_norm r.
Proof.
  intros Hd Ha Ht Hp He (_ & _ & _ & _ & _ & _ & Hf).
  rewrite (calculate_final_score_lookup _ _ _ _ _ w wd wa wt wp we
             Hd Ha Ht Hp He) in Hf.
  now injection Hf as <-.
Qed.

Lemma weights_present (w : gmap string Q) :
  dom Synthesis.WEIGHTS ⊆ dom w ->
  exists wd wa wt wp we,
    w !! "detection" = Some wd
    /\ w !! "asc" = Some wa
    /\ w !! "tco" = Some wt
    /\ w !! "deployment" = Some wp
    /\ w !! "efficiency" = Some we.
Proof.
  intros Hsub.
  destruct (weight_present w "detection" 0.30 Hsub eq_refl) as [wd Hd].
  destruct (weight_present w "asc" 0.25 Hsub eq_refl) as [wa Ha].
  destruct (weight_present w "tco" 0.20 Hsub eq_refl) as [wt Ht].
  destruct (weight_present w "deployment" 0.15 Hsub eq_refl) as [wp Hp].
  destruct (weight_present w "efficiency" 0.10 Hsub eq_refl) as [we He].
  exists wd, wa, wt, wp, we. auto.
Qed.

Lemma py_min_single (x : Q) : py_min [x] = Ok x.
Proof. reflexivity. Qed.

Lemma py_max_single (x : Q) : py_max [x] = Ok x.
Proof. reflexivity. Qed.

Lemma normalize_score_degenerate (x : Q) (inverse : bool) :
  Synthesis.normalize_score x x x inverse = if inverse then 100.0 else 0.0.
Proof.
  unfold Synthesis.normalize_score.
  now rewrite (proj2 (Qeq_bool_iff x x) (Qeq_refl x)).
Qed.

(** X9. A single candidate is ranked first with the degenerate scores: 100 for
    cost, 0 for deployment and efficiency, whatever its raw values, so that
    its final score is made of its detection and coverage and of the whole
    cost weight. *)
Theorem single_candidate_ranking (weights : gmap string Q)
    (m : Synthesis.Model) :
  dom Synthesis.WEIGHTS ⊆ dom weights ->
  exists r,
    Synthesis.compare_models weights [m] = Ok [r]
    /\ Synthesis.final_rankings [r] = [(1%nat, r)]
    /\ Synthesis.r_name r = Synthesis.name m
    /\ Synthesis.detection_norm r = Synthesis.detection m
    /\ Synthesis.asc_norm r = Synthesis.asc m
    /\ Synthesis.tco_norm r = 100.0
    /\ Synthesis.deployment_norm r = 0.0
    /\ Synthesis.efficiency_norm r = 0.0
    /\ (forall wd wa wt,
           weights !! "detection" = Some wd ->
           weights !! "asc" = Some wa ->
           weights !! "tco" = Some wt ->
           Synthesis.final_score r
           == wd * Synthesis.detection m + wa * Synthesis.asc m + wt * 100).
Proof.
  intros Hsub.
  destruct (weights_present weights Hsub)
    as (wd & wa & wt & wp & we & Hd & Ha & Ht & Hp & He).
  unfold Synthesis.compare_models, Synthesis.score_models.
  cbn [map]. rewrite !py_min_single, !py_max_single.
  cbn [mbind result_bind mapM]. unfold Synthesis.score_model.
  rewrite !normalize_score_degenerate.
  rewrite (calculate_final_score_lookup _ _ _ _ _ weights wd wa wt wp we
             Hd Ha Ht Hp He).
  cbn. eexists. split; [reflexivity |]. cbn.
  repeat (split; [reflexivity |]).
  intros wd' wa' wt' Hd' Ha' Ht'.
  rewrite Hd in Hd'. rewrite Ha in Ha'. rewrite Ht in Ht'.
  injection Hd' as <-. injection Ha' as <-. injection Ht' as <-.
  assert (E100 : 100.0 == 100) by reflexivity.
  assert (E0 : 0.0 == 0) by reflexivity.
  rewrite E100, E0. ring.
Qed.

Lemma single_candidate_ranking_witness :
  exists r,
    Synthesis.compare_models Synthesis.WEIGHTS [candidate_A] = Ok [r]
    /\ Synthesis.final_rankings [r] = [(1%nat, r)]
    /\ Synthesis.r_name r = Synthesis.name candidate_A
    /\ Synthesis.detection_norm r = Synthesis.detection candidate_A
    /\ Synthesis.asc_norm r = Synthesis.asc candidate_A
    /\ Synthesis.tco_norm r = 100.0
    /\ Synthesis.deployment_norm r = 0.0
    /\ Synthesis.efficiency_norm r = 0.0
    /\ (forall wd wa wt,
           Synthesis.WEIGHTS !! "detection" = Some wd ->
           Synthesis.WEIGHTS !! "asc" = Some wa ->
           Synthesis.WEIGHTS !! "tco" = Some wt ->
           Synthesis.final_score r
           == wd * Synthesis.detection candidate_A
              + wa * Synthesis.asc candidate_A + wt * 100).
Proof.
  apply (single_candidate_ranking Synthesis.WEIGHTS candidate_A).
  reflexivity.
Defined.

Lemma weighted_le (w x y : Q) : 0 <= w -> x <= y -> w * x <= w * y.
Proof.
  intros Hw Hxy. rewrite !(Qmult_comm w). now apply Qmult_le_compat_r.
Qed.

Lemma normalize_score_order (mn mx v1 v2 : Q) :
  mn <= mx -> v1 <= v2 ->
  Synthesis.normalize_score v1 mn mx false
  <= Synthesis.normalize_score v2 mn mx false
  /\ Synthesis.normalize_score v2 mn mx true
     <= Synthesis.normalize_score v1 mn mx true.
Proof.
  intros Hm Hv. unfold Synthesis.normalize_score.
  destruct (Qeq_bool mx mn) eqn:E; [split; apply Qle_refl |].
  pose proof (proper_range mn mx E Hm) as Hd.
  split; apply scaled_le; try exact Hd; lra.
Qed.

(** X10. With weights that are not negative, a candidate that is at least as
    good as another in every dimension never gets a lower final score. *)
Theorem dominance_respected (weights : gmap string Q)
    (models : list Synthesis.Model) :
  models <> [] ->
  dom Synthesis.WEIGHTS ⊆ dom weights ->
  (forall k v, weights !! k = Some v -> 0 <= v) ->
  exists rows,
    Synthesis.score_models weights models = Ok rows
    /\ forall i j a b ra rb,
         models !! i = Some a -> rows !! i = Some ra ->
         models !! j = Some b -> rows !! j = Some rb ->
         dominates a b ->
         Synthesis.final_score rb <= Synthesis.final_score ra.
Proof.
  intros Hne Hsub Hpos.
  destruct (score_models_ok weights models Hne Hsub)
    as (tmin & tmax & dmin & dmax & emin & emax & rows
        & Htmin & Htmax & Hdmin & Hdmax & Hemin & Hemax & Hscore & Hrows).
  exists rows. split; [exact Hscore |].
  intros i j a b ra rb Ha Hra Hb Hrb (Hdet & Hasc & Htco & Hdep & Heff).
  pose proof (Forall2_lookup_lr _ _ _ _ _ _ Hrows Ha Hra) as Hsa.
  pose proof (Forall2_lookup_lr _ _ _ _ _ _ Hrows Hb Hrb) as Hsb.
  destruct (weights_present weights Hsub)
    as (wd & wa & wt & wp & we & Hwd & Hwa & Hwt & Hwp & Hwe).
  rewrite (scored_final _ _ _ _ _ _ _ _ _ _ _ _ _ _
             Hwd Hwa Hwt Hwp Hwe Hsa).
  rewrite (scored_final _ _ _ _ _ _ _ _ _ _ _ _ _ _
             Hwd Hwa Hwt Hwp Hwe Hsb).
  assert (Hin : a ∈ models) by (eapply list_elem_of_lookup_2, Ha).
  pose proof (between_min_max Synthesis.tco models _ _ Htmin Htmax) as Bt.
  pose proof (between_min_max Synthesis.deployment models _ _ Hdmin Hdmax)
    as Bd.
  pose proof (between_min_max Synthesis.efficiency models _ _ Hemin Hemax)
    as Be.
  rewrite Forall_forall in Bt, Bd, Be.
  destruct (Bt a Hin) as [Bt1 Bt2]. destruct (Bd a Hin) as [Bd1 Bd2].
  destruct (Be a Hin) as [Be1 Be2].
  destruct Hsa as (_ & -> & -> & -> & -> & -> & _).
  destruct Hsb as (_ & -> & -> & -> & -> & -> & _).
  pose proof (proj2 (normalize_score_order tmin tmax _ _
                       ltac:(lra) Htco)) as Nt.
  pose proof (proj1 (normalize_score_order dmin dmax _ _
                       ltac:(lra) Hdep)) as Nd.
  pose proof (proj1 (normalize_score_order emin emax _ _
                       ltac:(lra) Heff)) as Ne.
  pose proof (Hpos _ _ Hwd) as Pd. pose proof (Hpos _ _ Hwa) as Pa.
  pose proof (Hpos _ _ Hwt) as Pt. pose proof (Hpos _ _ Hwp) as Pp.
  pose proof (Hpos _ _ Hwe) as Pe.
  repeat apply Qplus_le_compat; apply weighted_le; assumption.
Qed.

Lemma dominance_respected_witness :
  exists rows,
    Synthesis.score_models Synthesis.WEIGHTS [candidate_A; candidate_B]
    = Ok rows
    /\ forall i j a b ra rb,
         [candidate_A; candidate_B] !! i = Some a -> rows !! i = Some ra ->
         [candidate_A; candidate_B] !! j = Some b -> rows !! j = Some rb ->
         dominates a b ->
         Synthesis.final_score rb <= Synthesis.final_score ra.
Proof.
  apply (dominance_respected Synthesis.WEIGHTS [candidate_A; candidate_B]);
    [discriminate | reflexivity |].
  intros k v Hk.
  assert (Hdom : k ∈ dom Synthesis.WEIGHTS) by (apply elem_of_dom; eauto).
  unfold Synthesis.WEIGHTS in Hdom.
  rewrite !dom_insert_L, dom_empty_L in Hdom.
  rewrite !elem_of_union, !elem_of_singleton, elem_of_empty in Hdom.
  destruct Hdom as [-> | [-> | [-> | [-> | [-> | []]]]]];
    vm_compute in Hk; injection Hk as <-; discriminate.
Defined.
